(** * Verification of [analisis_sent.py]: the sentiment KPI gauge builder

    The script holds one builder, [grafico_kpi_sentimiento], and a driver
    that runs it on literal sample values.  The builder takes three integer
    counts, a float target, a title, a flag and an optional colour list,
    and returns a Plotly figure (one Indicator trace plus a layout) or
    raises.

    Python integers are unbounded, so they are [Z].  Python floats are
    IEEE 754 binary64 numbers: they are modelled by [spec_float] with
    [prec = 53] and [emax = 1024], and every float operation of the source
    is the correctly rounded operation of [SpecFloat] (round to nearest,
    ties to even).  The division of two integers is the correctly rounded
    quotient, and raises [OverflowError] when it is beyond the float range.
    Exceptions are an error monad; the driver's printing and display go
    through an explicit [World].

    Two checks made outside the text of the script can stop it, and both
    are part of the embedding.  Turning an integer into text, as the
    f-strings do, raises [ValueError] beyond 4300 digits, the default of
    [sys.get_int_max_str_digits()] (CPython 3.11).  Plotly validates every
    property when a trace, an annotation or a layout is built: the colours
    are the only properties the script takes from its caller that Plotly
    can refuse, and an invalid colour raises [ValueError].  The console is
    taken to accept the text printed on it and the display to accept the
    figure: [print] and [fig.show()] do not fail.

    The file has the embedding first (modules [Py], [Float], [Format],
    [Plotly], [Effects], [Script]), then the notions the statements use
    ([Spec]), the theory of binary64 rounding the percentages need
    ([Rounding]), the step lemmas of the builder ([Builder]) and last the
    properties of the specification, C1 to C10. *)

From Stdlib Require Import ZArith QArith Qabs Qpower Lia Lqa List String Ascii Bool.
From Stdlib Require Import SpecFloat DecimalString Zpower.
Import ListNotations.

Local Open Scope string_scope.
Local Open Scope Z_scope.

(** ** Python exceptions and results *)

Module Py.

Inductive exn : Type :=
| ValueError (msg : string)
| IndexError (msg : string)
| OverflowError (msg : string)
| ZeroDivisionError (msg : string).

Inductive result (A : Type) : Type :=
| Ok (a : A)
| Raise (e : exn).

Arguments Ok {A} a.
Arguments Raise {A} e.

Definition is_ok {A} (r : result A) : bool :=
  match r with Ok _ => true | Raise _ => false end.

Definition and_then {A B} (r : result A) (k : A -> result B) : result B :=
  match r with
  | Ok a => k a
  | Raise e => Raise e
  end.

(** [l[i]] for a non-negative literal index [i]. *)
Definition getitem {A} (l : list A) (i : nat) : result A :=
  match nth_error l i with
  | Some a => Ok a
  | None => Raise (IndexError "list index out of range")
  end.

End Py.
Import Py.

(** ** Binary64 floats *)

Module Float.

Definition prec : Z := 53.
Definition emax : Z := 1024.

Definition float : Type := spec_float.

Definition mul : float -> float -> float := SFmul prec emax.
Definition sub : float -> float -> float := SFsub prec emax.
Definition add : float -> float -> float := SFadd prec emax.
Definition div : float -> float -> float := SFdiv prec emax.
Definition opp : float -> float := SFopp.

(** [x >= y]; false as soon as one side is NaN. *)
Definition ge (x y : float) : bool := SFleb y x.
Definition eqb (x y : float) : bool := SFeqb x y.

(** An integer as an exact, not yet rounded, mantissa at exponent 0. *)
Definition exact_of_Z (z : Z) : float :=
  match z with
  | Z0 => S754_zero false
  | Zpos p => S754_finite false p 0
  | Zneg p => S754_finite true p 0
  end.

(** [float(z)] for an integer inside the float range. *)
Definition of_Z (z : Z) : float := binary_normalize prec emax z 0 false.

(** The float literal [m * 10^e], correctly rounded. *)
Definition of_decimal (m e : Z) : float :=
  match e with
  | Zneg p => div (exact_of_Z m) (exact_of_Z (10 ^ Zpos p))
  | _ => of_Z (m * 10 ^ e)
  end.

(** [a / b] on integers ([long_true_divide]): the correctly rounded
    quotient; a zero dividend gives the zero of the quotient's sign. *)
Definition int_true_divide (a b : Z) : result float :=
  if b =? 0 then Raise (ZeroDivisionError "division by zero")
  else if a =? 0 then Ok (S754_zero (b <? 0))
  else match div (exact_of_Z a) (exact_of_Z b) with
       | S754_infinity _ =>
           Raise (OverflowError "integer division result too large for a float")
       | q => Ok q
       end.

(** The rational a float denotes (0 for the non-finite ones). *)
Definition pow2 (e : Z) : Q := Qpower 2 e.

Definition to_Q (x : float) : Q :=
  match x with
  | S754_finite s m e => inject_Z (cond_Zopp s (Zpos m)) * pow2 e
  | _ => 0%Q
  end.

Definition is_finite (x : float) : bool :=
  match x with
  | S754_zero _ | S754_finite _ _ _ => true
  | _ => false
  end.

(** [+0.0] or a positive finite float. *)
Definition is_nonneg_finite (x : float) : bool :=
  match x with
  | S754_zero false | S754_finite false _ _ => true
  | _ => false
  end.

End Float.
Import Float.

(** ** String formatting of numbers, as f-strings do it *)

Module Format.

(** The decimal writing of an integer, with its sign. *)
Definition str_of_Z (z : Z) : string := NilZero.string_of_int (Z.to_int z).

(** [sys.get_int_max_str_digits()], at its default. *)
Definition int_max_str_digits : Z := 4300.

Definition int_str_limit_message : string :=
  "Exceeds the limit (4300 digits) for integer string conversion; use sys.set_int_max_str_digits() to increase the limit".

(** Whether the integer can be turned into text: it has no more decimal
    digits, the sign not counted, than the limit. *)
Definition int_str_ok (z : Z) : bool := Z.abs z <? 10 ^ int_max_str_digits.

(** [str(z)] and [f"{z}"] for an integer. *)
Definition format_int (z : Z) : result string :=
  if int_str_ok z then Ok (str_of_Z z)
  else Raise (ValueError int_str_limit_message).

Definition newline : string := String (ascii_of_nat 10) "".

Fixpoint repeat_string (n : nat) (s : string) : string :=
  match n with
  | O => ""
  | S n' => s ++ repeat_string n' s
  end.

(** [n / d] rounded to the nearest integer, ties to even ([0 <= n], [0 < d]). *)
Definition round_half_even (n d : Z) : Z :=
  let q := n / d in
  let r := n mod d in
  match 2 * r ?= d with
  | Lt => q
  | Gt => q + 1
  | Eq => if Z.even q then q else q + 1
  end.

(** The magnitude [m * 2^e] as a fraction of integers. *)
Definition frac_of (m : positive) (e : Z) : Z * Z :=
  if 0 <=? e then (Zpos m * 2 ^ e, 1) else (Zpos m, 2 ^ (- e)).

Definition sign_str (s plus : bool) : string :=
  if s then "-" else if plus then "+" else "".

(** [format(x, ".1f")], and [format(x, "+.1f")] when [plus] is set: the
    exact binary value rounded to one decimal, ties to even. *)
Definition fixed1 (plus : bool) (x : float) : string :=
  match x with
  | S754_nan => sign_str false plus ++ "nan"
  | S754_infinity s => sign_str s plus ++ "inf"
  | S754_zero s => sign_str s plus ++ "0.0"
  | S754_finite s m e =>
      let '(n, d) := frac_of m e in
      let t := round_half_even (10 * n) d in
      sign_str s plus ++ str_of_Z (t / 10) ++ "." ++ str_of_Z (t mod 10)
  end.

Definition digits10 (z : Z) : Z := Z.of_nat (String.length (str_of_Z z)).

(** [floor (log10 (n / d))] for positive [n] and [d]. *)
Definition floor_log10 (n d : Z) : Z :=
  if d <=? n then digits10 (n / d) - 1
  else
    let j := digits10 (d / n) in
    if n * 10 ^ (j - 1) =? d then - (j - 1) else - j.

(** [(n / d) / 10^q] as a fraction. *)
Definition scale10 (n d q : Z) : Z * Z :=
  if 0 <=? q then (n, d * 10 ^ q) else (n * 10 ^ (- q), d).

(** The shortest decimal [digits * 10^q] that reads back as [x] (the
    magnitude [n / d] of a finite positive float), trying [k], [k+1], ...
    significant digits; among two candidates of one length, the nearest. *)
Fixpoint shortest (fuel : nat) (k : Z) (x : float) (n d l10 : Z) : Z * Z :=
  let q := l10 - k + 1 in
  let '(sn, sd) := scale10 n d q in
  let lo := sn / sd in
  let r := sn mod sd in
  let hi := lo + 1 in
  let near :=
    match 2 * r ?= sd with
    | Lt => lo
    | Gt => hi
    | Eq => if Z.even lo then lo else hi
    end in
  match fuel with
  | O => (near, q)
  | S fuel' =>
      let ok_lo := eqb (of_decimal lo q) x in
      let ok_hi := eqb (of_decimal hi q) x in
      if ok_lo && ok_hi then (near, q)
      else if ok_lo then (lo, q)
      else if ok_hi then (hi, q)
      else shortest fuel' (k + 1) x n d l10
  end.

Fixpoint strip_zeros (fuel : nat) (digits q : Z) : Z * Z :=
  match fuel with
  | O => (digits, q)
  | S fuel' =>
      if (digits mod 10 =? 0) && (0 <? digits)
      then strip_zeros fuel' (digits / 10) (q + 1)
      else (digits, q)
  end.

Definition zeros (n : Z) : string := repeat_string (Z.to_nat n) "0".

Definition pad2 (z : Z) : string :=
  if z <? 10 then "0" ++ str_of_Z z else str_of_Z z.

(** The layout rule of [repr]: [ds] are the digits, the decimal point
    sits after [decpt] of them. *)
Definition repr_layout (ds : string) (decpt : Z) : string :=
  let k := Z.of_nat (String.length ds) in
  if (-4 <? decpt) && (decpt <=? 16) then
    if decpt <=? 0 then "0." ++ zeros (- decpt) ++ ds
    else if k <=? decpt then ds ++ zeros (decpt - k) ++ ".0"
    else substring 0 (Z.to_nat decpt) ds ++ "."
         ++ substring (Z.to_nat decpt) (Z.to_nat (k - decpt)) ds
  else
    let ex := decpt - 1 in
    substring 0 1 ds
    ++ (if 1 <? k then "." ++ substring 1 (Z.to_nat (k - 1)) ds else "")
    ++ "e" ++ (if ex <? 0 then "-" else "+") ++ pad2 (Z.abs ex).

(** [repr(x)], which is what [f"{x}"] prints for a float. *)
Definition repr (x : float) : string :=
  match x with
  | S754_nan => "nan"
  | S754_infinity s => sign_str s false ++ "inf"
  | S754_zero s => sign_str s false ++ "0.0"
  | S754_finite s m e =>
      let '(n, d) := frac_of m e in
      let '(dg, q) := shortest 16 1 (S754_finite false m e) n d (floor_log10 n d) in
      let '(dg, q) := strip_zeros 17 dg q in
      let ds := str_of_Z dg in
      sign_str s false ++ repr_layout ds (q + Z.of_nat (String.length ds))
  end.

End Format.

(** ** The figure: the part of Plotly's data model the script fills in *)

Module Plotly.

(** A numeric property value: Plotly takes Python integers and floats. *)
Inductive num : Type :=
| Int (z : Z)
| Flt (x : float).

Record Font : Type := mkFont {
  font_size : option Z;
  font_color : option string;
  font_family : option string }.

Record Title : Type := mkTitle {
  title_text : string;
  title_font : Font }.

Record Number : Type := mkNumber {
  number_suffix : string;
  number_font : Font }.

Record Delta : Type := mkDelta {
  delta_reference : float;
  delta_increasing_color : string;
  delta_decreasing_color : string;
  delta_suffix : string;
  delta_font : Font }.

Record Axis : Type := mkAxis {
  axis_range : list Z;
  axis_tickwidth : Z;
  axis_tickcolor : string;
  axis_tickmode : string;
  axis_tick0 : Z;
  axis_dtick : Z }.

Record Bar : Type := mkBar {
  bar_color : string;
  bar_thickness : float }.

Record Step : Type := mkStep {
  step_range : list Z;
  step_color : string }.

Record Line : Type := mkLine {
  line_color : string;
  line_width : Z }.

Record Threshold : Type := mkThreshold {
  threshold_line : Line;
  threshold_thickness : float;
  threshold_value : float }.

Record Gauge : Type := mkGauge {
  gauge_axis : Axis;
  gauge_bar : Bar;
  gauge_bgcolor : string;
  gauge_borderwidth : Z;
  gauge_bordercolor : string;
  gauge_steps : list Step;
  gauge_threshold : Threshold }.

Record Domain : Type := mkDomain {
  domain_x : list num;
  domain_y : list num }.

Record Indicator : Type := mkIndicator {
  ind_mode : string;
  ind_value : float;
  ind_domain : Domain;
  ind_title : Title;
  ind_number : Number;
  ind_delta : Delta;
  ind_gauge : Gauge }.

Record Annotation : Type := mkAnnotation {
  ann_text : string;
  ann_xref : string;
  ann_yref : string;
  ann_x : float;
  ann_y : float;
  ann_showarrow : bool;
  ann_font : Font;
  ann_align : string;
  ann_bgcolor : string;
  ann_bordercolor : string;
  ann_borderwidth : Z;
  ann_borderpad : Z }.

Record Margin : Type := mkMargin {
  margin_l : Z;
  margin_r : Z;
  margin_t : Z;
  margin_b : Z }.

Record Layout : Type := mkLayout {
  layout_annotations : list Annotation;
  layout_height : option Z;
  layout_margin : option Margin;
  layout_paper_bgcolor : option string;
  layout_font : option Font }.

Record Figure : Type := mkFigure {
  fig_data : list Indicator;
  fig_layout : Layout }.

(** *** Colour validation

    Plotly checks every colour property when a trace, an annotation or a
    layout is built ([ColorValidator] of [_plotly_utils.basevalidators]): a
    string is a colour when, once its spaces are removed and it is put in
    lower case, it is a hex colour, an rgb, hsl or hsv expression, a theme
    variable or one of the named CSS colours.  Strings are the UTF-8 bytes
    of the Python text. *)

Definition code (c : ascii) : Z := Z.of_nat (nat_of_ascii c).

Definition char (n : Z) : ascii := ascii_of_nat (Z.to_nat n).

(** [v.replace(" ", "")] *)
Fixpoint remove_spaces (v : string) : string :=
  match v with
  | EmptyString => EmptyString
  | String c r => if code c =? 32 then remove_spaces r else String c (remove_spaces r)
  end.

(** [v.lower()], for the characters whose lower case is an ASCII one: the
    letters A to Z and the Kelvin sign U+212A (bytes E2 84 AA), whose lower
    case is [k].  No other lower case contains a character that the
    patterns below tell apart. *)
Fixpoint lower (v : string) : string :=
  match v with
  | EmptyString => EmptyString
  | String c r =>
      let rest := String (if (65 <=? code c) && (code c <=? 90)
                          then char (code c + 32) else c) (lower r) in
      match r with
      | String c2 (String c3 r') =>
          if (code c =? 226) && (code c2 =? 132) && (code c3 =? 170)
          then String (char 107) (lower r')
          else rest
      | _ => rest
      end
  end.

Definition normalize (v : string) : string := lower (remove_spaces v).

Fixpoint forall_chars (p : ascii -> bool) (s : string) : bool :=
  match s with
  | EmptyString => true
  | String c r => p c && forall_chars p r
  end.

(** [s] without the prefix [p], when it starts with it. *)
Fixpoint strip_prefix (p s : string) : option string :=
  match p, s with
  | EmptyString, _ => Some s
  | String a p', String b s' => if code a =? code b then strip_prefix p' s' else None
  | String _ _, EmptyString => None
  end.

(** [#([A-Fa-f0-9]{6}|[A-Fa-f0-9]{3})] *)
Definition is_hex_digit (c : ascii) : bool :=
  let n := code c in
  ((48 <=? n) && (n <=? 57)) || ((97 <=? n) && (n <=? 102))
  || ((65 <=? n) && (n <=? 70)).

Definition re_hex (s : string) : bool :=
  match s with
  | String h r =>
      (code h =? 35)
      && ((Nat.eqb (String.length r) 6) || (Nat.eqb (String.length r) 3))
      && forall_chars is_hex_digit r
  | EmptyString => false
  end.

(** The first character of a UTF-8 string, as a code point. *)
Definition decode_first (s : string) : option (Z * string) :=
  match s with
  | EmptyString => None
  | String a r =>
      let x := code a in
      if x <? 128 then Some (x, r)
      else if x <? 192 then None
      else if x <? 224 then
        match r with
        | String b r1 => Some ((x - 192) * 64 + (code b - 128), r1)
        | _ => None
        end
      else if x <? 240 then
        match r with
        | String b (String c r2) =>
            Some ((x - 224) * 4096 + (code b - 128) * 64 + (code c - 128), r2)
        | _ => None
        end
      else
        match r with
        | String b (String c (String d r3)) =>
            Some ((x - 240) * 262144 + (code b - 128) * 4096
                  + (code c - 128) * 64 + (code d - 128), r3)
        | _ => None
        end
  end.

(** The zeros of the decimal digits of Unicode 14.0 (category Nd), which
    is what [\d] matches in a pattern on text: each is followed by its
    digits 1 to 9. *)
Definition decimal_zeros : list Z :=
  [ 0x30; 0x660; 0x6f0; 0x7c0; 0x966; 0x9e6; 0xa66; 0xae6; 0xb66; 0xbe6;
    0xc66; 0xce6; 0xd66; 0xde6; 0xe50; 0xed0; 0xf20; 0x1040; 0x1090;
    0x17e0; 0x1810; 0x1946; 0x19d0; 0x1a80; 0x1a90; 0x1b50; 0x1bb0;
    0x1c40; 0x1c50; 0xa620; 0xa8d0; 0xa900; 0xa9d0; 0xa9f0; 0xaa50;
    0xabf0; 0xff10; 0x104a0; 0x10d30; 0x11066; 0x110f0; 0x11136; 0x111d0;
    0x112f0; 0x11450; 0x114d0; 0x11650; 0x116c0; 0x11730; 0x118e0;
    0x11950; 0x11c50; 0x11d50; 0x11da0; 0x16a60; 0x16ac0; 0x16b50;
    0x1d7ce; 0x1d7d8; 0x1d7e2; 0x1d7ec; 0x1d7f6;
    0x1e140; 0x1e2f0; 0x1e950; 0x1fbf0 ].

Definition is_decimal (cp : Z) : bool :=
  existsb (fun z => (z <=? cp) && (cp <? z + 10)) decimal_zeros.

(** What is left of [s] after its longest prefix in [[\d.]*]. *)
Fixpoint skip_digits (fuel : nat) (s : string) : string :=
  match fuel with
  | O => s
  | S fuel' =>
      match decode_first s with
      | Some (cp, r) =>
          if (cp =? 46) || is_decimal cp then skip_digits fuel' r else s
      | None => s
      end
  end.

(** What is left of [s] after a prefix in [[\d.]+%?]. *)
Definition skip_number (s : string) : option string :=
  let r := skip_digits (String.length s) s in
  if Nat.ltb (String.length r) (String.length s) then
    match r with
    | String c r' => if code c =? 37 then Some r' else Some r
    | EmptyString => Some r
    end
  else None.

(** What is left of [s] after a prefix in [,[\d.]+%?]. *)
Definition skip_comma_number (s : string) : option string :=
  match s with
  | String c r => if code c =? 44 then skip_number r else None
  | EmptyString => None
  end.

(** [(rgb|hsl|hsv)a?\([\d.]+%?(,[\d.]+%?){2,3}\)] *)
Definition re_rgb_etc (s : string) : bool :=
  let name :=
    match strip_prefix "rgb" s, strip_prefix "hsl" s, strip_prefix "hsv" s with
    | Some r, _, _ | None, Some r, _ | None, None, Some r => Some r
    | None, None, None => None
    end in
  let open :=
    match name with
    | Some r =>
        match strip_prefix "a(" r with
        | Some r' => Some r'
        | None => strip_prefix "(" r
        end
    | None => None
    end in
  match open with
  | Some r0 =>
      match skip_number r0 with
      | Some r1 =>
          match skip_comma_number r1 with
          | Some r2 =>
              match skip_comma_number r2 with
              | Some r3 =>
                  String.eqb r3 ")"
                  || match skip_comma_number r3 with
                     | Some r4 => String.eqb r4 ")"
                     | None => false
                     end
              | None => false
              end
          | None => false
          end
      | None => false
      end
  | None => false
  end.

Fixpoint last_char (s : string) : option ascii :=
  match s with
  | EmptyString => None
  | String c EmptyString => Some c
  | String _ r => last_char r
  end.

(** [var\(\-\-.*\)]: the dot matches everything but a newline. *)
Definition re_ddk (s : string) : bool :=
  match strip_prefix "var(--" s with
  | Some r =>
      match last_char r with
      | Some c => (code c =? 41) && forall_chars (fun c => negb (code c =? 10)) r
      | None => false
      end
  | None => false
  end.

Definition named_colors : list string :=
  [ "aliceblue"; "antiquewhite"; "aqua"; "aquamarine"; "azure"; "beige";
    "bisque"; "black"; "blanchedalmond"; "blue"; "blueviolet"; "brown";
    "burlywood"; "cadetblue"; "chartreuse"; "chocolate"; "coral";
    "cornflowerblue"; "cornsilk"; "crimson"; "cyan"; "darkblue";
    "darkcyan"; "darkgoldenrod"; "darkgray"; "darkgrey"; "darkgreen";
    "darkkhaki"; "darkmagenta"; "darkolivegreen"; "darkorange";
    "darkorchid"; "darkred"; "darksalmon"; "darkseagreen";
    "darkslateblue"; "darkslategray"; "darkslategrey"; "darkturquoise";
    "darkviolet"; "deeppink"; "deepskyblue"; "dimgray"; "dimgrey";
    "dodgerblue"; "firebrick"; "floralwhite"; "forestgreen"; "fuchsia";
    "gainsboro"; "ghostwhite"; "gold"; "goldenrod"; "gray"; "grey";
    "green"; "greenyellow"; "honeydew"; "hotpink"; "indianred"; "indigo";
    "ivory"; "khaki"; "lavender"; "lavenderblush"; "lawngreen";
    "lemonchiffon"; "lightblue"; "lightcoral"; "lightcyan";
    "lightgoldenrodyellow"; "lightgray"; "lightgrey"; "lightgreen";
    "lightpink"; "lightsalmon"; "lightseagreen"; "lightskyblue";
    "lightslategray"; "lightslategrey"; "lightsteelblue"; "lightyellow";
    "lime"; "limegreen"; "linen"; "magenta"; "maroon";
    "mediumaquamarine"; "mediumblue"; "mediumorchid"; "mediumpurple";
    "mediumseagreen"; "mediumslateblue"; "mediumspringgreen";
    "mediumturquoise"; "mediumvioletred"; "midnightblue"; "mintcream";
    "mistyrose"; "moccasin"; "navajowhite"; "navy"; "oldlace"; "olive";
    "olivedrab"; "orange"; "orangered"; "orchid"; "palegoldenrod";
    "palegreen"; "paleturquoise"; "palevioletred"; "papayawhip";
    "peachpuff"; "peru"; "pink"; "plum"; "powderblue"; "purple"; "red";
    "rosybrown"; "royalblue"; "rebeccapurple"; "saddlebrown"; "salmon";
    "sandybrown"; "seagreen"; "seashell"; "sienna"; "silver"; "skyblue";
    "slateblue"; "slategray"; "slategrey"; "snow"; "springgreen";
    "steelblue"; "tan"; "teal"; "thistle"; "tomato"; "turquoise";
    "violet"; "wheat"; "white"; "whitesmoke"; "yellow"; "yellowgreen" ].

(** Whether Plotly takes the string [v] as a colour. *)
Definition color_ok (v : string) : bool :=
  let s := normalize v in
  re_hex s || re_rgb_etc s || re_ddk s || existsb (String.eqb s) named_colors.

(** The head of the message of the [ValueError] Plotly raises for the
    property [name] of the object [parent]; the received value and the
    description of the accepted values, which follow it, are left out. *)
Definition invalid_value (parent name : string) : string :=
  Format.newline ++ "    Invalid value of type 'builtins.str' received for the '"
  ++ name ++ "' property of " ++ parent.

(** A colour property: the object it belongs to, its name, its value. *)
Definition color_property : Type := string * string * string.

(** The colour properties are checked in turn; the first one that is not
    a colour raises. *)
Fixpoint check_colors (l : list color_property) : result unit :=
  match l with
  | [] => Ok tt
  | (parent, name, v) :: l' =>
      if color_ok v then check_colors l'
      else Raise (ValueError (invalid_value parent name))
  end.

Definition font_colors (parent : string) (f : Font) : list color_property :=
  match font_color f with
  | Some c => [(parent, "color", c)]
  | None => []
  end.

(** The colour properties of a trace, in the order Plotly sets them: the
    properties of an object in alphabetical order, each object in full. *)
Definition indicator_colors (t : Indicator) : list color_property :=
  let d := ind_delta t in
  let g := ind_gauge t in
  [("indicator.delta.decreasing", "color", delta_decreasing_color d)]
  ++ font_colors "indicator.delta.font" (delta_font d)
  ++ [("indicator.delta.increasing", "color", delta_increasing_color d);
      ("indicator.gauge.axis", "tickcolor", axis_tickcolor (gauge_axis g));
      ("indicator.gauge.bar", "color", bar_color (gauge_bar g));
      ("indicator.gauge", "bgcolor", gauge_bgcolor g);
      ("indicator.gauge", "bordercolor", gauge_bordercolor g)]
  ++ map (fun s => ("indicator.gauge.step", "color", step_color s)) (gauge_steps g)
  ++ [("indicator.gauge.threshold.line", "color",
       line_color (threshold_line (gauge_threshold g)))]
  ++ font_colors "indicator.number.font" (number_font (ind_number t))
  ++ font_colors "indicator.title.font" (title_font (ind_title t)).

Definition annotation_colors (a : Annotation) : list color_property :=
  [("layout.annotation", "bgcolor", ann_bgcolor a);
   ("layout.annotation", "bordercolor", ann_bordercolor a)]
  ++ font_colors "layout.annotation.font" (ann_font a).

(** [go.Indicator(...)]: the trace, once its properties are validated. *)
Definition go_Indicator (t : Indicator) : result Indicator :=
  and_then (check_colors (indicator_colors t)) (fun _ => Ok t).

Definition empty_layout : Layout := mkLayout [] None None None None.

(** [go.Figure(trace)] *)
Definition new_figure (trace : Indicator) : Figure :=
  mkFigure [trace] empty_layout.

(** The figure with one more annotation, after those it has. *)
Definition annotated (a : Annotation) (fig : Figure) : Figure :=
  let ly := fig_layout fig in
  mkFigure (fig_data fig)
    (mkLayout (layout_annotations ly ++ [a]) (layout_height ly)
       (layout_margin ly) (layout_paper_bgcolor ly) (layout_font ly)).

(** [fig.add_annotation(...)] validates the annotation and appends it to
    the layout's annotations. *)
Definition add_annotation (a : Annotation) (fig : Figure) : result Figure :=
  and_then (check_colors (annotation_colors a)) (fun _ => Ok (annotated a fig)).

(** The figure with these four layout properties set. *)
Definition laid_out (height : Z) (margin : Margin) (paper_bgcolor : string)
    (font : Font) (fig : Figure) : Figure :=
  mkFigure (fig_data fig)
    (mkLayout (layout_annotations (fig_layout fig)) (Some height) (Some margin)
       (Some paper_bgcolor) (Some font)).

(** [fig.update_layout(height=, margin=, paper_bgcolor=, font=)] validates
    the properties and sets them. *)
Definition update_layout (height : Z) (margin : Margin) (paper_bgcolor : string)
    (font : Font) (fig : Figure) : result Figure :=
  and_then
    (check_colors (("layout", "paper_bgcolor", paper_bgcolor)
                   :: font_colors "layout.font" font))
    (fun _ => Ok (laid_out height margin paper_bgcolor font fig)).

(** The figure without its annotations. *)
Definition without_annotations (fig : Figure) : Figure :=
  let ly := fig_layout fig in
  mkFigure (fig_data fig)
    (mkLayout [] (layout_height ly) (layout_margin ly)
       (layout_paper_bgcolor ly) (layout_font ly)).

End Plotly.
Import Plotly.

(** ** Effects: what the script can do to the outside *)

Module Effects.

Record World : Type := mkWorld {
  stdout : list string;        (* one entry per [print] call *)
  displayed : list Figure;     (* figures handed to [fig.show()] *)
  files : list (string * Figure) (* figures written with [write_html] *) }.

Definition M (A : Type) : Type := World -> result A * World.

Definition ret {A} (a : A) : M A := fun w => (Ok a, w).

Definition bind {A B} (c : M A) (k : A -> M B) : M B :=
  fun w =>
    match c w with
    | (Ok a, w') => k a w'
    | (Raise e, w') => (Raise e, w')
    end.

Definition raise {A} (e : exn) : M A := fun w => (Raise e, w).

Definition lift {A} (r : result A) : M A := fun w => (r, w).

Definition print (s : string) : M unit :=
  fun w => (Ok tt, mkWorld (stdout w ++ [s]) (displayed w) (files w)).

Definition show (fig : Figure) : M unit :=
  fun w => (Ok tt, mkWorld (stdout w) (displayed w ++ [fig]) (files w)).

Definition empty_world : World := mkWorld [] [] [].

End Effects.
Import Effects.

Declare Scope py_scope.
Delimit Scope py_scope with py.
Notation "x <- c ;; k" := (bind c (fun x => k))
  (at level 61, c at next level, right associativity) : py_scope.
Notation "c ;;; k" := (bind c (fun _ => k))
  (at level 61, right associativity) : py_scope.

(** ** The script *)

Module Script.

Local Open Scope py_scope.

(** Float literals of the source. *)
Definition lit_0_7 : float := of_decimal 7 (-1).
Definition lit_0_1 : float := of_decimal 1 (-1).
Definition lit_0_75 : float := of_decimal 75 (-2).
Definition lit_0_5 : float := of_decimal 5 (-1).
Definition lit_0_25 : float := of_decimal 25 (-2).
Definition lit_70_0 : float := of_decimal 700 (-1).

(** Defaults of the keyword parameters (lines 9 to 12). *)
Definition default_objetivo_positivo : float := lit_70_0.
Definition default_titulo : string := "KPI: Sentimiento Positivo".
Definition default_mostrar_desglose : bool := true.

(** Lines 32 to 36: the colours used when [colores_gauge is None]. *)
Definition default_colores_gauge : list string :=
  ["#e74c3c"; "#f39c12"; "#2ecc71"].

Definition empty_total_message : string :=
  "El total de sentimientos no puede ser 0".

(** [(count / total) * 100], lines 45 to 47. *)
Definition porcentaje (count total : Z) : result float :=
  match int_true_divide count total with
  | Ok q => Ok (mul q (of_Z 100))
  | Raise e => Raise e
  end.

(** Lines 51 to 56: the index of [colores_gauge] the bar colour is read at. *)
Definition indice_color_barra (pct_positivo objetivo_positivo : float) : nat :=
  if ge pct_positivo objetivo_positivo then 2%nat
  else if ge pct_positivo (mul objetivo_positivo lit_0_7) then 1%nat
  else 0%nat.

(** Lines 104 to 108. *)
Definition steps : list Step :=
  [ mkStep [0; 40] "rgba(231, 76, 60, 0.2)";
    mkStep [40; 70] "rgba(243, 156, 18, 0.2)";
    mkStep [70; 100] "rgba(46, 204, 113, 0.2)" ].

(** Lines 121 to 127, once the four integers are turned into text. *)
Definition desglose_formato (total positivos negativos neutros : string)
    (pct_positivo pct_negativo pct_neutro objetivo_positivo : float) : string :=
  "<b>Desglose Total: " ++ total ++ "</b><br>"
  ++ "✅ Positivos: " ++ positivos
  ++ " (" ++ Format.fixed1 false pct_positivo ++ "%)<br>"
  ++ "❌ Negativos: " ++ negativos
  ++ " (" ++ Format.fixed1 false pct_negativo ++ "%)<br>"
  ++ "⚪ Neutros: " ++ neutros
  ++ " (" ++ Format.fixed1 false pct_neutro ++ "%)<br>"
  ++ "<b>Objetivo: " ++ Format.repr objetivo_positivo ++ "%</b>".

(** Lines 121 to 127: the f-strings are evaluated from left to right. *)
Definition desglose_texto (total positivos negativos neutros : Z)
    (pct_positivo pct_negativo pct_neutro objetivo_positivo : float)
    : M string :=
  s_total <- lift (Format.format_int total) ;;
  s_positivos <- lift (Format.format_int positivos) ;;
  s_negativos <- lift (Format.format_int negativos) ;;
  s_neutros <- lift (Format.format_int neutros) ;;
  ret (desglose_formato s_total s_positivos s_negativos s_neutros
         pct_positivo pct_negativo pct_neutro objetivo_positivo).

(** Lines 129 to 140. *)
Definition desglose (texto : string) : Annotation :=
  mkAnnotation texto "paper" "paper" lit_0_5 (opp lit_0_25) false
    (mkFont (Some 14) (Some "#34495e") None) "center"
    "rgba(255, 255, 255, 0.9)" "#bdc3c7" 2 10.

(** Lines 59 to 117: the properties given to [go.Indicator], once the
    colours are read. *)
Definition indicador (pct_positivo objetivo_positivo : float) (titulo : string)
    (color_barra increasing decreasing : string) : Indicator :=
  mkIndicator "gauge+number+delta" pct_positivo
    (mkDomain [Int 0; Int 1] [Flt lit_0_1; Int 1])
    (mkTitle titulo (mkFont (Some 26) (Some "#2c3e50") None))
    (mkNumber "%" (mkFont (Some 50) (Some color_barra) None))
    (mkDelta objetivo_positivo increasing decreasing "%"
       (mkFont (Some 20) None None))
    (mkGauge
       (mkAxis [0; 100] 2 "darkgray" "linear" 0 20)
       (mkBar color_barra lit_0_75)
       "white" 3 "#34495e"
       steps
       (mkThreshold (mkLine "#e74c3c" 4) lit_0_75 objetivo_positivo)).

(** Lines 143 to 148. *)
Definition layout_final (fig : Figure) : result Figure :=
  update_layout 550 (mkMargin 40 40 80 150) "white"
    (mkFont None None (Some "Arial, sans-serif")) fig.

(** Lines 5 to 150. *)
Definition grafico_kpi_sentimiento (positivos negativos neutros : Z)
    (objetivo_positivo : float) (titulo : string) (mostrar_desglose : bool)
    (colores_gauge : option (list string)) : M Figure :=
  let colores_gauge :=
    match colores_gauge with
    | None => default_colores_gauge
    | Some l => l
    end in
  let total := positivos + negativos + neutros in
  if total =? 0 then raise (ValueError empty_total_message)
  else
    pct_positivo <- lift (porcentaje positivos total) ;;
    pct_negativo <- lift (porcentaje negativos total) ;;
    pct_neutro <- lift (porcentaje neutros total) ;;
    color_barra <-
      lift (getitem colores_gauge
              (indice_color_barra pct_positivo objetivo_positivo)) ;;
    increasing <- lift (getitem colores_gauge 2) ;;
    decreasing <- lift (getitem colores_gauge 0) ;;
    trace <-
      lift (go_Indicator
              (indicador pct_positivo objetivo_positivo titulo
                 color_barra increasing decreasing)) ;;
    let fig := new_figure trace in
    fig <-
      (if mostrar_desglose then
         texto <- desglose_texto total positivos negativos neutros
                    pct_positivo pct_negativo pct_neutro objetivo_positivo ;;
         lift (add_annotation (desglose texto) fig)
       else ret fig) ;;
    lift (layout_final fig).

(** Lines 158 to 166: the literal sample values. *)
Definition POSITIVOS : Z := 120.
Definition NEGATIVOS : Z := 30.
Definition NEUTROS : Z := 50.
Definition OBJETIVO : float := lit_70_0.
Definition TITULO_GRAFICO : string := "Análisis de Sentimiento - Redes Sociales".

(** Line 169, commented out in the source: a custom colour list. *)
Definition MIS_COLORES : list string := ["#ff6b6b"; "#ffd93d"; "#6bcf7f"].

(** Lines 176 to 223: the driver. *)
Definition main : M unit :=
  let total := POSITIVOS + NEGATIVOS + NEUTROS in
  porcentaje_actual <- lift (porcentaje POSITIVOS total) ;;
  print (Format.repeat_string 60 "=") ;;;
  print "📊 GENERANDO GRÁFICO DE KPI DE SENTIMIENTO" ;;;
  print (Format.repeat_string 60 "=") ;;;
  print (Format.newline ++ "📝 Datos configurados:") ;;;
  s_positivos <- lift (Format.format_int POSITIVOS) ;;
  print ("   Positivos: " ++ s_positivos) ;;;
  s_negativos <- lift (Format.format_int NEGATIVOS) ;;
  print ("   Negativos: " ++ s_negativos) ;;;
  s_neutros <- lift (Format.format_int NEUTROS) ;;
  print ("   Neutros: " ++ s_neutros) ;;;
  s_total <- lift (Format.format_int total) ;;
  print ("   Total: " ++ s_total) ;;;
  print (Format.newline ++ "🎯 Objetivo: " ++ Format.repr OBJETIVO ++ "%") ;;;
  print ("📈 Resultado actual: " ++ Format.fixed1 false porcentaje_actual ++ "%") ;;;
  let estado :=
    if ge porcentaje_actual OBJETIVO then "✅ ¡OBJETIVO ALCANZADO!"
    else if ge porcentaje_actual (mul OBJETIVO lit_0_7)
         then "⚠️  Cerca del objetivo"
         else "❌ Por debajo del objetivo" in
  print (Format.newline ++ estado) ;;;
  print ("Diferencia: " ++ Format.fixed1 true (sub porcentaje_actual OBJETIVO)
         ++ " puntos porcentuales") ;;;
  print (Format.newline ++ Format.repeat_string 60 "=") ;;;
  print "🚀 Abriendo gráfico en el navegador..." ;;;
  print (Format.repeat_string 60 "=" ++ Format.newline) ;;;
  fig <- grafico_kpi_sentimiento POSITIVOS NEGATIVOS NEUTROS OBJETIVO
           TITULO_GRAFICO true None ;;
  show fig.

(** The value the Indicator's delta displays: [value - reference], the
    difference the driver prints at line 206. *)
Definition delta_mostrado (ind : Indicator) : float :=
  sub (ind_value ind) (delta_reference (ind_delta ind)).

(** Lines 195 to 203: the status the driver prints. *)
Definition estado (porcentaje_actual objetivo : float) : string :=
  if ge porcentaje_actual objetivo then "✅ ¡OBJETIVO ALCANZADO!"
  else if ge porcentaje_actual (mul objetivo lit_0_7)
       then "⚠️  Cerca del objetivo"
       else "❌ Por debajo del objetivo".

(** Lines 176 to 223 for any values of the constants of lines 158 to 166,
    which the source asks its user to modify. *)
Definition driver (positivos negativos neutros : Z) (objetivo : float)
    (titulo_grafico : string) : M unit :=
  let total := positivos + negativos + neutros in
  porcentaje_actual <- lift (porcentaje positivos total) ;;
  print (Format.repeat_string 60 "=") ;;;
  print "📊 GENERANDO GRÁFICO DE KPI DE SENTIMIENTO" ;;;
  print (Format.repeat_string 60 "=") ;;;
  print (Format.newline ++ "📝 Datos configurados:") ;;;
  s_positivos <- lift (Format.format_int positivos) ;;
  print ("   Positivos: " ++ s_positivos) ;;;
  s_negativos <- lift (Format.format_int negativos) ;;
  print ("   Negativos: " ++ s_negativos) ;;;
  s_neutros <- lift (Format.format_int neutros) ;;
  print ("   Neutros: " ++ s_neutros) ;;;
  s_total <- lift (Format.format_int total) ;;
  print ("   Total: " ++ s_total) ;;;
  print (Format.newline ++ "🎯 Objetivo: " ++ Format.repr objetivo ++ "%") ;;;
  print ("📈 Resultado actual: " ++ Format.fixed1 false porcentaje_actual ++ "%") ;;;
  print (Format.newline ++ estado porcentaje_actual objetivo) ;;;
  print ("Diferencia: " ++ Format.fixed1 true (sub porcentaje_actual objetivo)
         ++ " puntos porcentuales") ;;;
  print (Format.newline ++ Format.repeat_string 60 "=") ;;;
  print "🚀 Abriendo gráfico en el navegador..." ;;;
  print (Format.repeat_string 60 "=" ++ Format.newline) ;;;
  fig <- grafico_kpi_sentimiento positivos negativos neutros objetivo
           titulo_grafico true None ;;
  show fig.

End Script.
Import Script.

(** ** Notions the statements below are phrased with *)

Module Spec.

(** The value [(count / total) * 100] over exact rationals. *)
Definition pct_exact (count total : Z) : Q :=
  (inject_Z count / inject_Z total * 100)%Q.

(** The relative tolerance of the percentage sum, [1e-9]. *)
Definition tolerancia : Q := 1 # 1000000000.

(** The accumulated rounding error of one percentage: half a unit in the
    last place of a float under 128, plus 100 times that of a float under 1. *)
Definition pct_error : Q := (pow2 (-47) + 100 * pow2 (-53))%Q.

(** The colour list in effect (lines 31 to 36). *)
Definition colores_en_uso (colores_gauge : option (list string)) : list string :=
  match colores_gauge with
  | None => default_colores_gauge
  | Some l => l
  end.

(** The colours the builder can read are colours for Plotly. *)
Definition colores_validos (colores : list string) : bool :=
  forallb color_ok (firstn 3 colores).

(** The three counts and their total can be turned into text. *)
Definition cuentas_imprimibles (positivos negativos neutros : Z) : bool :=
  Format.int_str_ok (positivos + negativos + neutros)
  && Format.int_str_ok positivos && Format.int_str_ok negativos
  && Format.int_str_ok neutros.

(** The text of the breakdown, when the counts can be turned into text. *)
Definition texto_desglose (total positivos negativos neutros : Z)
    (pct_positivo pct_negativo pct_neutro objetivo_positivo : float) : string :=
  desglose_formato (Format.str_of_Z total) (Format.str_of_Z positivos)
    (Format.str_of_Z negativos) (Format.str_of_Z neutros)
    pct_positivo pct_negativo pct_neutro objetivo_positivo.

(** The figure the builder assembles from the values it has computed. *)
Definition figura (total positivos negativos neutros : Z)
    (pct_positivo pct_negativo pct_neutro objetivo_positivo : float)
    (titulo : string) (mostrar_desglose : bool)
    (color_barra increasing decreasing : string) : Figure :=
  let fig :=
    new_figure
      (indicador pct_positivo objetivo_positivo titulo
         color_barra increasing decreasing) in
  laid_out 550 (mkMargin 40 40 80 150) "white"
    (mkFont None None (Some "Arial, sans-serif"))
    (if mostrar_desglose then
       annotated
         (desglose
            (texto_desglose total positivos negativos neutros
               pct_positivo pct_negativo pct_neutro objetivo_positivo))
         fig
     else fig).

(** The colours of the zones of a trace. *)
Definition zone_colors (ind : Indicator) : list (option string) :=
  map (fun s => Some (step_color s)) (gauge_steps (ind_gauge ind)).

(** The value of a hexadecimal digit. *)
Definition hex_digit (c : ascii) : option Z :=
  let n := Z.of_nat (nat_of_ascii c) in
  if (48 <=? n) && (n <=? 57) then Some (n - 48)
  else if (97 <=? n) && (n <=? 102) then Some (n - 87)
  else if (65 <=? n) && (n <=? 70) then Some (n - 55)
  else None.

Definition hex_byte (hi lo : ascii) : option Z :=
  match hex_digit hi, hex_digit lo with
  | Some h, Some l => Some (16 * h + l)
  | _, _ => None
  end.

(** The partial-opacity version of a colour written [#rrggbb], in the
    form the source writes its zone colours: [rgba(r, g, b, 0.2)]. *)
Definition tinte (color : string) : option string :=
  match color with
  | String "#" (String r1 (String r2 (String g1 (String g2
      (String b1 (String b2 EmptyString)))))) =>
      match hex_byte r1 r2, hex_byte g1 g2, hex_byte b1 b2 with
      | Some r, Some g, Some b =>
          Some ("rgba(" ++ Format.str_of_Z r ++ ", " ++ Format.str_of_Z g
                ++ ", " ++ Format.str_of_Z b ++ ", 0.2)")
      | _, _, _ => None
      end
  | _ => None
  end.

(** Where a real [x] sits between the integers [m] and [m + 1], as a
    [location] records it. *)
Definition loc_ok (m : Z) (l : location) (x : Q) : Prop :=
  match l with
  | loc_Exact => (x == inject_Z m)%Q
  | loc_Inexact Lt => (inject_Z m < x /\ x < inject_Z m + (1 # 2))%Q
  | loc_Inexact Eq => (x == inject_Z m + (1 # 2))%Q
  | loc_Inexact Gt => (inject_Z m + (1 # 2) < x /\ x < inject_Z m + 1)%Q
  end.

(** The same for the mantissa, round bit and sticky bit of a shift record. *)
Definition rec_ok (mrs : shr_record) (x : Q) : Prop :=
  0 <= shr_m mrs /\ loc_ok (shr_m mrs) (loc_of_shr_record mrs) x.

(** What the driver prints, one entry per [print], once the percentage of
    line 180 is known. *)
Definition lineas_consola (positivos negativos neutros : Z)
    (objetivo porcentaje_actual : float) : list string :=
  [ Format.repeat_string 60 "=";
    "📊 GENERANDO GRÁFICO DE KPI DE SENTIMIENTO";
    Format.repeat_string 60 "=";
    Format.newline ++ "📝 Datos configurados:";
    "   Positivos: " ++ Format.str_of_Z positivos;
    "   Negativos: " ++ Format.str_of_Z negativos;
    "   Neutros: " ++ Format.str_of_Z neutros;
    "   Total: " ++ Format.str_of_Z (positivos + negativos + neutros);
    Format.newline ++ "🎯 Objetivo: " ++ Format.repr objetivo ++ "%";
    "📈 Resultado actual: " ++ Format.fixed1 false porcentaje_actual ++ "%";
    Format.newline ++ estado porcentaje_actual objetivo;
    "Diferencia: " ++ Format.fixed1 true (sub porcentaje_actual objetivo)
      ++ " puntos porcentuales";
    Format.newline ++ Format.repeat_string 60 "=";
    "🚀 Abriendo gráfico en el navegador...";
    Format.repeat_string 60 "=" ++ Format.newline ].

End Spec.
Import Spec.

(** ** Rounding: what [binary_round_aux] computes

    The lemmas follow a value [x] through the shifts and the rounding of
    [SpecFloat], for binary64. *)

Module Rounding.

(** *** Locations *)

Lemma loc_ok_ext m l x y : (x == y)%Q -> loc_ok m l x -> loc_ok m l y.
Proof.
  intros E. destruct l as [|[]]; simpl; rewrite E; auto.
Qed.

Lemma rec_ok_ext mrs x y : (x == y)%Q -> rec_ok mrs x -> rec_ok mrs y.
Proof. intros E [H1 H2]. split; [exact H1 | exact (loc_ok_ext _ _ _ _ E H2)]. Qed.

Lemma inject_Z_xO p : (inject_Z (Z.pos p~0) == 2 * inject_Z (Z.pos p))%Q.
Proof. rewrite Pos2Z.inj_xO, inject_Z_mult. reflexivity. Qed.

Lemma inject_Z_xI p : (inject_Z (Z.pos p~1) == 2 * inject_Z (Z.pos p) + 1)%Q.
Proof. rewrite Pos2Z.inj_xI, inject_Z_plus, inject_Z_mult. reflexivity. Qed.

(** One right shift halves the value and keeps where it sits. *)
Lemma shr_1_ok mrs x : rec_ok mrs x -> rec_ok (shr_1 mrs) (x * (1#2)).
Proof.
  destruct mrs as [m r s]. unfold rec_ok. simpl shr_m. intros [Hm H].
  destruct m as [|p|p]; [| |lia].
  - change (inject_Z 0) with 0%Q in *.
    destruct r, s; simpl in *; change (inject_Z 0) with 0%Q in *;
      repeat split; try lia; try lra.
  - assert (HO := inject_Z_xO). assert (HI := inject_Z_xI).
    assert (Hp : (1 <= inject_Z (Z.pos p))%Q).
    { change 1%Q with (inject_Z 1). rewrite <- Zle_Qle. lia. }
    destruct p as [p|p|]; [specialize (HI p)|specialize (HO p)|];
      destruct r, s; simpl in *; change (inject_Z 0) with 0%Q in *;
      change (inject_Z 1) with 1%Q in *;
      repeat split; try lia; try lra.
Qed.

(** *** Powers of two *)

Lemma pow2_pos e : (0 < pow2 e)%Q.
Proof. apply Qpower_0_lt. reflexivity. Qed.

Lemma pow2_add a b : (pow2 (a + b) == pow2 a * pow2 b)%Q.
Proof. apply Qpower_plus. discriminate. Qed.

Lemma pow2_le a b : a <= b -> (pow2 a <= pow2 b)%Q.
Proof. intros H. apply Qpower_le_compat_l; [exact H | discriminate]. Qed.

Lemma pow2_inject k : 0 <= k -> (pow2 k == inject_Z (2 ^ k))%Q.
Proof. intros H. unfold pow2. rewrite Zpower_Qpower by exact H. reflexivity. Qed.

Lemma pow2_cancel a : (pow2 a * pow2 (- a) == 1)%Q.
Proof. rewrite <- pow2_add, Z.add_opp_diag_r. reflexivity. Qed.

(** *** Shifting *)

Lemma iter_shr_1_ok p : forall mrs x,
  rec_ok mrs x -> rec_ok (iter_pos shr_1 p mrs) (x * pow2 (- Z.pos p)).
Proof.
  induction p as [p IH|p IH|]; intros mrs x H; simpl iter_pos.
  - apply shr_1_ok in H. apply IH in H. apply IH in H.
    revert H. apply rec_ok_ext.
    replace (- Z.pos p~1) with (- 1 + (- Z.pos p + - Z.pos p)) by lia.
    rewrite !pow2_add. change (pow2 (-1)) with (1#2)%Q. ring.
  - apply IH in H. apply IH in H. revert H. apply rec_ok_ext.
    replace (- Z.pos p~0) with (- Z.pos p + - Z.pos p) by lia.
    rewrite !pow2_add. ring.
  - apply shr_1_ok in H. exact H.
Qed.

Lemma shr_ok mrs e n x :
  rec_ok mrs x ->
  snd (shr mrs e n) = e + Z.max 0 n /\
  rec_ok (fst (shr mrs e n)) (x * pow2 (- Z.max 0 n)).
Proof.
  intros H. destruct n as [|p|p]; simpl.
  - split; [lia|]. revert H. apply rec_ok_ext. change (pow2 (-0)) with 1%Q. ring.
  - split; [lia|]. apply iter_shr_1_ok. exact H.
  - split; [lia|]. revert H. apply rec_ok_ext. change (pow2 (-0)) with 1%Q. ring.
Qed.

Lemma rec_of_loc_ok m l x : 0 <= m -> loc_ok m l x -> rec_ok (shr_record_of_loc m l) x.
Proof.
  intros Hm H. unfold rec_ok. destruct l as [|[]]; simpl; auto.
Qed.

(** *** The number of binary digits *)

Lemma digits2_size p : digits2_pos p = Pos.size p.
Proof. induction p; simpl; congruence. Qed.

Lemma Zdigits2_bounds m : 0 < m -> 2 ^ (Zdigits2 m - 1) <= m < 2 ^ Zdigits2 m.
Proof.
  destruct m as [|p|p]; try lia. intros _. cbn [Zdigits2]. rewrite digits2_size.
  split.
  - assert (H := Pos.size_le p).
    assert (Z.pos (2 ^ Pos.size p) <= Z.pos p~0) by (apply Pos2Z.pos_le_pos; exact H).
    rewrite Pos2Z.inj_pow in H0.
    replace (Z.pos (Pos.size p)) with (Z.pos (Pos.size p) - 1 + 1) in H0 by lia.
    rewrite Z.pow_add_r in H0 by lia. change (2 ^ 1) with 2 in H0. lia.
  - assert (H := Pos.size_gt p). 
    assert (Z.pos p < Z.pos (2 ^ Pos.size p)) by (apply Pos2Z.pos_lt_pos; exact H).
    rewrite Pos2Z.inj_pow in H0. exact H0.
Qed.

Lemma Zdigits2_nonneg m : 0 <= Zdigits2 m.
Proof. destruct m; simpl; lia. Qed.

Lemma Zdigits2_le m k : 0 <= m -> 0 <= k -> m < 2 ^ k -> Zdigits2 m <= k.
Proof.
  intros Hm Hk H. destruct (Z.eq_dec m 0) as [->|Hn]; [simpl; lia|].
  destruct (Zdigits2_bounds m) as [H1 _]; [lia|].
  destruct (Z_lt_le_dec k (Zdigits2 m)) as [Hlt|]; [|lia].
  exfalso. assert (2 ^ k <= 2 ^ (Zdigits2 m - 1)) by (apply Z.pow_le_mono_r; lia).
  lia.
Qed.

Lemma Zdigits2_ge m k : 0 <= k -> 2 ^ k <= m -> k + 1 <= Zdigits2 m.
Proof.
  intros Hk H. assert (0 < m) by (assert (0 < 2 ^ k) by (apply Z.pow_pos_nonneg; lia); lia).
  destruct (Zdigits2_bounds m) as [_ H2]; [lia|].
  destruct (Z_lt_le_dec (Zdigits2 m) (k + 1)) as [Hlt|]; [|lia].
  exfalso. assert (2 ^ Zdigits2 m <= 2 ^ k) by (apply Z.pow_le_mono_r; lia). lia.
Qed.

Lemma fexp_eq e : fexp prec emax e = Z.max (e - 53) (-1074).
Proof. reflexivity. Qed.

Lemma loc_ok_bounds m l x : loc_ok m l x -> (inject_Z m <= x /\ x < inject_Z m + 1)%Q.
Proof. destruct l as [|[]]; simpl; lra. Qed.

Lemma inject_Z_succ m : (inject_Z (m + 1) == inject_Z m + 1)%Q.
Proof. rewrite inject_Z_plus. reflexivity. Qed.

(** Two integers whose unit intervals share a point are equal. *)
Lemma floor_unique a b x :
  (inject_Z a <= x /\ x < inject_Z a + 1)%Q ->
  (inject_Z b <= x /\ x < inject_Z b + 1)%Q -> a = b.
Proof.
  intros [H1 H2] [H3 H4].
  assert (inject_Z a < inject_Z (b + 1))%Q by (rewrite inject_Z_succ; lra).
  assert (inject_Z b < inject_Z (a + 1))%Q by (rewrite inject_Z_succ; lra).
  rewrite <- Zlt_Qlt in *. lia.
Qed.

Lemma below_pow2_digits m x :
  0 <= m -> (inject_Z m <= x /\ x < inject_Z m + 1)%Q -> (x < pow2 (Zdigits2 m))%Q.
Proof.
  intros Hm [H1 H2].
  rewrite pow2_inject by apply Zdigits2_nonneg.
  assert (m + 1 <= 2 ^ Zdigits2 m).
  { destruct (Z.eq_dec m 0) as [->|]; [simpl; lia|].
    destruct (Zdigits2_bounds m); lia. }
  rewrite Zle_Qle, inject_Z_succ in H. lra.
Qed.

(** [shr_fexp] brings a mantissa at exponent [e] to the exponent [E] the
    format asks for; what comes out has at most 53 digits. *)
Lemma shr_fexp_ok m e l x :
  0 <= m -> loc_ok m l x ->
  let E := Z.max e (fexp prec emax (Zdigits2 m + e)) in
  snd (shr_fexp prec emax m e l) = E /\
  rec_ok (fst (shr_fexp prec emax m e l)) (x * pow2 (e - E)) /\
  Zdigits2 (shr_m (fst (shr_fexp prec emax m e l))) <= 53 /\
  -1074 <= E.
Proof.
  intros Hm H E. unfold shr_fexp.
  set (n := fexp prec emax (Zdigits2 m + e) - e).
  destruct (shr_ok (shr_record_of_loc m l) e n x (rec_of_loc_ok _ _ _ Hm H)) as [H1 H2].
  set (r := shr (shr_record_of_loc m l) e n) in *.
  assert (HE : E = e + Z.max 0 n) by (unfold E, n; lia).
  assert (H3 : rec_ok (fst r) (x * pow2 (e - E))).
  { revert H2. apply rec_ok_ext. replace (e - E) with (- Z.max 0 n) by lia. reflexivity. }
  split; [lia|]. split; [exact H3|].
  destruct H3 as [Hm1 H3]. apply loc_ok_bounds in H3.
  assert (Hb := loc_ok_bounds _ _ _ H).
  assert (Hx := below_pow2_digits m x Hm Hb).
  assert (Hd0 := Zdigits2_nonneg m).
  assert (Hn' : n = Z.max (Zdigits2 m + e - 53) (-1074) - e) by (unfold n; rewrite fexp_eq; reflexivity).
  destruct (Z_le_gt_dec n 0) as [Hn|Hn].
  - (* no shift *)
    assert (E = e) by lia.
    assert (shr_m (fst r) = m).
    { apply (floor_unique _ _ x); [|exact Hb].
      rewrite H0, Z.sub_diag in H3. change (pow2 0) with 1%Q in H3. lra. }
    rewrite H4. lia.
  - (* a shift by [n > 0] digits *)
    assert (HEn : E - e = n) by lia.
    split; [|lia].
    set (k := Z.max 0 (Zdigits2 m - n)).
    apply Zdigits2_le; [exact Hm1|lia|].
    assert (Hlt : (inject_Z (shr_m (fst r)) < pow2 k)%Q).
    { apply Qle_lt_trans with (1 := proj1 H3).
      apply Qlt_le_trans with (pow2 (Zdigits2 m) * pow2 (e - E))%Q.
      - apply Qmult_lt_compat_r; [apply pow2_pos|exact Hx].
      - rewrite <- pow2_add. apply pow2_le. unfold k. lia. }
    rewrite pow2_inject in Hlt by (unfold k; lia).
    rewrite <- Zlt_Qlt in Hlt. unfold k in Hlt.
    apply Z.lt_le_trans with (1 := Hlt). apply Z.pow_le_mono_r; lia.
Qed.

(** *** Rounding to nearest, ties to even

    The rounded integer is at most one half away from the value and never
    crosses an integer: rounding is monotone against integer bounds. *)
Lemma rne_ok m l x :
  loc_ok m l x ->
  let n := round_nearest_even m l in
  m <= n <= m + 1 /\
  (Qabs (inject_Z n - x) <= 1 # 2)%Q /\
  (forall b : Z, (x <= inject_Z b)%Q -> n <= b) /\
  (forall b : Z, (inject_Z b <= x)%Q -> b <= n) /\
  (l = loc_Exact -> n = m).
Proof.
  intros H n.
  assert (Hup : forall b : Z, (inject_Z m < x)%Q -> (x <= inject_Z b)%Q -> m + 1 <= b).
  { intros b H1 H2. assert (inject_Z m < inject_Z b)%Q by lra.
    rewrite <- Zlt_Qlt in H0. lia. }
  assert (Hlo : forall b : Z, (inject_Z b <= x)%Q -> (x < inject_Z m + 1)%Q -> b <= m).
  { intros b H1 H2. assert (inject_Z b < inject_Z (m + 1))%Q by (rewrite inject_Z_succ; lra).
    rewrite <- Zlt_Qlt in H0. lia. }
  assert (Hs := inject_Z_succ m).
  assert (Hb := loc_ok_bounds _ _ _ H).
  unfold n. destruct l as [|[]]; cbn [loc_ok round_nearest_even] in *.
  - repeat split; try lia.
    + apply Qabs_Qle_condition. lra.
    + intros b Hx. rewrite H, <- Zle_Qle in Hx. exact Hx.
    + intros b Hx. rewrite H, <- Zle_Qle in Hx. exact Hx.
  - destruct (Z.even m); repeat split; try lia; try discriminate.
    + apply Qabs_Qle_condition. lra.
    + intros b Hx. assert (m + 1 <= b) by (apply Hup; lra). lia.
    + intros b Hx. apply Hlo; lra.
    + apply Qabs_Qle_condition. lra.
    + intros b Hx. apply Hup; lra.
    + intros b Hx. assert (b <= m) by (apply Hlo; lra). lia.
  - repeat split; try lia; try discriminate.
    + apply Qabs_Qle_condition. lra.
    + intros b Hx. assert (m + 1 <= b) by (apply Hup; lra). lia.
    + intros b Hx. apply Hlo; lra.
  - repeat split; try lia; try discriminate.
    + apply Qabs_Qle_condition. lra.
    + intros b Hx. apply Hup; lra.
    + intros b Hx. assert (b <= m) by (apply Hlo; lra). lia.
Qed.

(** The rounded mantissa needs at most one more exact shift. *)
Lemma reshift_ok n E :
  0 <= n <= 2 ^ 53 -> -1074 <= E ->
  let r := shr_fexp prec emax n E loc_Exact in
  0 <= shr_m (fst r) /\
  (inject_Z (shr_m (fst r)) * pow2 (snd r) == inject_Z n * pow2 E)%Q /\
  (n = 0 <-> shr_m (fst r) = 0).
Proof.
  intros Hn HE r.
  assert (Hx : loc_ok n loc_Exact (inject_Z n)) by (simpl; reflexivity).
  destruct (shr_fexp_ok n E loc_Exact (inject_Z n) (proj1 Hn) Hx) as (H1 & [H2 H3] & _ & _).
  fold r in H1, H2, H3. apply loc_ok_bounds in H3. rewrite H1.
  rewrite fexp_eq in *.
  destruct (Z_le_gt_dec (Zdigits2 n) 53) as [Hd|Hd].
  - assert (HE2 : Z.max E (Z.max (Zdigits2 n + E - 53) (-1074)) = E) by lia.
    rewrite HE2 in *. rewrite Z.sub_diag in H3. change (pow2 0) with 1%Q in H3.
    assert (shr_m (fst r) = n) by (apply (floor_unique _ _ (inject_Z n)); lra).
    rewrite H. split; [lia|]. split; [reflexivity|tauto].
  - assert (n = 2 ^ 53).
    { destruct (Z.eq_dec n 0) as [->|Hz]; [simpl in Hd; lia|].
      destruct (Zdigits2_bounds n) as [Hlo _]; [lia|].
      assert (2 ^ 53 <= 2 ^ (Zdigits2 n - 1)) by (apply Z.pow_le_mono_r; lia). lia. }
    subst n. change (Zdigits2 (2 ^ 53)) with 54 in *.
    assert (HE2 : Z.max E (Z.max (54 + E - 53) (-1074)) = E + 1) by lia.
    rewrite HE2 in *. replace (E - (E + 1)) with (-1) in H3 by lia.
    change (pow2 (-1)) with (1 # 2)%Q in H3.
    assert (shr_m (fst r) = 2 ^ 52).
    { apply (floor_unique _ _ (inject_Z (2 ^ 53) * (1 # 2))%Q); [lra|].
      change (2 ^ 53) with 9007199254740992. change (2 ^ 52) with 4503599627370496.
      split; [|reflexivity]. apply Qle_bool_imp_le. reflexivity. }
    rewrite H. split; [lia|]. split.
    + rewrite pow2_add. change (pow2 1) with 2%Q.
      change (2 ^ 53) with 9007199254740992. change (2 ^ 52) with 4503599627370496.
      ring_simplify. apply Qmult_comp; [reflexivity|]. reflexivity.
    + split; intros; discriminate.
Qed.

(** The result of [binary_round_aux] on a value [x * 2^e] located at the
    mantissa [m]: with [E] the exponent of the format, it denotes
    [n * 2^E] for the integer [n] nearest to [x * 2^(e - E)]. *)
Lemma binary_round_aux_ok s m e l x :
  0 <= m -> loc_ok m l x ->
  let E := Z.max e (fexp prec emax (Zdigits2 m + e)) in
  exists n : Z,
    0 <= n /\
    (Qabs (inject_Z n - x * pow2 (e - E)) <= 1 # 2)%Q /\
    (forall b : Z, (x * pow2 (e - E) <= inject_Z b)%Q -> n <= b) /\
    (forall b : Z, (inject_Z b <= x * pow2 (e - E))%Q -> b <= n) /\
    match binary_round_aux prec emax s m e l with
    | S754_zero s' => s' = s /\ n = 0
    | S754_finite s' mf ef =>
        s' = s /\ ef <= 971 /\
        (inject_Z (Z.pos mf) * pow2 ef == inject_Z n * pow2 E)%Q
    | S754_infinity s' =>
        s' = s /\
        exists mf ef, 971 < ef /\
          (inject_Z (Z.pos mf) * pow2 ef == inject_Z n * pow2 E)%Q
    | S754_nan => False
    end.
Proof.
  intros Hm H E.
  destruct (shr_fexp_ok m e l x Hm H) as (H1 & [Hm1 H2] & Hd & HE).
  fold E in H1, H2, HE.
  unfold binary_round_aux.
  destruct (shr_fexp prec emax m e l) as [mrs' e'] eqn:E1.
  cbn [fst snd] in *. subst e'.
  destruct (rne_ok _ _ _ H2) as (Hn & Habs & Hup & Hlo & _).
  set (n := round_nearest_even (shr_m mrs') (loc_of_shr_record mrs')) in *.
  assert (Hn53 : 0 <= n <= 2 ^ 53).
  { split; [lia|].
    assert (shr_m mrs' < 2 ^ 53); [|lia].
    destruct (Z.eq_dec (shr_m mrs') 0) as [->|Hz]; [reflexivity|].
    destruct (Zdigits2_bounds (shr_m mrs')) as [_ Hlt]; [lia|].
    apply Z.lt_le_trans with (1 := Hlt). apply Z.pow_le_mono_r; lia. }
  destruct (reshift_ok n E Hn53 HE) as (Hm2 & Hv & Hz).
  destruct (shr_fexp prec emax n E loc_Exact) as [mrs'' e''] eqn:E2.
  cbn [fst snd] in *.
  exists n. split; [lia|]. split; [exact Habs|]. split; [exact Hup|]. split; [exact Hlo|].
  destruct (shr_m mrs'') as [|mf|mf] eqn:E3; [| |lia].
  - split; [reflexivity|]. apply Hz. reflexivity.
  - change (Z.sub emax prec) with 971.
    destruct (Z.leb e'' 971) eqn:E4.
    + apply Z.leb_le in E4. auto.
    + apply Z.leb_gt in E4. split; [reflexivity|]. exists mf, e''. auto.
Qed.

(** A value under [2^j] has its digits end at or below position [j]. *)
Lemma digits_exp_bound m e j :
  0 <= m -> e <= j -> (inject_Z m * pow2 e < pow2 j)%Q -> Zdigits2 m + e <= j.
Proof.
  intros Hm He H.
  assert (Zdigits2 m <= j - e); [|lia].
  apply Zdigits2_le; [exact Hm|lia|].
  rewrite Zlt_Qlt, <- pow2_inject by lia.
  replace (j - e) with (j + - e) by lia. rewrite pow2_add.
  assert (Hc := pow2_cancel e). assert (Hp := pow2_pos (- e)).
  assert (inject_Z m * pow2 e * pow2 (- e) < pow2 j * pow2 (- e))%Q.
  { apply Qmult_lt_compat_r; assumption. }
  assert (inject_Z m * pow2 e * pow2 (- e) == inject_Z m)%Q.
  { rewrite <- Qmult_assoc, Hc. ring. }
  rewrite H1 in H0. exact H0.
Qed.

Lemma nonneg_finite_cases x :
  is_nonneg_finite x = true ->
  x = S754_zero false \/ exists m e, x = S754_finite false m e.
Proof.
  destruct x as [[]|[]| |[] m e]; try discriminate; intros _; [left|right]; eauto.
Qed.

(** Rounding a value that lies under an integer bound [B]: no overflow,
    the result stays under [B], and the error is half a unit of the
    result's exponent, itself at most [- k]. *)
Lemma round_bounded m e l x B k :
  0 <= m -> loc_ok m l x ->
  0 <= k -> 0 < B <= 1024 ->
  Z.max e (fexp prec emax (Zdigits2 m + e)) <= - k ->
  (x * pow2 e <= inject_Z B)%Q ->
  let r := binary_round_aux prec emax false m e l in
  (r = S754_zero false \/ exists mf ef, r = S754_finite false mf ef) /\
  (0 <= to_Q r <= inject_Z B)%Q /\
  (Qabs (to_Q r - x * pow2 e) <= pow2 (- k - 1))%Q.
Proof.
  intros Hm H Hk HB HE Hv r.
  destruct (binary_round_aux_ok false m e l x Hm H) as (n & Hn & Habs & Hup & _ & Hr).
  set (E := Z.max e (fexp prec emax (Zdigits2 m + e))) in *.
  fold r in Hr.
  assert (HpE := pow2_pos E).
  assert (Hx1 : (x * pow2 (e - E) * pow2 E == x * pow2 e)%Q).
  { rewrite <- Qmult_assoc, <- pow2_add. replace (e - E + E) with e by lia. reflexivity. }
  (* the rounded value [n * 2^E] *)
  assert (Hle : (inject_Z n * pow2 E <= inject_Z B)%Q).
  { assert (n <= B * 2 ^ (- E)).
    { apply Hup. rewrite inject_Z_mult, <- pow2_inject by lia.
      assert (x * pow2 e * pow2 (- E) <= inject_Z B * pow2 (- E))%Q.
      { apply Qmult_le_compat_r; [exact Hv|]. apply Qlt_le_weak, pow2_pos. }
      assert (x * pow2 e * pow2 (- E) == x * pow2 (e - E))%Q.
      { rewrite <- Qmult_assoc, <- pow2_add. replace (e + - E) with (e - E) by lia. reflexivity. }
      rewrite H1 in H0. exact H0. }
    rewrite Zle_Qle, inject_Z_mult, <- pow2_inject in H0 by lia.
    assert (inject_Z n * pow2 E <= inject_Z B * pow2 (- E) * pow2 E)%Q.
    { apply Qmult_le_compat_r; [exact H0|lra]. }
    assert (inject_Z B * pow2 (- E) * pow2 E == inject_Z B)%Q.
    { rewrite <- Qmult_assoc, <- pow2_add. replace (- E + E) with 0 by lia.
      change (pow2 0) with 1%Q. ring. }
    rewrite H2 in H1. exact H1. }
  assert (Hge : (0 <= inject_Z n * pow2 E)%Q).
  { apply Qmult_le_0_compat; [|lra]. change 0%Q with (inject_Z 0). rewrite <- Zle_Qle. lia. }
  assert (Herr : (Qabs (inject_Z n * pow2 E - x * pow2 e) <= pow2 (- k - 1))%Q).
  { rewrite <- Hx1.
    assert (inject_Z n * pow2 E - x * pow2 (e - E) * pow2 E
            == (inject_Z n - x * pow2 (e - E)) * pow2 E)%Q by ring.
    rewrite H0, Qabs_Qmult. rewrite (Qabs_pos (pow2 E)) by lra.
    apply Qle_trans with ((1 # 2) * pow2 E)%Q.
    - apply Qmult_le_compat_r; [exact Habs|lra].
    - change (1 # 2)%Q with (pow2 (-1)). rewrite <- pow2_add. apply pow2_le. lia. }
  destruct r as [s'|s'| |s' mf ef].
  - destruct Hr as [-> Hz]. split; [left; reflexivity|].
    subst n. cbn [to_Q]. change (inject_Z 0) with 0%Q in *.
    assert (0 * pow2 E == 0)%Q by ring. rewrite H0 in *.
    split; [|exact Herr]. split; [lra|exact Hle].
  - exfalso. destruct Hr as (_ & mf & ef & Hef & Heq).
    rewrite <- Heq in Hle.
    assert (pow2 972 <= inject_Z (Z.pos mf) * pow2 ef)%Q.
    { apply Qle_trans with (1 * pow2 ef)%Q.
      - rewrite Qmult_1_l. apply pow2_le. lia.
      - apply Qmult_le_compat_r; [|apply Qlt_le_weak, pow2_pos].
        change 1%Q with (inject_Z 1). rewrite <- Zle_Qle. lia. }
    assert (inject_Z B <= inject_Z 1024)%Q by (rewrite <- Zle_Qle; lia).
    assert (inject_Z 1024 < pow2 972)%Q.
    { change (inject_Z 1024) with (pow2 10). apply Qpower_lt_compat_l; [lia|reflexivity]. }
    lra.
  - destruct Hr.
  - destruct Hr as (-> & Hef & Heq). split; [right; eauto|].
    cbn [to_Q cond_Zopp]. rewrite Heq. split; [|exact Herr]. split; assumption.
Qed.

(** *** Division

    The location computed from a remainder [k] of a division by [nb]. *)
Lemma new_location_ok nb k q :
  0 <= k < nb ->
  loc_ok q (new_location nb k) (inject_Z q + inject_Z k / inject_Z nb).
Proof.
  intros Hk.
  assert (Hnb : (0 < inject_Z nb)%Q).
  { change 0%Q with (inject_Z 0). rewrite <- Zlt_Qlt. lia. }
  set (y := (inject_Z k / inject_Z nb)%Q).
  assert (Hy : (y * inject_Z nb == inject_Z k)%Q).
  { unfold y. field. lra. }
  assert (Hlt : 2 * k < nb -> (y < 1 # 2)%Q).
  { intros H. apply Qlt_shift_div_r; [exact Hnb|].
    rewrite Zlt_Qlt, inject_Z_mult in H. change (inject_Z 2) with 2%Q in H. lra. }
  assert (Hgt : nb < 2 * k -> (1 # 2 < y)%Q).
  { intros H. apply Qlt_shift_div_l; [exact Hnb|].
    rewrite Zlt_Qlt, inject_Z_mult in H. change (inject_Z 2) with 2%Q in H. lra. }
  assert (Heq : 2 * k = nb -> (y == 1 # 2)%Q).
  { intros H. unfold y. rewrite <- H, inject_Z_mult. change (inject_Z 2) with 2%Q.
    field. intros Hc. rewrite <- H, inject_Z_mult in Hnb. change (inject_Z 2) with 2%Q in Hnb. lra. }
  assert (H0y : 0 < k -> (0 < y)%Q).
  { intros H. apply Qlt_shift_div_l; [exact Hnb|].
    rewrite Zlt_Qlt in H. change (inject_Z 0) with 0%Q in H. lra. }
  assert (Hy1 : (y < 1)%Q).
  { apply Qlt_shift_div_r; [exact Hnb|]. destruct Hk as [_ Hk]. rewrite Zlt_Qlt in Hk. lra. }
  assert (Hy0 : k = 0 -> (y == 0)%Q).
  { intros ->. unfold y. change (inject_Z 0) with 0%Q. field. lra. }
  fold y. clearbody y.
  unfold new_location.
  destruct (Z.even nb) eqn:Ev; [unfold new_location_even|unfold new_location_odd];
    (destruct (Z.eqb_spec k 0) as [Hk0|Hk0];
       [specialize (Hy0 Hk0); cbn [loc_ok]; lra|]).
  - destruct (Z.compare_spec (2 * k) nb) as [Hc|Hc|Hc]; cbn [loc_ok].
    + specialize (Heq Hc). lra.
    + specialize (Hlt Hc). assert (0 < y)%Q by (apply H0y; lia). lra.
    + specialize (Hgt Hc). lra.
  - assert (Hodd : nb <> 2 * k).
    { intros ->. rewrite Z.even_mul in Ev. discriminate. }
    destruct (Z.compare_spec (2 * k + 1) nb) as [Hc|Hc|Hc]; cbn [loc_ok].
    + assert (2 * k < nb) by lia. specialize (Hlt H). assert (0 < y)%Q by (apply H0y; lia). lra.
    + assert (2 * k < nb) by lia. specialize (Hlt H). assert (0 < y)%Q by (apply H0y; lia). lra.
    + assert (nb < 2 * k) by lia. specialize (Hgt H). lra.
Qed.

(** The quotient and location [SFdiv_core_binary] hands to the rounding. *)
Lemma div_core_ok (m1 m2 : positive) e1 e2 :
  let '(q, e', l) := SFdiv_core_binary prec emax (Z.pos m1) e1 (Z.pos m2) e2 in
  0 <= q /\
  e' = Z.min (fexp prec emax (Zdigits2 (Z.pos m1) + e1 - (Zdigits2 (Z.pos m2) + e2))) (e1 - e2) /\
  loc_ok q l (inject_Z (Z.pos m1) / inject_Z (Z.pos m2) * pow2 (e1 - e2 - e')).
Proof.
  unfold SFdiv_core_binary.
  set (e' := Z.min _ _).
  set (s := e1 - e2 - e').
  assert (Hs : 0 <= s) by (unfold s, e'; lia).
  set (m' := match s with Z.pos _ => Z.shiftl (Z.pos m1) s | 0 => Z.pos m1 | Z.neg _ => 0 end).
  assert (Hm' : m' = Z.pos m1 * 2 ^ s).
  { unfold m'. destruct s as [|p|p]; [simpl; lia| |lia].
    rewrite Z.shiftl_mul_pow2 by lia. reflexivity. }
  assert (Hdiv := Z_div_mod m' (Z.pos m2) ltac:(lia)).
  destruct (Z.div_eucl m' (Z.pos m2)) as [q r]. destruct Hdiv as [Hd Hr].
  assert (Hp : 0 < 2 ^ s) by (apply Z.pow_pos_nonneg; lia).
  assert (Hq : 0 <= q) by nia.
  split; [exact Hq|]. split; [reflexivity|].
  eapply loc_ok_ext; [|apply (new_location_ok (Z.pos m2) r q); lia].
  rewrite pow2_inject by exact Hs.
  assert (inject_Z m' == inject_Z (Z.pos m2) * inject_Z q + inject_Z r)%Q.
  { rewrite Hd, inject_Z_plus, inject_Z_mult. reflexivity. }
  assert (Hm2 : (0 < inject_Z (Z.pos m2))%Q).
  { change 0%Q with (inject_Z 0). rewrite <- Zlt_Qlt. lia. }
  rewrite Hm', inject_Z_mult in H. fold s.
  setoid_replace (inject_Z (Z.pos m1) / inject_Z (Z.pos m2) * inject_Z (2 ^ s))%Q
    with ((inject_Z (Z.pos m1) * inject_Z (2 ^ s)) / inject_Z (Z.pos m2))%Q
    by (field; lra).
  rewrite H. field. lra.
Qed.

Lemma inject_Z_pos_ge_1 p : (1 <= inject_Z (Z.pos p))%Q.
Proof. change 1%Q with (inject_Z 1). rewrite <- Zle_Qle. lia. Qed.

Lemma Qdiv_pos_le_1 (a b : positive) :
  (a <= b)%positive ->
  (0 < inject_Z (Z.pos a) / inject_Z (Z.pos b) <= 1)%Q.
Proof.
  intros H. assert (Ha := inject_Z_pos_ge_1 a). assert (Hb := inject_Z_pos_ge_1 b).
  split.
  - apply Qlt_shift_div_l; lra.
  - apply Qle_shift_div_r; [lra|]. rewrite Qmult_1_l, <- Zle_Qle. exact H.
Qed.

(** The quotient of two positive integers [a <= b]. *)
Lemma div_le_one (a b : positive) :
  (a <= b)%positive ->
  let r := div (exact_of_Z (Z.pos a)) (exact_of_Z (Z.pos b)) in
  (r = S754_zero false \/ exists mf ef, r = S754_finite false mf ef) /\
  (0 <= to_Q r <= 1)%Q /\
  (Qabs (to_Q r - inject_Z (Z.pos a) / inject_Z (Z.pos b)) <= pow2 (-53))%Q.
Proof.
  intros Hab. cbn [exact_of_Z]. unfold div, SFdiv.
  assert (H := div_core_ok a b 0 0).
  destruct (SFdiv_core_binary prec emax (Z.pos a) 0 (Z.pos b) 0) as [[q e'] l].
  destruct H as (Hq & He' & Hloc).
  cbn [xorb].
  set (v := (inject_Z (Z.pos a) / inject_Z (Z.pos b))%Q) in *.
  assert (Hv : (0 < v <= 1)%Q) by (apply Qdiv_pos_le_1; exact Hab).
  replace (0 - 0 - e') with (- e') in Hloc by lia.
  assert (Hxe : (v * pow2 (- e') * pow2 e' == v)%Q).
  { rewrite <- Qmult_assoc, <- pow2_add. replace (- e' + e') with 0 by lia.
    change (pow2 0) with 1%Q. ring. }
  assert (Hd : Zdigits2 (Z.pos a) <= Zdigits2 (Z.pos b)).
  { apply Zdigits2_le; [lia|apply Zdigits2_nonneg|].
    destruct (Zdigits2_bounds (Z.pos b)) as [_ Hlt]; lia. }
  rewrite fexp_eq in He'.
  assert (He53 : e' <= -53) by lia.
  assert (Hdq : Zdigits2 q + e' <= 1).
  { apply digits_exp_bound; [exact Hq|lia|].
    apply loc_ok_bounds in Hloc. destruct Hloc as [Hl _].
    apply Qle_lt_trans with (v * pow2 (- e') * pow2 e')%Q.
    - apply Qmult_le_compat_r; [exact Hl|]. apply Qlt_le_weak, pow2_pos.
    - rewrite Hxe. change (pow2 1) with 2%Q. lra. }
  destruct (round_bounded q e' l (v * pow2 (- e')) 1 52 Hq Hloc) as (H1 & H2 & H3);
    [lia|lia|rewrite fexp_eq; lia|rewrite Hxe; change (inject_Z 1) with 1%Q; lra|].
  rewrite Hxe in H3. change (inject_Z 1) with 1%Q in H2.
  split; [exact H1|]. split; [exact H2|exact H3].
Qed.

Lemma of_Z_100 : of_Z 100 = S754_finite false 7036874417766400 (-46).
Proof. reflexivity. Qed.

Lemma pow2_le_1_inv e : (pow2 e <= 1)%Q -> e <= 0.
Proof.
  intros H. apply (Qpower_le_compat_l_inv 2); [exact H|reflexivity].
Qed.

(** A positive float [x <= 1] times [100.0]. *)
Lemma mul_100_ok mx ex :
  (to_Q (S754_finite false mx ex) <= 1)%Q ->
  let y := mul (S754_finite false mx ex) (of_Z 100) in
  (y = S754_zero false \/ exists mf ef, y = S754_finite false mf ef) /\
  (0 <= to_Q y <= 100)%Q /\
  (Qabs (to_Q y - 100 * to_Q (S754_finite false mx ex)) <= pow2 (-47))%Q.
Proof.
  cbn [to_Q cond_Zopp]. intros Hx. rewrite of_Z_100. unfold mul, SFmul. cbn [xorb].
  set (c := 7036874417766400%positive).
  assert (Hmx := inject_Z_pos_ge_1 mx). assert (Hpe := pow2_pos ex).
  assert (Hex : ex <= 0).
  { apply pow2_le_1_inv. apply Qle_trans with (2 := Hx).
    rewrite <- (Qmult_1_l (pow2 ex)) at 1. apply Qmult_le_compat_r; lra. }
  assert (Hc : (inject_Z (Z.pos c) * pow2 (-46) == 100)%Q) by reflexivity.
  assert (Hval : (inject_Z (Z.pos (mx * c)) * pow2 (ex + -46)
                  == 100 * (inject_Z (Z.pos mx) * pow2 ex))%Q).
  { rewrite Pos2Z.inj_mul, inject_Z_mult, pow2_add.
    transitivity (inject_Z (Z.pos mx) * pow2 ex * (inject_Z (Z.pos c) * pow2 (-46)))%Q; [ring|].
    rewrite Hc. ring. }
  assert (Hloc : loc_ok (Z.pos (mx * c)) loc_Exact (inject_Z (Z.pos (mx * c)))).
  { cbn [loc_ok]. reflexivity. }
  assert (Hd : Zdigits2 (Z.pos (mx * c)) + (ex + -46) <= 7).
  { apply digits_exp_bound; [lia|lia|]. rewrite Hval.
    change (pow2 7) with 128%Q. lra. }
  destruct (round_bounded (Z.pos (mx * c)) (ex + -46) loc_Exact
              (inject_Z (Z.pos (mx * c))) 100 46 ltac:(lia) Hloc) as (H1 & H2 & H3);
    [lia|lia|rewrite fexp_eq; lia|rewrite Hval; change (inject_Z 100) with 100%Q; lra|].
  rewrite Hval in H3. change (inject_Z 100) with 100%Q in H2.
  split; [exact H1|]. split; [exact H2|exact H3].
Qed.

(** *** A percentage of a count within its total

    [(c / t) * 100] is computed without error, is a non-negative finite
    float of value at most 100, and is within [pct_error] of the exact
    percentage. *)
Lemma porcentaje_ok c t :
  0 <= c <= t -> 0 < t ->
  exists y,
    porcentaje c t = Ok y /\
    is_nonneg_finite y = true /\
    (0 <= to_Q y <= 100)%Q /\
    (Qabs (to_Q y - 100 * (inject_Z c / inject_Z t)) <= pct_error)%Q.
Proof.
  intros Hc Ht. unfold porcentaje, int_true_divide.
  destruct (Z.eqb_spec t 0) as [|_]; [lia|].
  destruct (Z.eqb_spec c 0) as [->|Hc0].
  - assert (Hs : (t <? 0) = false) by (apply Z.ltb_ge; lia). rewrite Hs.
    exists (S754_zero false). split; [reflexivity|]. split; [reflexivity|].
    cbn [to_Q]. split; [lra|].
    assert (inject_Z 0 / inject_Z t == 0)%Q.
    { change (inject_Z 0) with 0%Q. field. intros E.
      assert (0 < inject_Z t)%Q by (change 0%Q with (inject_Z 0); rewrite <- Zlt_Qlt; lia). lra. }
    rewrite H. apply Qle_bool_imp_le. reflexivity.
  - destruct c as [|a|a]; [lia| |lia]. destruct t as [|b|b]; [lia| |lia].
    destruct (div_le_one a b ltac:(lia)) as (Hr & Hb & Herr).
    set (v := (inject_Z (Z.pos a) / inject_Z (Z.pos b))%Q) in *.
    destruct Hr as [Hr|(mf & ef & Hr)]; rewrite Hr in *.
    + exists (S754_zero false). split; [reflexivity|]. split; [reflexivity|].
      cbn [to_Q] in *. split; [lra|].
      assert (0 - 100 * v == - (100 * (v - 0)))%Q by ring.
      rewrite H, Qabs_opp, Qabs_Qmult.
      assert (Qabs (0 - v) == Qabs (v - 0))%Q.
      { rewrite <- Qabs_opp. apply Qabs_wd. ring. }
      rewrite H0 in Herr. change (Qabs 100) with 100%Q. unfold pct_error.
      assert (0 < pow2 (-47))%Q by apply pow2_pos.
      assert (100 * Qabs (v - 0) <= 100 * pow2 (-53))%Q by (apply Qmult_le_l; [reflexivity|exact Herr]).
      lra.
    + destruct (mul_100_ok mf ef (proj2 Hb)) as (Hy & Hyb & Hyerr).
      exists (mul (S754_finite false mf ef) (of_Z 100)).
      split; [reflexivity|]. split.
      { destruct Hy as [->|(? & ? & ->)]; reflexivity. }
      split; [exact Hyb|].
      set (y := to_Q (mul (S754_finite false mf ef) (of_Z 100))) in *.
      set (x := to_Q (S754_finite false mf ef)) in *.
      assert (y - 100 * v == (y - 100 * x) + 100 * (x - v))%Q by ring.
      rewrite H. apply Qle_trans with (1 := Qabs_triangle _ _).
      rewrite Qabs_Qmult. change (Qabs 100) with 100%Q. unfold pct_error.
      assert (100 * Qabs (x - v) <= 100 * pow2 (-53))%Q by (apply Qmult_le_l; [reflexivity|exact Herr]).
      lra.
Qed.

(** *** Addition

    Aligning a mantissa to a lower exponent keeps the value. *)
Lemma shl_align_ok mx ex e' :
  (inject_Z (Z.pos (fst (shl_align mx ex e'))) * pow2 (snd (shl_align mx ex e'))
   == inject_Z (Z.pos mx) * pow2 ex)%Q /\
  snd (shl_align mx ex e') = Z.min ex e'.
Proof.
  unfold shl_align. destruct (e' - ex) as [|d|d] eqn:E; cbn [fst snd].
  - split; [reflexivity|lia].
  - split; [reflexivity|lia].
  - split; [|lia].
    change (Pos.iter xO mx d) with (shift_pos d mx).
    rewrite shift_pos_correct, Zpower_pos_nat, Zpower_nat_Z, positive_nat_Z.
    rewrite inject_Z_mult, <- pow2_inject by lia.
    assert (Hp : (pow2 ex == pow2 (Z.pos d) * pow2 e')%Q).
    { rewrite <- pow2_add. replace (Z.pos d + e') with ex by lia. reflexivity. }
    rewrite Hp. ring.
Qed.

Lemma pow2_lt_inv a b : (pow2 a < pow2 b)%Q -> a < b.
Proof. intros H. apply (Qpower_lt_compat_l_inv 2); [exact H|reflexivity]. Qed.

(** Rounding the exact positive value [m * 2^e], known to lie under an
    integer [B < 2^j]. *)
Lemma binary_round_ok (m : positive) e B j :
  0 < B <= 1024 -> -1021 <= j <= 53 -> e <= j ->
  (inject_Z (Z.pos m) * pow2 e <= inject_Z B)%Q ->
  (inject_Z B < pow2 j)%Q ->
  let r := binary_round prec emax false m e in
  is_nonneg_finite r = true /\
  (0 <= to_Q r <= inject_Z B)%Q /\
  (Qabs (to_Q r - inject_Z (Z.pos m) * pow2 e) <= pow2 (j - 54))%Q.
Proof.
  intros HB Hj He Hv HBj. unfold binary_round.
  destruct (shl_align_ok m e (fexp prec emax (Z.pos (digits2_pos m) + e))) as [Hval Hez].
  destruct (shl_align m e (fexp prec emax (Z.pos (digits2_pos m) + e))) as [mz ez].
  cbn [fst snd] in *.
  change (Z.pos (digits2_pos m)) with (Zdigits2 (Z.pos m)) in Hez.
  assert (Hd : Zdigits2 (Z.pos m) + e <= j).
  { apply digits_exp_bound; [lia|exact He|lra]. }
  assert (Hdz : Zdigits2 (Z.pos mz) + ez <= j).
  { apply digits_exp_bound; [lia|lia|]. rewrite Hval. lra. }
  rewrite fexp_eq in Hez.
  assert (Hloc : loc_ok (Z.pos mz) loc_Exact (inject_Z (Z.pos mz))) by (cbn; reflexivity).
  destruct (round_bounded (Z.pos mz) ez loc_Exact (inject_Z (Z.pos mz)) B (53 - j)
              ltac:(lia) Hloc) as (H1 & H2 & H3);
    [lia|lia|rewrite fexp_eq; lia|rewrite Hval; exact Hv|].
  rewrite Hval in H3. replace (- (53 - j) - 1) with (j - 54) in H3 by lia.
  split; [|split; assumption].
  destruct H1 as [->|(? & ? & ->)]; reflexivity.
Qed.

Lemma to_Q_finite_pos m e : (0 < to_Q (S754_finite false m e))%Q.
Proof.
  cbn [to_Q cond_Zopp]. apply Qmult_lt_0_compat; [|apply pow2_pos].
  change 0%Q with (inject_Z 0). rewrite <- Zlt_Qlt. lia.
Qed.

Lemma finite_exp_lt m e j : (to_Q (S754_finite false m e) < pow2 j)%Q -> e < j.
Proof.
  cbn [to_Q cond_Zopp]. intros H. apply pow2_lt_inv. apply Qle_lt_trans with (2 := H).
  rewrite <- (Qmult_1_l (pow2 e)) at 1.
  apply Qmult_le_compat_r; [apply inject_Z_pos_ge_1|apply Qlt_le_weak, pow2_pos].
Qed.

(** The float sum of two non-negative floats whose exact sum lies under
    an integer [B < 2^j]. *)
Lemma add_ok x y B j :
  is_nonneg_finite x = true -> is_nonneg_finite y = true ->
  0 < B <= 1024 -> -1021 <= j <= 53 ->
  (to_Q x + to_Q y <= inject_Z B)%Q ->
  (inject_Z B < pow2 j)%Q ->
  let s := add x y in
  is_nonneg_finite s = true /\
  (0 <= to_Q s <= inject_Z B)%Q /\
  (Qabs (to_Q s - (to_Q x + to_Q y)) <= pow2 (j - 54))%Q.
Proof.
  intros Hx Hy HB Hj Hv HBj.
  assert (Hpj : (0 < pow2 (j - 54))%Q) by apply pow2_pos.
  assert (HB0 : (0 < inject_Z B)%Q).
  { change 0%Q with (inject_Z 0). rewrite <- Zlt_Qlt. lia. }
  assert (Hzero : forall q : Q, (Qabs (q - q) <= pow2 (j - 54))%Q).
  { intros q. setoid_replace (q - q)%Q with 0%Q by ring. cbn. lra. }
  destruct (nonneg_finite_cases x Hx) as [->|(mx & ex & ->)];
    destruct (nonneg_finite_cases y Hy) as [->|(my & ey & ->)].
  - cbn. split; [reflexivity|]. split; [lra|]. lra.
  - change (add (S754_zero false) (S754_finite false my ey)) with (S754_finite false my ey).
    assert (H0 := to_Q_finite_pos my ey). change (to_Q (S754_zero false)) with 0%Q in *.
    split; [reflexivity|]. split; [lra|].
    setoid_replace (to_Q (S754_finite false my ey) - (0 + to_Q (S754_finite false my ey)))%Q
      with 0%Q by ring. cbn. lra.
  - change (add (S754_finite false mx ex) (S754_zero false)) with (S754_finite false mx ex).
    assert (H0 := to_Q_finite_pos mx ex). change (to_Q (S754_zero false)) with 0%Q in *.
    split; [reflexivity|]. split; [lra|].
    setoid_replace (to_Q (S754_finite false mx ex) - (to_Q (S754_finite false mx ex) + 0))%Q
      with 0%Q by ring. cbn. lra.
  - assert (Hpx := to_Q_finite_pos mx ex). assert (Hpy := to_Q_finite_pos my ey).
    assert (Hex : ex < j) by (apply (finite_exp_lt mx); lra).
    unfold add, SFadd. cbn [cond_Zopp].
    set (ez := Z.min ex ey).
    destruct (shl_align_ok mx ex ez) as [Hvx _].
    destruct (shl_align_ok my ey ez) as [Hvy _].
    assert (Hsx : snd (shl_align mx ex ez) = ez) by (destruct (shl_align_ok mx ex ez); lia).
    assert (Hsy : snd (shl_align my ey ez) = ez) by (destruct (shl_align_ok my ey ez); lia).
    rewrite Hsx in Hvx. rewrite Hsy in Hvy.
    set (mx' := fst (shl_align mx ex ez)) in *. set (my' := fst (shl_align my ey ez)) in *.
    change (Z.pos mx' + Z.pos my') with (Z.pos (mx' + my')).
    cbn [binary_normalize].
    assert (Hsum : (inject_Z (Z.pos (mx' + my')) * pow2 ez
                    == to_Q (S754_finite false mx ex) + to_Q (S754_finite false my ey))%Q).
    { cbn [to_Q cond_Zopp]. rewrite <- Hvx, <- Hvy, Pos2Z.inj_add, inject_Z_plus. ring. }
    destruct (binary_round_ok (mx' + my') ez B j HB Hj) as (H1 & H2 & H3);
      [unfold ez; lia|rewrite Hsum; exact Hv|exact HBj|].
    rewrite Hsum in H3. split; [exact H1|]. split; assumption.
Qed.

Lemma loc_ok_exact_inv m l (k : Z) :
  loc_ok m l (inject_Z k) -> m = k /\ l = loc_Exact.
Proof.
  intros H. assert (Hb := loc_ok_bounds _ _ _ H).
  assert (m = k).
  { apply (floor_unique m k (inject_Z k)); [exact Hb|]. lra. }
  subst m. split; [reflexivity|].
  destruct l as [|[]]; cbn [loc_ok] in H; [reflexivity|lra|lra|lra].
Qed.

(** An integer divided by itself is the float 1.0. *)
Lemma int_true_divide_same a :
  a <> 0 -> int_true_divide a a = Ok (of_decimal 10 (-1)).
Proof.
  intros Ha. unfold int_true_divide.
  destruct (Z.eqb_spec a 0) as [|_]; [contradiction|].
  assert (H : forall p sx sy,
            xorb sx sy = false ->
            SFdiv prec emax (S754_finite sx p 0) (S754_finite sy p 0)
            = of_decimal 10 (-1)).
  { intros p sx sy Hs. unfold SFdiv. rewrite Hs.
    assert (Hc := div_core_ok p p 0 0).
    destruct (SFdiv_core_binary prec emax (Z.pos p) 0 (Z.pos p) 0) as [[q e'] l].
    destruct Hc as (_ & He' & Hloc).
    replace (Zdigits2 (Z.pos p) + 0 - (Zdigits2 (Z.pos p) + 0)) with 0 in He' by lia.
    change (Z.min (fexp prec emax 0) (0 - 0)) with (-53) in He'. subst e'.
    change (0 - 0 - -53) with 53 in Hloc.
    assert (Hx : (inject_Z (Z.pos p) / inject_Z (Z.pos p) * pow2 53
                  == inject_Z (2 ^ 53))%Q).
    { rewrite <- pow2_inject by lia. field.
      assert (H1 := inject_Z_pos_ge_1 p). lra. }
    apply (loc_ok_ext _ _ _ _ Hx) in Hloc.
    apply loc_ok_exact_inv in Hloc. destruct Hloc as [-> ->].
    vm_compute. reflexivity. }
  destruct a as [|p|p]; [contradiction| |]; cbn [exact_of_Z]; unfold div;
    rewrite H by reflexivity; reflexivity.
Qed.

End Rounding.
Import Rounding.

(** ** The builder, step by step *)

Module Builder.

Lemma indice_color_barra_lt_3 pct objetivo : (indice_color_barra pct objetivo < 3)%nat.
Proof. unfold indice_color_barra. destruct (ge _ _); [lia|]. destruct (ge _ _); lia. Qed.

Lemma getitem_lt {A} (l : list A) i : (i < List.length l)%nat -> exists a, getitem l i = Ok a.
Proof.
  intros H. unfold getitem. destruct (nth_error l i) eqn:E; [eauto|].
  apply nth_error_None in E. lia.
Qed.

Lemma getitem_raise {A} (l : list A) i e :
  getitem l i = Raise e -> e = IndexError "list index out of range".
Proof. unfold getitem. destruct (nth_error l i); intros [= <-]; reflexivity. Qed.

Lemma getitem_ge {A} (l : list A) i :
  (List.length l <= i)%nat -> getitem l i = Raise (IndexError "list index out of range").
Proof.
  intros H. unfold getitem. apply nth_error_None in H. rewrite H. reflexivity.
Qed.

(** An entry read below index 3 is one of the first three. *)
Lemma getitem_firstn {A} (l : list A) i a :
  (i < 3)%nat -> getitem l i = Ok a -> In a (firstn 3 l).
Proof.
  intros Hi. unfold getitem.
  destruct (nth_error l i) as [a'|] eqn:E; [|discriminate]. intros [= <-].
  rewrite <- (firstn_skipn 3 l) in E.
  destruct (Nat.lt_ge_cases i (List.length (firstn 3 l))) as [H|H].
  - rewrite nth_error_app1 in E by exact H. eapply nth_error_In; eauto.
  - rewrite length_firstn in H.
    assert (Hl : (List.length l <= i)%nat) by lia.
    apply nth_error_None in Hl. rewrite firstn_skipn in E. congruence.
Qed.

(** A percentage fails by overflow only, once the total is not zero. *)
Lemma porcentaje_raise c total e :
  total <> 0 -> porcentaje c total = Raise e -> exists msg, e = OverflowError msg.
Proof.
  intros Ht. unfold porcentaje, int_true_divide.
  destruct (Z.eqb_spec total 0) as [|_]; [contradiction|].
  destruct (c =? 0); [discriminate|].
  destruct (div _ _); intros [= <-]; eauto.
Qed.

(** *** Integers into text *)

Lemma format_int_ok z :
  Format.int_str_ok z = true -> Format.format_int z = Ok (Format.str_of_Z z).
Proof. intros H. unfold Format.format_int. rewrite H. reflexivity. Qed.

Lemma format_int_raise z :
  Format.int_str_ok z = false ->
  Format.format_int z = Raise (ValueError Format.int_str_limit_message).
Proof. intros H. unfold Format.format_int. rewrite H. reflexivity. Qed.

Lemma format_int_inv z s :
  Format.format_int z = Ok s -> Format.int_str_ok z = true /\ s = Format.str_of_Z z.
Proof.
  unfold Format.format_int. destruct (Format.int_str_ok z); [|discriminate].
  intros [= <-]. split; reflexivity.
Qed.

Lemma desglose_texto_ok p n u pp pn pu objetivo w :
  cuentas_imprimibles p n u = true ->
  desglose_texto (p + n + u) p n u pp pn pu objetivo w
  = (Ok (texto_desglose (p + n + u) p n u pp pn pu objetivo), w).
Proof.
  unfold cuentas_imprimibles. intros H.
  apply andb_prop in H. destruct H as [H Hu].
  apply andb_prop in H. destruct H as [H Hn].
  apply andb_prop in H. destruct H as [Ht Hp].
  unfold desglose_texto, bind, lift, ret.
  rewrite (format_int_ok _ Ht), (format_int_ok _ Hp), (format_int_ok _ Hn),
    (format_int_ok _ Hu).
  reflexivity.
Qed.

Lemma desglose_texto_raise p n u pp pn pu objetivo w :
  cuentas_imprimibles p n u = false ->
  desglose_texto (p + n + u) p n u pp pn pu objetivo w
  = (Raise (ValueError Format.int_str_limit_message), w).
Proof.
  unfold cuentas_imprimibles, desglose_texto, bind, lift, ret, Format.format_int.
  destruct (Format.int_str_ok (p + n + u)); [|reflexivity].
  destruct (Format.int_str_ok p); [|reflexivity].
  destruct (Format.int_str_ok n); [|reflexivity].
  destruct (Format.int_str_ok u); [discriminate|reflexivity].
Qed.

(** *** Plotly's validation of what the script builds *)

Lemma check_colors_ok l :
  forallb (fun p => color_ok (snd p)) l = true -> check_colors l = Ok tt.
Proof.
  induction l as [|[[parent name] v] l IH]; [reflexivity|].
  cbn [forallb snd check_colors]. intros H.
  apply andb_prop in H. destruct H as [Hv Hl]. rewrite Hv. exact (IH Hl).
Qed.

Lemma check_colors_raise l e :
  check_colors l = Raise e ->
  exists parent name v,
    In (parent, name, v) l /\ color_ok v = false
    /\ e = ValueError (invalid_value parent name).
Proof.
  induction l as [|[[parent name] v] l IH]; [discriminate|].
  cbn [check_colors]. destruct (color_ok v) eqn:Hv.
  - intros H. destruct (IH H) as (p' & n' & v' & Hin & Hv' & He).
    exists p', n', v'. split; [right; exact Hin|]. split; assumption.
  - intros [= <-]. exists parent, name, v.
    split; [left; reflexivity|]. split; [exact Hv|reflexivity].
Qed.

Lemma go_Indicator_inv t t' : go_Indicator t = Ok t' -> t' = t.
Proof.
  unfold go_Indicator, and_then. destruct (check_colors _); [|discriminate].
  intros [= <-]. reflexivity.
Qed.

(** The colours the script writes itself are colours. *)
Lemma colores_del_script :
  forallb color_ok
    [ "darkgray"; "white"; "#34495e"; "rgba(231, 76, 60, 0.2)";
      "rgba(243, 156, 18, 0.2)"; "rgba(46, 204, 113, 0.2)"; "#e74c3c";
      "#2c3e50"; "rgba(255, 255, 255, 0.9)"; "#bdc3c7";
      "#f39c12"; "#2ecc71" ] = true.
Proof. vm_compute. reflexivity. Qed.

Ltac script_color := 
  match goal with
  | |- color_ok ?s = true =>
      let H := fresh in
      pose proof colores_del_script as H;
      cbn [forallb] in H;
      repeat (apply andb_prop in H; let H1 := fresh in destruct H as [H1 H];
              try exact H1)
  end.

(** The trace of the script is valid exactly when the three colours read
    from the list are. *)
Lemma go_Indicator_ok pp objetivo titulo cb inc dec :
  color_ok dec = true -> color_ok inc = true -> color_ok cb = true ->
  go_Indicator (indicador pp objetivo titulo cb inc dec)
  = Ok (indicador pp objetivo titulo cb inc dec).
Proof.
  intros Hd Hi Hc. unfold go_Indicator. rewrite check_colors_ok; [reflexivity|].
  unfold indicator_colors, indicador, steps.
  cbn [ind_delta ind_gauge ind_number ind_title delta_decreasing_color
       delta_increasing_color delta_font gauge_axis axis_tickcolor gauge_bar
       bar_color gauge_bgcolor gauge_bordercolor gauge_steps step_color
       gauge_threshold threshold_line line_color number_font title_font
       font_colors font_color map app forallb snd].
  rewrite Hd, Hi, Hc.
  repeat (rewrite andb_true_l || (rewrite (_ : color_ok _ = true) by script_color)).
  reflexivity.
Qed.

Lemma go_Indicator_raise pp objetivo titulo cb inc dec e :
  go_Indicator (indicador pp objetivo titulo cb inc dec) = Raise e ->
  color_ok dec && color_ok inc && color_ok cb = false /\
  exists parent, e = ValueError (invalid_value parent "color").
Proof.
  unfold go_Indicator, and_then.
  destruct (check_colors _) eqn:E; [discriminate|]. intros [= <-].
  apply check_colors_raise in E. destruct E as (parent & name & v & Hin & Hv & ->).
  unfold indicator_colors, indicador, steps in Hin.
  cbn [ind_delta ind_gauge ind_number ind_title delta_decreasing_color
       delta_increasing_color delta_font gauge_axis axis_tickcolor gauge_bar
       bar_color gauge_bgcolor gauge_bordercolor gauge_steps step_color
       gauge_threshold threshold_line line_color number_font title_font
       font_colors font_color map app In] in Hin.
  repeat (destruct Hin as [Hin|Hin];
          [injection Hin as <- <- <-;
           first [ split; [rewrite Hv; rewrite ?andb_false_r; reflexivity|eauto]
                 | exfalso; revert Hv; vm_compute; discriminate ]|]).
  contradiction.
Qed.

Lemma go_Indicator_valid pp objetivo titulo cb inc dec t :
  go_Indicator (indicador pp objetivo titulo cb inc dec) = Ok t ->
  color_ok dec = true /\ color_ok inc = true /\ color_ok cb = true.
Proof.
  unfold go_Indicator, indicator_colors, indicador.
  cbn [ind_delta ind_gauge delta_decreasing_color delta_increasing_color delta_font
       gauge_axis axis_tickcolor gauge_bar bar_color
       font_colors font_color app check_colors].
  destruct (color_ok dec); [|discriminate].
  destruct (color_ok inc); [|discriminate].
  replace (color_ok "darkgray") with true by (vm_compute; reflexivity).
  destruct (color_ok cb); [|discriminate].
  intros _. repeat split.
Qed.

Lemma add_annotation_desglose texto fig :
  add_annotation (desglose texto) fig = Ok (annotated (desglose texto) fig).
Proof.
  unfold add_annotation. rewrite check_colors_ok; [reflexivity|].
  vm_compute. reflexivity.
Qed.

Lemma layout_final_ok fig :
  layout_final fig
  = Ok (laid_out 550 (mkMargin 40 40 80 150) "white"
          (mkFont None None (Some "Arial, sans-serif")) fig).
Proof.
  unfold layout_final, update_layout. rewrite check_colors_ok; [reflexivity|].
  vm_compute. reflexivity.
Qed.

Section Invocation.

Variables positivos negativos neutros : Z.
Variable objetivo : float.
Variable titulo : string.
Variable desglose : bool.
Variable colores : option (list string).

Let total := positivos + negativos + neutros.
Let cs := colores_en_uso colores.

(** The builder as a chain of its steps: the test of the total, the three
    percentages, the three colours read, the validation of the trace and,
    with the flag set, the conversion of the counts for the breakdown. *)
Lemma grafico_steps w :
  grafico_kpi_sentimiento positivos negativos neutros objetivo titulo desglose colores w
  = (if total =? 0 then Raise (ValueError empty_total_message)
     else
       and_then (porcentaje positivos total) (fun pp =>
       and_then (porcentaje negativos total) (fun pn =>
       and_then (porcentaje neutros total) (fun pu =>
       and_then (getitem cs (indice_color_barra pp objetivo)) (fun cb =>
       and_then (getitem cs 2) (fun inc =>
       and_then (getitem cs 0) (fun dec =>
       and_then (go_Indicator (indicador pp objetivo titulo cb inc dec)) (fun _ =>
       if desglose && negb (cuentas_imprimibles positivos negativos neutros)
       then Raise (ValueError Format.int_str_limit_message)
       else Ok (figura total positivos negativos neutros pp pn pu objetivo titulo
                  desglose cb inc dec)))))))),
     w).
Proof.
  unfold grafico_kpi_sentimiento.
  change (positivos + negativos + neutros) with total.
  change (match colores with None => default_colores_gauge | Some l => l end) with cs.
  destruct (total =? 0); [reflexivity|].
  unfold bind at 1, lift at 1.
  destruct (porcentaje positivos total) as [pp|]; cbn [and_then]; [|reflexivity].
  unfold bind at 1, lift at 1.
  destruct (porcentaje negativos total) as [pn|]; cbn [and_then]; [|reflexivity].
  unfold bind at 1, lift at 1.
  destruct (porcentaje neutros total) as [pu|]; cbn [and_then]; [|reflexivity].
  unfold bind at 1, lift at 1.
  destruct (getitem cs (indice_color_barra pp objetivo)) as [cb|]; cbn [and_then];
    [|reflexivity].
  unfold bind at 1, lift at 1.
  destruct (getitem cs 2) as [inc|]; cbn [and_then]; [|reflexivity].
  unfold bind at 1, lift at 1.
  destruct (getitem cs 0) as [dec|]; cbn [and_then]; [|reflexivity].
  unfold bind at 1, lift at 1.
  destruct (go_Indicator (indicador pp objetivo titulo cb inc dec)) as [t|] eqn:E;
    cbn [and_then]; [|reflexivity].
  apply go_Indicator_inv in E. subst t.
  unfold bind at 1. destruct desglose.
  - unfold bind at 1. unfold total.
    destruct (cuentas_imprimibles positivos negativos neutros) eqn:Hc.
    + rewrite (desglose_texto_ok _ _ _ _ _ _ _ _ Hc).
      unfold lift. rewrite add_annotation_desglose, layout_final_ok. reflexivity.
    + rewrite (desglose_texto_raise _ _ _ _ _ _ _ _ Hc). reflexivity.
  - unfold ret, lift. rewrite layout_final_ok. reflexivity.
Qed.

(** The builder never touches the world: it runs to a result that does
    not depend on it and hands the world back. *)
Lemma grafico_run w :
  grafico_kpi_sentimiento positivos negativos neutros objetivo titulo desglose colores w
  = (fst (grafico_kpi_sentimiento positivos negativos neutros objetivo titulo
            desglose colores empty_world), w).
Proof. rewrite (grafico_steps w), (grafico_steps empty_world). reflexivity. Qed.

(** Once the percentages and the colours are there and Plotly accepts the
    colours, only the breakdown can still fail. *)
Lemma grafico_after_checks w pp pn pu cb inc dec :
  total <> 0 ->
  porcentaje positivos total = Ok pp ->
  porcentaje negativos total = Ok pn ->
  porcentaje neutros total = Ok pu ->
  getitem cs (indice_color_barra pp objetivo) = Ok cb ->
  getitem cs 2 = Ok inc ->
  getitem cs 0 = Ok dec ->
  color_ok cb = true -> color_ok inc = true -> color_ok dec = true ->
  grafico_kpi_sentimiento positivos negativos neutros objetivo titulo desglose colores w
  = (if desglose && negb (cuentas_imprimibles positivos negativos neutros)
     then Raise (ValueError Format.int_str_limit_message)
     else Ok (figura total positivos negativos neutros pp pn pu objetivo titulo
                desglose cb inc dec), w).
Proof.
  intros Ht H1 H2 H3 H4 H5 H6 Vc Vi Vd.
  rewrite grafico_steps.
  destruct (Z.eqb_spec total 0) as [|_]; [contradiction|].
  rewrite H1, H2, H3. cbn [and_then]. rewrite H4, H5, H6. cbn [and_then].
  rewrite (go_Indicator_ok _ _ _ _ _ _ Vd Vi Vc). reflexivity.
Qed.

Lemma grafico_intro w pp pn pu cb inc dec :
  total <> 0 ->
  porcentaje positivos total = Ok pp ->
  porcentaje negativos total = Ok pn ->
  porcentaje neutros total = Ok pu ->
  getitem cs (indice_color_barra pp objetivo) = Ok cb ->
  getitem cs 2 = Ok inc ->
  getitem cs 0 = Ok dec ->
  color_ok cb = true -> color_ok inc = true -> color_ok dec = true ->
  (desglose = true -> cuentas_imprimibles positivos negativos neutros = true) ->
  grafico_kpi_sentimiento positivos negativos neutros objetivo titulo desglose colores w
  = (Ok (figura total positivos negativos neutros pp pn pu objetivo titulo
           desglose cb inc dec), w).
Proof.
  intros Ht H1 H2 H3 H4 H5 H6 Vc Vi Vd Hc.
  rewrite (grafico_after_checks w pp pn pu cb inc dec) by assumption.
  destruct desglose; [|reflexivity].
  rewrite (Hc eq_refl). reflexivity.
Qed.

Lemma grafico_ok_inv w fig :
  fst (grafico_kpi_sentimiento positivos negativos neutros objetivo titulo
         desglose colores w) = Ok fig ->
  total <> 0 /\
  exists pp pn pu cb inc dec,
    porcentaje positivos total = Ok pp /\
    porcentaje negativos total = Ok pn /\
    porcentaje neutros total = Ok pu /\
    getitem cs (indice_color_barra pp objetivo) = Ok cb /\
    getitem cs 2 = Ok inc /\
    getitem cs 0 = Ok dec /\
    fig = figura total positivos negativos neutros pp pn pu objetivo titulo
            desglose cb inc dec.
Proof.
  rewrite grafico_steps. cbn [fst].
  destruct (Z.eqb_spec total 0) as [|Ht]; [discriminate|].
  destruct (porcentaje positivos total) as [pp|] eqn:E1; [|discriminate].
  destruct (porcentaje negativos total) as [pn|] eqn:E2; [|discriminate].
  destruct (porcentaje neutros total) as [pu|] eqn:E3; [|discriminate].
  cbn [and_then].
  destruct (getitem cs (indice_color_barra pp objetivo)) as [cb|] eqn:E4; [|discriminate].
  destruct (getitem cs 2) as [inc|] eqn:E5; [|discriminate].
  destruct (getitem cs 0) as [dec|] eqn:E6; [|discriminate].
  cbn [and_then].
  destruct (go_Indicator _); [|discriminate]. cbn [and_then].
  destruct (desglose && negb _); [discriminate|].
  intros [= <-]. split; [exact Ht|].
  exists pp, pn, pu, cb, inc, dec. repeat split; assumption.
Qed.

(** The same, with what a returned figure says of the checks made outside
    the script: the three colours read are colours for Plotly and, with the
    flag set, the counts can be turned into text. *)
Lemma grafico_ok_full w fig :
  fst (grafico_kpi_sentimiento positivos negativos neutros objetivo titulo
         desglose colores w) = Ok fig ->
  total <> 0 /\
  exists pp pn pu cb inc dec,
    porcentaje positivos total = Ok pp /\
    porcentaje negativos total = Ok pn /\
    porcentaje neutros total = Ok pu /\
    getitem cs (indice_color_barra pp objetivo) = Ok cb /\
    getitem cs 2 = Ok inc /\
    getitem cs 0 = Ok dec /\
    fig = figura total positivos negativos neutros pp pn pu objetivo titulo
            desglose cb inc dec /\
    color_ok cb = true /\ color_ok inc = true /\ color_ok dec = true /\
    (desglose = true -> cuentas_imprimibles positivos negativos neutros = true).
Proof.
  rewrite grafico_steps. cbn [fst].
  destruct (Z.eqb_spec total 0) as [|Ht]; [discriminate|].
  destruct (porcentaje positivos total) as [pp|] eqn:E1; [|discriminate].
  destruct (porcentaje negativos total) as [pn|] eqn:E2; [|discriminate].
  destruct (porcentaje neutros total) as [pu|] eqn:E3; [|discriminate].
  cbn [and_then].
  destruct (getitem cs (indice_color_barra pp objetivo)) as [cb|] eqn:E4; [|discriminate].
  destruct (getitem cs 2) as [inc|] eqn:E5; [|discriminate].
  destruct (getitem cs 0) as [dec|] eqn:E6; [|discriminate].
  cbn [and_then].
  destruct (go_Indicator _) eqn:E; cbn [and_then]; [|discriminate].
  apply go_Indicator_valid in E. destruct E as (Vd & Vi & Vc).
  intros H. split; [exact Ht|]. exists pp, pn, pu, cb, inc, dec.
  repeat (split; [assumption|]).
  destruct desglose; cbn [andb] in H.
  - destruct (cuentas_imprimibles positivos negativos neutros); cbn [negb] in H;
      [|discriminate].
    injection H as <-. repeat split; assumption.
  - injection H as <-. repeat split; try assumption. discriminate.
Qed.

(** An error of the builder is the empty-total error exactly when the
    total is zero.  With another total it comes from a division, from an
    index, from Plotly refusing one of the colours read, or, with the flag
    set, from a count too long to be turned into text. *)
Lemma grafico_raise_inv w e :
  fst (grafico_kpi_sentimiento positivos negativos neutros objetivo titulo
         desglose colores w) = Raise e ->
  (total = 0 /\ e = ValueError empty_total_message) \/
  (total <> 0 /\
   ((exists msg, e = OverflowError msg) \/
    e = IndexError "list index out of range" \/
    (exists parent, e = ValueError (invalid_value parent "color")) \/
    (desglose = true /\ cuentas_imprimibles positivos negativos neutros = false /\
     e = ValueError Format.int_str_limit_message))).
Proof.
  rewrite grafico_steps. cbn [fst].
  destruct (Z.eqb_spec total 0) as [Ht|Ht].
  - intros [= <-]. left. split; [exact Ht|reflexivity].
  - intros H. right. split; [exact Ht|]. revert H.
    destruct (porcentaje positivos total) as [pp|] eqn:E1;
      [|intros [= <-]; left; eapply porcentaje_raise; eauto].
    destruct (porcentaje negativos total) as [pn|] eqn:E2;
      [|intros [= <-]; left; eapply porcentaje_raise; eauto].
    destruct (porcentaje neutros total) as [pu|] eqn:E3;
      [|intros [= <-]; left; eapply porcentaje_raise; eauto].
    cbn [and_then].
    destruct (getitem cs (indice_color_barra pp objetivo)) as [cb|] eqn:E4;
      [|intros [= <-]; right; left; eapply getitem_raise; eauto].
    destruct (getitem cs 2) as [inc|] eqn:E5;
      [|intros [= <-]; right; left; eapply getitem_raise; eauto].
    destruct (getitem cs 0) as [dec|] eqn:E6;
      [|intros [= <-]; right; left; eapply getitem_raise; eauto].
    cbn [and_then].
    destruct (go_Indicator _) eqn:E7; cbn [and_then].
    + destruct desglose; cbn [andb]; [|discriminate].
      destruct (cuentas_imprimibles positivos negativos neutros); cbn [negb];
        [discriminate|].
      intros [= <-]. right. right. right. repeat split.
    + intros [= <-]. right. right. left.
      apply go_Indicator_raise in E7. exact (proj2 E7).
Qed.

(** With non-negative counts, a positive total and three colours or more
    that Plotly accepts, the builder gets as far as the breakdown. *)
Lemma grafico_valid_inputs w :
  0 <= positivos -> 0 <= negativos -> 0 <= neutros ->
  0 < total ->
  (3 <= List.length cs)%nat ->
  colores_validos cs = true ->
  exists pp pn pu cb inc dec,
    porcentaje positivos total = Ok pp /\
    grafico_kpi_sentimiento positivos negativos neutros objetivo titulo desglose colores w
    = (if desglose && negb (cuentas_imprimibles positivos negativos neutros)
       then Raise (ValueError Format.int_str_limit_message)
       else Ok (figura total positivos negativos neutros pp pn pu objetivo titulo
                  desglose cb inc dec), w).
Proof.
  intros Hp Hn Hu Ht Hl Hv.
  destruct (porcentaje_ok positivos total) as (pp & H1 & _); [unfold total; lia|lia|].
  destruct (porcentaje_ok negativos total) as (pn & H2 & _); [unfold total; lia|lia|].
  destruct (porcentaje_ok neutros total) as (pu & H3 & _); [unfold total; lia|lia|].
  destruct (getitem_lt cs (indice_color_barra pp objetivo)) as [cb H4].
  { pose proof (indice_color_barra_lt_3 pp objetivo). lia. }
  destruct (getitem_lt cs 2) as [inc H5]; [lia|].
  destruct (getitem_lt cs 0) as [dec H6]; [lia|].
  unfold colores_validos in Hv. rewrite forallb_forall in Hv.
  exists pp, pn, pu, cb, inc, dec. split; [exact H1|].
  apply grafico_after_checks; try assumption; try lia.
  - apply Hv. eapply getitem_firstn; [apply indice_color_barra_lt_3|exact H4].
  - apply Hv. eapply getitem_firstn; [|exact H5]. lia.
  - apply Hv. eapply getitem_firstn; [|exact H6]. lia.
Qed.

(** Such inputs always give a figure when, with the flag set, the counts
    can be turned into text. *)
Lemma grafico_returns w :
  0 <= positivos -> 0 <= negativos -> 0 <= neutros ->
  0 < total ->
  (3 <= List.length cs)%nat ->
  colores_validos cs = true ->
  (desglose = true -> cuentas_imprimibles positivos negativos neutros = true) ->
  exists fig,
    grafico_kpi_sentimiento positivos negativos neutros objetivo titulo desglose colores w
    = (Ok fig, w).
Proof.
  intros Hp Hn Hu Ht Hl Hv Hc.
  destruct (grafico_valid_inputs w Hp Hn Hu Ht Hl Hv)
    as (pp & pn & pu & cb & inc & dec & _ & E).
  rewrite E. destruct desglose; [rewrite (Hc eq_refl)|]; eexists; reflexivity.
Qed.

End Invocation.

Lemma default_colores_validos : colores_validos default_colores_gauge = true.
Proof. vm_compute. reflexivity. Qed.

(** [10 ^ 4300] is the first integer that cannot be turned into text. *)
Lemma int_str_ok_limit : Format.int_str_ok (10 ^ 4300) = false.
Proof.
  unfold Format.int_str_ok, Format.int_max_str_digits.
  rewrite Z.abs_eq by (apply Z.pow_nonneg; lia). apply Z.ltb_irrefl.
Qed.

(** A count of that length stops the builder at the breakdown, and only
    there: without the flag the figure is returned. *)
Lemma grafico_cuenta_larga objetivo titulo w :
  fst (grafico_kpi_sentimiento (10 ^ 4300) 0 0 objetivo titulo true None w)
  = Raise (ValueError Format.int_str_limit_message) /\
  exists fig,
    fst (grafico_kpi_sentimiento (10 ^ 4300) 0 0 objetivo titulo false None w) = Ok fig.
Proof.
  assert (HN : 0 < 10 ^ 4300) by (apply Z.pow_pos_nonneg; lia).
  assert (Hs := int_str_ok_limit).
  revert HN Hs. generalize (10 ^ 4300). intros N HN Hs.
  assert (Hc : cuentas_imprimibles N 0 0 = false).
  { unfold cuentas_imprimibles. rewrite !Z.add_0_r, Hs. reflexivity. }
  split.
  - destruct (grafico_valid_inputs N 0 0 objetivo titulo true None w)
      as (pp & pn & pu & cb & inc & dec & _ & E);
      [lia|lia|lia|lia|cbn; lia|exact default_colores_validos|].
    rewrite E, Hc. reflexivity.
  - destruct (grafico_valid_inputs N 0 0 objetivo titulo false None w)
      as (pp & pn & pu & cb & inc & dec & _ & E);
      [lia|lia|lia|lia|cbn; lia|exact default_colores_validos|].
    rewrite E. eexists. reflexivity.
Qed.

End Builder.
Import Builder.

(** ** The claims *)

(** C1. The builder raises its empty-input error, the [ValueError] of line
    42, if and only if [positivos + negativos + neutros = 0].  When the
    total is zero the error reaches the caller as it is: the result is that
    exception, never a figure or a default, and the world is left as it
    was.  With another total the builder can still raise a [ValueError],
    but for another reason and with another message: so it does when
    Plotly refuses the colours (with ["rojo"], ["amarillo"], ["verde"]) and
    when, with the flag set, a count has more than 4300 digits. *)
Theorem C1_empty_input_error :
  (forall positivos negativos neutros objetivo titulo desglose colores w,
     let r := grafico_kpi_sentimiento positivos negativos neutros objetivo
                titulo desglose colores w in
     (fst r = Raise (ValueError empty_total_message)
      <-> positivos + negativos + neutros = 0) /\
     (positivos + negativos + neutros = 0 ->
      r = (Raise (ValueError empty_total_message), w))) /\
  (exists msg,
     fst (grafico_kpi_sentimiento 1 0 0 lit_70_0 default_titulo true
            (Some ["rojo"; "amarillo"; "verde"]) empty_world)
     = Raise (ValueError msg) /\
     msg <> empty_total_message) /\
  (fst (grafico_kpi_sentimiento (10 ^ 4300) 0 0 lit_70_0 default_titulo true
          None empty_world)
   = Raise (ValueError Format.int_str_limit_message) /\
   Format.int_str_limit_message <> empty_total_message).
Proof.
  split; [|split].
  - intros positivos negativos neutros objetivo titulo desglose colores w r.
    assert (Hz : positivos + negativos + neutros = 0 ->
                 r = (Raise (ValueError empty_total_message), w)).
    { intros H. unfold r, grafico_kpi_sentimiento. rewrite H. reflexivity. }
    split; [|exact Hz].
    split.
    + intros E. apply grafico_raise_inv in E.
      destruct E as [[E _]|[_ [[msg E]|[E|[[parent E]|(_ & _ & E)]]]]];
        [exact E|discriminate|discriminate| |].
      * exfalso. injection E as E. revert E. vm_compute. discriminate.
      * exfalso. injection E as E. revert E. vm_compute. discriminate.
    + intros H. rewrite (Hz H). reflexivity.
  - eexists. split; [vm_compute; reflexivity|]. vm_compute. discriminate.
  - split; [apply grafico_cuenta_larga|]. vm_compute. discriminate.
Qed.

Lemma SFcompare_Eq_sym x y : SFcompare x y = Some Eq -> SFcompare y x = Some Eq.
Proof.
  destruct x as [sx|sx| |sx mx ex], y as [sy|sy| |sy my ey]; cbn;
    try discriminate; try reflexivity;
    try (destruct sx; discriminate); try (destruct sy; discriminate);
    try (destruct sx, sy; discriminate || reflexivity).
  destruct sx, sy; try discriminate.
  - rewrite (Z.compare_antisym ex ey).
    destruct (ex ?= ey) eqn:E; cbn; try discriminate.
    change (Pos.compare_cont Eq mx my) with (Pos.compare mx my).
    change (Pos.compare_cont Eq my mx) with (Pos.compare my mx).
    rewrite (Pos.compare_antisym mx my).
    destruct (mx ?= my)%positive; cbn; discriminate || reflexivity.
  - rewrite (Z.compare_antisym ex ey).
    destruct (ex ?= ey) eqn:E; cbn; try discriminate.
    change (Pos.compare_cont Eq mx my) with (Pos.compare mx my).
    change (Pos.compare_cont Eq my mx) with (Pos.compare my mx).
    rewrite (Pos.compare_antisym mx my).
    destruct (mx ?= my)%positive; cbn; discriminate || reflexivity.
Qed.

(** Float equality is one of the cases of [>=]. *)
Lemma eqb_ge x y : eqb x y = true -> ge x y = true.
Proof.
  unfold eqb, ge, SFeqb, SFleb. intros H.
  destruct (SFcompare x y) as [[]|] eqn:E; try discriminate.
  rewrite (SFcompare_Eq_sym _ _ E). reflexivity.
Qed.

(** C2, as amended.  The bar colour (and the colour of the number) is read
    from the colour list by an ordered ladder on [pct_positivo]: index 2
    when [pct_positivo >= objetivo_positivo]; else index 1 when
    [pct_positivo >= objetivo_positivo * 0.7]; else index 0.  A value
    equal to the target takes index 2; a value equal to 0.7 times the
    target takes index 1 whenever it is not already at or above the target
    itself. *)
Theorem C2_tier_ladder :
  forall positivos negativos neutros objetivo titulo desglose colores w fig,
    fst (grafico_kpi_sentimiento positivos negativos neutros objetivo titulo
           desglose colores w) = Ok fig ->
    exists ind color,
      fig_data fig = [ind] /\
      porcentaje positivos (positivos + negativos + neutros) = Ok (ind_value ind) /\
      bar_color (gauge_bar (ind_gauge ind)) = color /\
      font_color (number_font (ind_number ind)) = Some color /\
      let pct := ind_value ind in
      let cs := colores_en_uso colores in
      (ge pct objetivo = true -> getitem cs 2 = Ok color) /\
      (ge pct objetivo = false -> ge pct (mul objetivo lit_0_7) = true ->
       getitem cs 1 = Ok color) /\
      (ge pct objetivo = false -> ge pct (mul objetivo lit_0_7) = false ->
       getitem cs 0 = Ok color) /\
      (eqb pct objetivo = true -> getitem cs 2 = Ok color) /\
      (eqb pct (mul objetivo lit_0_7) = true -> ge pct objetivo = false ->
       getitem cs 1 = Ok color).
Proof.
  intros positivos negativos neutros objetivo titulo desglose colores w fig H.
  apply grafico_ok_inv in H.
  destruct H as (_ & pp & pn & pu & cb & inc & dec & H1 & _ & _ & H4 & _ & _ & ->).
  exists (indicador pp objetivo titulo cb inc dec), cb.
  split; [destruct desglose; reflexivity|].
  split; [exact H1|]. split; [reflexivity|]. split; [reflexivity|].
  cbn [ind_value indicador]. unfold indice_color_barra in H4.
  repeat split.
  - intros E. rewrite E in H4. exact H4.
  - intros E1 E2. rewrite E1, E2 in H4. exact H4.
  - intros E1 E2. rewrite E1, E2 in H4. exact H4.
  - intros E. apply eqb_ge in E. rewrite E in H4. exact H4.
  - intros E1 E2. apply eqb_ge in E1. rewrite E2, E1 in H4. exact H4.
Qed.

Lemma C2_tier_ladder_witness :
  exists fig,
    fst (grafico_kpi_sentimiento 49 51 0 lit_70_0 default_titulo true None
           empty_world) = Ok fig /\
    exists ind color,
      fig_data fig = [ind] /\
      porcentaje 49 (49 + 51 + 0) = Ok (ind_value ind) /\
      bar_color (gauge_bar (ind_gauge ind)) = color /\
      font_color (number_font (ind_number ind)) = Some color /\
      let pct := ind_value ind in
      let cs := colores_en_uso None in
      (ge pct lit_70_0 = true -> getitem cs 2 = Ok color) /\
      (ge pct lit_70_0 = false -> ge pct (mul lit_70_0 lit_0_7) = true ->
       getitem cs 1 = Ok color) /\
      (ge pct lit_70_0 = false -> ge pct (mul lit_70_0 lit_0_7) = false ->
       getitem cs 0 = Ok color) /\
      (eqb pct lit_70_0 = true -> getitem cs 2 = Ok color) /\
      (eqb pct (mul lit_70_0 lit_0_7) = true -> ge pct lit_70_0 = false ->
       getitem cs 1 = Ok color).
Proof.
  eexists. split; [vm_compute; reflexivity|].
  apply (C2_tier_ladder 49 51 0 lit_70_0 default_titulo true None empty_world).
  vm_compute. reflexivity.
Defined.

(** C2, the claim as first stated, fails where the two thresholds meet:
    with [objetivo_positivo = 0.0] and no positive count, [pct_positivo]
    is [0.0], equal to [0.7 * objetivo_positivo], and the bar takes the
    colour of index 2, not that of index 1. *)
Lemma C2_tie_counterexample :
  exists fig ind,
    fst (grafico_kpi_sentimiento 0 1 0 (of_decimal 0 (-1)) default_titulo true None
           empty_world) = Ok fig /\
    fig_data fig = [ind] /\
    eqb (ind_value ind) (mul (of_decimal 0 (-1)) lit_0_7) = true /\
    getitem default_colores_gauge 1 = Ok "#f39c12" /\
    getitem default_colores_gauge 2 = Ok "#2ecc71" /\
    bar_color (gauge_bar (ind_gauge ind)) = "#2ecc71" /\
    bar_color (gauge_bar (ind_gauge ind)) <> "#f39c12".
Proof.
  eexists. eexists. split; [vm_compute; reflexivity|].
  split; [reflexivity|]. repeat split. discriminate.
Qed.

Lemma Qabs_le_iff x y : (Qabs x <= y)%Q <-> (- y <= x <= y)%Q.
Proof. apply Qabs_Qle_condition. Qed.

Lemma pct_exact_bounds c t :
  0 <= c <= t -> 0 < t -> (0 <= pct_exact c t <= 100)%Q.
Proof.
  intros Hc Ht. unfold pct_exact.
  assert (Hit : (0 < inject_Z t)%Q) by (change 0%Q with (inject_Z 0); rewrite <- Zlt_Qlt; lia).
  assert (Hic : (0 <= inject_Z c)%Q) by (change 0%Q with (inject_Z 0); rewrite <- Zle_Qle; lia).
  assert (Hct : (inject_Z c <= inject_Z t)%Q) by (rewrite <- Zle_Qle; lia).
  assert (0 <= inject_Z c / inject_Z t)%Q by (apply Qle_shift_div_l; lra).
  assert (inject_Z c / inject_Z t <= 1)%Q by (apply Qle_shift_div_r; lra).
  lra.
Qed.

Lemma pct_exact_sum p n u :
  p + n + u <> 0 ->
  (pct_exact p (p + n + u) + pct_exact n (p + n + u) + pct_exact u (p + n + u) == 100)%Q.
Proof.
  intros Ht. unfold pct_exact. rewrite !inject_Z_plus. field.
  rewrite <- !inject_Z_plus. change 0%Q with (inject_Z 0). rewrite inject_Z_injective. exact Ht.
Qed.

(** C3. For non-negative integer counts with a positive sum: over exact
    rationals the three percentages [count / total * 100] lie in [0, 100]
    and sum to exactly 100; the three floats the code computes exist (no
    division fails), are finite, lie in [0, 100], are each within
    [pct_error] of the exact percentage, and their sum differs from 100 by
    at most [1e-9 * 100], both as the exact sum of the three floats and as
    the float sum [(a + b) + c]. *)
Theorem C3_percentages :
  forall positivos negativos neutros,
    0 <= positivos -> 0 <= negativos -> 0 <= neutros ->
    0 < positivos + negativos + neutros ->
    let total := positivos + negativos + neutros in
    ((0 <= pct_exact positivos total <= 100) /\
     (0 <= pct_exact negativos total <= 100) /\
     (0 <= pct_exact neutros total <= 100) /\
     pct_exact positivos total + pct_exact negativos total
       + pct_exact neutros total == 100)%Q /\
    exists a b c,
      porcentaje positivos total = Ok a /\
      porcentaje negativos total = Ok b /\
      porcentaje neutros total = Ok c /\
      is_finite a = true /\ is_finite b = true /\ is_finite c = true /\
      is_finite (add (add a b) c) = true /\
      ((0 <= to_Q a <= 100) /\ (0 <= to_Q b <= 100) /\ (0 <= to_Q c <= 100) /\
       Qabs (to_Q a - pct_exact positivos total) <= pct_error /\
       Qabs (to_Q b - pct_exact negativos total) <= pct_error /\
       Qabs (to_Q c - pct_exact neutros total) <= pct_error /\
       Qabs (to_Q a + to_Q b + to_Q c - 100) <= tolerancia * 100 /\
       Qabs (to_Q (add (add a b) c) - 100) <= tolerancia * 100)%Q.
Proof.
  intros p n u Hp Hn Hu Ht total.
  assert (Hsum := pct_exact_sum p n u ltac:(lia)). fold total in Hsum.
  assert (Bp := pct_exact_bounds p total ltac:(unfold total; lia) Ht).
  assert (Bn := pct_exact_bounds n total ltac:(unfold total; lia) Ht).
  assert (Bu := pct_exact_bounds u total ltac:(unfold total; lia) Ht).
  split; [tauto|].
  destruct (porcentaje_ok p total) as (a & Ha & Fa & Ba & Ea); [unfold total; lia|exact Ht|].
  destruct (porcentaje_ok n total) as (b & Hb & Fb & Bb & Eb); [unfold total; lia|exact Ht|].
  destruct (porcentaje_ok u total) as (c & Hc & Fc & Bc & Ec); [unfold total; lia|exact Ht|].
  assert (Hfin : forall x, is_nonneg_finite x = true -> is_finite x = true).
  { intros [[]|[]| |[] ? ?]; cbn; congruence. }
  assert (Hex : forall k, (100 * (inject_Z k / inject_Z total) == pct_exact k total)%Q).
  { intros k. unfold pct_exact. ring. }
  rewrite Hex in Ea, Eb, Ec.
  destruct (add_ok a b 200 8 Fa Fb) as (F1 & B1 & E1);
    [lia|lia|change (inject_Z 200) with 200%Q; lra|reflexivity|].
  destruct (add_ok (add a b) c 300 9 F1 Fc) as (F2 & B2 & E2);
    [lia|lia|change (inject_Z 200) with 200%Q in B1; change (inject_Z 300) with 300%Q; lra
    |reflexivity|].
  exists a, b, c. repeat (split; [solve [auto]|]).
  unfold pct_error, tolerancia in *.
  change (pow2 (-47)) with (1 # 140737488355328)%Q in *.
  change (pow2 (-53)) with (1 # 9007199254740992)%Q in *.
  change (pow2 (8 - 54)) with (1 # 70368744177664)%Q in *.
  change (pow2 (9 - 54)) with (1 # 35184372088832)%Q in *.
  apply Qabs_le_iff in Ea, Eb, Ec, E1, E2.
  repeat split; try apply Qabs_le_iff; try split; lra.
Qed.

Lemma C3_percentages_witness :
  (0 <= 120 /\ 0 <= 30 /\ 0 <= 50 /\ 0 < 120 + 30 + 50) /\
  let total := 120 + 30 + 50 in
  ((0 <= pct_exact 120 total <= 100) /\
   (0 <= pct_exact 30 total <= 100) /\
   (0 <= pct_exact 50 total <= 100) /\
   pct_exact 120 total + pct_exact 30 total + pct_exact 50 total == 100)%Q /\
  exists a b c,
    porcentaje 120 total = Ok a /\
    porcentaje 30 total = Ok b /\
    porcentaje 50 total = Ok c /\
    is_finite a = true /\ is_finite b = true /\ is_finite c = true /\
    is_finite (add (add a b) c) = true /\
    ((0 <= to_Q a <= 100) /\ (0 <= to_Q b <= 100) /\ (0 <= to_Q c <= 100) /\
     Qabs (to_Q a - pct_exact 120 total) <= pct_error /\
     Qabs (to_Q b - pct_exact 30 total) <= pct_error /\
     Qabs (to_Q c - pct_exact 50 total) <= pct_error /\
     Qabs (to_Q a + to_Q b + to_Q c - 100) <= tolerancia * 100 /\
     Qabs (to_Q (add (add a b) c) - 100) <= tolerancia * 100)%Q.
Proof.
  split; [lia|]. apply (C3_percentages 120 30 50); lia.
Defined.

(** C4. For [positivos = 120], [negativos = 30], [neutros = 50] and
    [objetivo_positivo = 70.0] the builder returns a figure: the total is
    200, the gauge value is the float 60.0, the ladder picks index 1 (60.0
    is at least [70.0 * 0.7 = 49.0] and below 70.0), so the bar takes the
    medium colour, and the delta against the reference 70.0 is -10.0. *)
Theorem C4_example_1 :
  forall titulo desglose w,
    exists fig ind,
      fst (grafico_kpi_sentimiento 120 30 50 lit_70_0 titulo desglose None w) = Ok fig /\
      fig_data fig = [ind] /\
      120 + 30 + 50 = 200 /\
      ind_value ind = of_decimal 600 (-1) /\
      (to_Q (ind_value ind) == 60)%Q /\
      ge (ind_value ind) lit_70_0 = false /\
      mul lit_70_0 lit_0_7 = of_decimal 490 (-1) /\
      ge (ind_value ind) (mul lit_70_0 lit_0_7) = true /\
      indice_color_barra (ind_value ind) lit_70_0 = 1%nat /\
      getitem default_colores_gauge 1 = Ok (bar_color (gauge_bar (ind_gauge ind))) /\
      bar_color (gauge_bar (ind_gauge ind)) = "#f39c12" /\
      delta_reference (ind_delta ind) = lit_70_0 /\
      delta_mostrado ind = of_decimal (-100) (-1) /\
      (to_Q (delta_mostrado ind) == - 10)%Q.
Proof.
  intros titulo desglose w. rewrite grafico_run.
  destruct desglose; eexists; eexists;
    (split; [vm_compute; reflexivity|]);
    (split; [reflexivity|]);
    repeat split; vm_compute; reflexivity.
Qed.

(** The breakdown text the builder attaches for that input. *)
Lemma example_1_desglose_texto :
  exists fig a,
    fst (grafico_kpi_sentimiento 120 30 50 lit_70_0 default_titulo true None
           empty_world) = Ok fig /\
    layout_annotations (fig_layout fig) = [a] /\
    ann_text a =
      "<b>Desglose Total: 200</b><br>✅ Positivos: 120 (60.0%)<br>❌ Negativos: 30 (15.0%)<br>⚪ Neutros: 50 (25.0%)<br><b>Objetivo: 70.0%</b>".
Proof.
  eexists. eexists. split; [vm_compute; reflexivity|]. split; reflexivity.
Qed.

(** C5, what the code does.  Whatever colour list is in effect, the three
    zones of a returned figure carry the tints of the default colours.
    With [colores_gauge = MIS_COLORES] the bar and the delta use the given
    colours, while the zones are still tinted with the default ones and
    not with the tints of [MIS_COLORES]. *)
Theorem C5_zone_tints_ignore_colores_gauge :
  (forall positivos negativos neutros objetivo titulo desglose colores w fig,
     fst (grafico_kpi_sentimiento positivos negativos neutros objetivo titulo
            desglose colores w) = Ok fig ->
     exists ind,
       fig_data fig = [ind] /\
       map step_range (gauge_steps (ind_gauge ind)) = [[0; 40]; [40; 70]; [70; 100]] /\
       zone_colors ind = map tinte default_colores_gauge) /\
  (exists fig ind,
     fst (grafico_kpi_sentimiento 120 30 50 lit_70_0 default_titulo true
            (Some MIS_COLORES) empty_world) = Ok fig /\
     fig_data fig = [ind] /\
     bar_color (gauge_bar (ind_gauge ind)) = "#ffd93d" /\
     delta_increasing_color (ind_delta ind) = "#6bcf7f" /\
     delta_decreasing_color (ind_delta ind) = "#ff6b6b" /\
     map tinte MIS_COLORES =
       [Some "rgba(255, 107, 107, 0.2)"; Some "rgba(255, 217, 61, 0.2)";
        Some "rgba(107, 207, 127, 0.2)"] /\
     zone_colors ind =
       [Some "rgba(231, 76, 60, 0.2)"; Some "rgba(243, 156, 18, 0.2)";
        Some "rgba(46, 204, 113, 0.2)"] /\
     zone_colors ind <> map tinte MIS_COLORES).
Proof.
  split.
  - intros positivos negativos neutros objetivo titulo desglose colores w fig H.
    apply grafico_ok_inv in H.
    destruct H as (_ & pp & pn & pu & cb & inc & dec & _ & _ & _ & _ & _ & _ & ->).
    exists (indicador pp objetivo titulo cb inc dec).
    split; [destruct desglose; reflexivity|]. split; reflexivity.
  - eexists. eexists. split; [vm_compute; reflexivity|]. split; [reflexivity|].
    repeat split. discriminate.
Qed.

(** C6. In every figure the builder returns, the zone boundaries are 40
    and 70 whatever the target, the axis runs over [0, 100] with a tick
    every 20, and the threshold line sits at [objetivo_positivo]; and the
    builder does return a figure for all non-negative counts with a positive
    total, every target and every list of three colours or more that
    Plotly accepts, provided that, with the breakdown asked for, the counts
    can be turned into text. *)
Theorem C6_fixed_zones_and_threshold :
  forall positivos negativos neutros objetivo titulo desglose colores w,
    (forall fig,
       fst (grafico_kpi_sentimiento positivos negativos neutros objetivo titulo
              desglose colores w) = Ok fig ->
       exists ind,
         fig_data fig = [ind] /\
         map step_range (gauge_steps (ind_gauge ind)) = [[0; 40]; [40; 70]; [70; 100]] /\
         axis_range (gauge_axis (ind_gauge ind)) = [0; 100] /\
         axis_tick0 (gauge_axis (ind_gauge ind)) = 0 /\
         axis_dtick (gauge_axis (ind_gauge ind)) = 20 /\
         threshold_value (gauge_threshold (ind_gauge ind)) = objetivo /\
         forall objetivo' fig',
           fst (grafico_kpi_sentimiento positivos negativos neutros objetivo' titulo
                  desglose colores w) = Ok fig' ->
           exists ind',
             fig_data fig' = [ind'] /\
             gauge_steps (ind_gauge ind') = gauge_steps (ind_gauge ind)) /\
    (0 <= positivos -> 0 <= negativos -> 0 <= neutros ->
     0 < positivos + negativos + neutros ->
     (3 <= List.length (colores_en_uso colores))%nat ->
     colores_validos (colores_en_uso colores) = true ->
     (desglose = true -> cuentas_imprimibles positivos negativos neutros = true) ->
     exists fig,
       fst (grafico_kpi_sentimiento positivos negativos neutros objetivo titulo
              desglose colores w) = Ok fig).
Proof.
  intros positivos negativos neutros objetivo titulo desglose colores w. split.
  - intros fig H. apply grafico_ok_inv in H.
    destruct H as (_ & pp & pn & pu & cb & inc & dec & _ & _ & _ & _ & _ & _ & ->).
    exists (indicador pp objetivo titulo cb inc dec).
    split; [destruct desglose; reflexivity|].
    repeat (split; [reflexivity|]).
    intros objetivo' fig' H'. apply grafico_ok_inv in H'.
    destruct H' as (_ & pp' & pn' & pu' & cb' & inc' & dec' & _ & _ & _ & _ & _ & _ & ->).
    exists (indicador pp' objetivo' titulo cb' inc' dec').
    split; [destruct desglose; reflexivity|reflexivity].
  - intros Hp Hn Hu Ht Hl Hv Hc.
    destruct (grafico_returns positivos negativos neutros objetivo titulo desglose
                colores w Hp Hn Hu Ht Hl Hv Hc) as [fig H].
    exists fig. rewrite H. reflexivity.
Qed.

(** C7. The builder is a function of its arguments alone: run in any two
    worlds it gives the same result, and it leaves the world (standard
    output, displayed figures, written files) exactly as it found it. *)
Theorem C7_deterministic_no_side_effect :
  forall positivos negativos neutros objetivo titulo desglose colores w1 w2,
    fst (grafico_kpi_sentimiento positivos negativos neutros objetivo titulo
           desglose colores w1)
    = fst (grafico_kpi_sentimiento positivos negativos neutros objetivo titulo
             desglose colores w2) /\
    snd (grafico_kpi_sentimiento positivos negativos neutros objetivo titulo
           desglose colores w1) = w1 /\
    snd (grafico_kpi_sentimiento positivos negativos neutros objetivo titulo
           desglose colores w2) = w2.
Proof.
  intros positivos negativos neutros objetivo titulo desglose colores w1 w2.
  rewrite (grafico_run _ _ _ _ _ _ _ w1), (grafico_run _ _ _ _ _ _ _ w2).
  repeat split.
Qed.

(** The driver, by contrast, acts on the world: it prints fifteen times
    and hands the figure of the builder to the display. *)
Lemma main_effects :
  exists fig,
    fst (grafico_kpi_sentimiento POSITIVOS NEGATIVOS NEUTROS OBJETIVO
           TITULO_GRAFICO true None empty_world) = Ok fig /\
    fst (main empty_world) = Ok tt /\
    displayed (snd (main empty_world)) = [fig] /\
    files (snd (main empty_world)) = [] /\
    List.length (stdout (snd (main empty_world))) = 15%nat /\
    nth_error (stdout (snd (main empty_world))) 11
    = Some "Diferencia: -10.0 puntos porcentuales".
Proof.
  eexists. split; [vm_compute; reflexivity|]. repeat split.
Qed.

(** C8, as amended.  With an explicitly given colour list of fewer than
    three entries and a positive total, the builder never returns a figure.
    Index 2 of the list is out of range, so as soon as the three
    percentages are computed the builder fails with the out-of-bounds
    [IndexError]; that is always so for non-negative counts.  The one other
    outcome is the [OverflowError] of a percentage whose quotient is beyond
    the float range, raised before any colour is read. *)
Theorem C8_short_color_list :
  forall positivos negativos neutros objetivo titulo desglose l w,
    (List.length l < 3)%nat ->
    0 < positivos + negativos + neutros ->
    let total := positivos + negativos + neutros in
    let r := fst (grafico_kpi_sentimiento positivos negativos neutros objetivo
                    titulo desglose (Some l) w) in
    getitem l 2 = Raise (IndexError "list index out of range") /\
    (exists e,
       r = Raise e /\
       (e = IndexError "list index out of range" \/ exists msg, e = OverflowError msg)) /\
    ((exists pp pn pu,
        porcentaje positivos total = Ok pp /\
        porcentaje negativos total = Ok pn /\
        porcentaje neutros total = Ok pu) ->
     r = Raise (IndexError "list index out of range")) /\
    (0 <= positivos -> 0 <= negativos -> 0 <= neutros ->
     r = Raise (IndexError "list index out of range")).
Proof.
  intros positivos negativos neutros objetivo titulo desglose l w Hl Ht total r.
  assert (H2 : getitem l 2 = Raise (IndexError "list index out of range")).
  { apply getitem_ge. lia. }
  assert (Hno : forall fig, r <> Ok fig).
  { intros fig E. apply grafico_ok_inv in E.
    destruct E as (_ & pp & pn & pu & cb & inc & dec & _ & _ & _ & _ & E & _).
    cbn [colores_en_uso] in E. rewrite H2 in E. discriminate. }
  assert (Hidx : (exists pp pn pu,
                    porcentaje positivos total = Ok pp /\
                    porcentaje negativos total = Ok pn /\
                    porcentaje neutros total = Ok pu) ->
                 r = Raise (IndexError "list index out of range")).
  { intros (pp & pn & pu & E1 & E2 & E3).
    unfold r. rewrite grafico_steps. cbn [fst colores_en_uso]. fold total.
    destruct (Z.eqb_spec total 0) as [|_]; [lia|].
    rewrite E1, E2, E3. cbn [and_then].
    destruct (getitem l (indice_color_barra pp objetivo)) as [cb|e] eqn:E4;
      cbn [and_then].
    - rewrite H2. reflexivity.
    - rewrite (getitem_raise _ _ _ E4). reflexivity. }
  assert (Hov : forall c e, porcentaje c total = Raise e -> exists msg, e = OverflowError msg).
  { intros c e E. apply (porcentaje_raise c total e); [lia|exact E]. }
  split; [exact H2|]. split; [|split; [exact Hidx|]].
  - destruct (porcentaje positivos total) as [pp|e1] eqn:E1.
    + destruct (porcentaje negativos total) as [pn|e2] eqn:E2.
      * destruct (porcentaje neutros total) as [pu|e3] eqn:E3.
        -- exists (IndexError "list index out of range").
           split; [apply Hidx; eauto 10|left; reflexivity].
        -- exists e3. split; [|right; eapply Hov; eauto].
           unfold r. rewrite grafico_steps. cbn [fst]. fold total.
           destruct (Z.eqb_spec total 0) as [|_]; [lia|].
           rewrite E1, E2, E3. reflexivity.
      * exists e2. split; [|right; eapply Hov; eauto].
        unfold r. rewrite grafico_steps. cbn [fst]. fold total.
        destruct (Z.eqb_spec total 0) as [|_]; [lia|].
        rewrite E1, E2. reflexivity.
    + exists e1. split; [|right; eapply Hov; eauto].
      unfold r. rewrite grafico_steps. cbn [fst]. fold total.
      destruct (Z.eqb_spec total 0) as [|_]; [lia|].
      rewrite E1. reflexivity.
  - intros Hp Hn Hu. apply Hidx.
    destruct (porcentaje_ok positivos total) as (pp & H1 & _); [unfold total; lia|exact Ht|].
    destruct (porcentaje_ok negativos total) as (pn & H3 & _); [unfold total; lia|exact Ht|].
    destruct (porcentaje_ok neutros total) as (pu & H4 & _); [unfold total; lia|exact Ht|].
    eauto 10.
Qed.

Lemma C8_short_color_list_witness :
  ((List.length ["#ff6b6b"; "#ffd93d"] < 3)%nat /\ 0 < 1 + 0 + 0) /\
  let total := 1 + 0 + 0 in
  let r := fst (grafico_kpi_sentimiento 1 0 0 lit_70_0 default_titulo true
                  (Some ["#ff6b6b"; "#ffd93d"]) empty_world) in
  getitem ["#ff6b6b"; "#ffd93d"] 2 = Raise (IndexError "list index out of range") /\
  (exists e,
     r = Raise e /\
     (e = IndexError "list index out of range" \/ exists msg, e = OverflowError msg)) /\
  ((exists pp pn pu,
      porcentaje 1 total = Ok pp /\
      porcentaje 0 total = Ok pn /\
      porcentaje 0 total = Ok pu) ->
   r = Raise (IndexError "list index out of range")) /\
  (0 <= 1 -> 0 <= 0 -> 0 <= 0 ->
   r = Raise (IndexError "list index out of range")).
Proof.
  split; [split; [cbn; lia|lia]|].
  apply (C8_short_color_list 1 0 0 lit_70_0 default_titulo true
           ["#ff6b6b"; "#ffd93d"] empty_world); [cbn; lia|lia].
Defined.

(** C8, the claim as first stated, fails on counts whose quotient does not
    fit a float: with [positivos = 10^400], [negativos = 1 - 10^400] and
    [neutros = 0] the total is 1, the list is empty, and the builder fails
    with the [OverflowError] of [positivos / total], not with an index
    error. *)
Lemma C8_overflow_counterexample :
  10 ^ 400 + (1 - 10 ^ 400) + 0 = 1 /\
  (List.length (@nil string) < 3)%nat /\
  fst (grafico_kpi_sentimiento (10 ^ 400) (1 - 10 ^ 400) 0 lit_70_0 default_titulo
         true (Some []) empty_world)
  = Raise (OverflowError "integer division result too large for a float") /\
  fst (grafico_kpi_sentimiento (10 ^ 400) (1 - 10 ^ 400) 0 lit_70_0 default_titulo
         true (Some []) empty_world)
  <> Raise (IndexError "list index out of range").
Proof.
  split; [vm_compute; reflexivity|]. split; [cbn; lia|].
  assert (E : fst (grafico_kpi_sentimiento (10 ^ 400) (1 - 10 ^ 400) 0 lit_70_0
                     default_titulo true (Some []) empty_world)
              = Raise (OverflowError "integer division result too large for a float")).
  { vm_compute. reflexivity. }
  split; [exact E|]. rewrite E. discriminate.
Qed.

(** C9. The check of line 41 is an equality test: a negative total never
    raises the empty-total error, and negative counts are accepted.  With
    [positivos = -5], [negativos = 3], [neutros = 1] (total -1) and the
    default colours the builder returns a figure whose gauge value is the
    float 500.0, outside [0, 100]. *)
Theorem C9_negative_counts_accepted :
  (forall positivos negativos neutros objetivo titulo desglose colores w,
     positivos + negativos + neutros < 0 ->
     fst (grafico_kpi_sentimiento positivos negativos neutros objetivo titulo
            desglose colores w) <> Raise (ValueError empty_total_message)) /\
  (forall objetivo titulo desglose w,
     exists fig ind,
       -5 + 3 + 1 = -1 /\
       fst (grafico_kpi_sentimiento (-5) 3 1 objetivo titulo desglose None w) = Ok fig /\
       fig_data fig = [ind] /\
       ind_value ind = of_decimal 5000 (-1) /\
       (to_Q (ind_value ind) == 500)%Q /\
       ~ (0 <= to_Q (ind_value ind) <= 100)%Q /\
       ge (ind_value ind) (of_Z 100) = true /\
       ge (of_Z 100) (ind_value ind) = false).
Proof.
  split.
  - intros positivos negativos neutros objetivo titulo desglose colores w Ht E.
    apply grafico_raise_inv in E.
    destruct E as [[E _]|[_ [[msg E]|[E|[[parent E]|(_ & _ & E)]]]]];
      [lia|discriminate|discriminate| |].
    + injection E as E. revert E. vm_compute. discriminate.
    + injection E as E. revert E. vm_compute. discriminate.
  - intros objetivo titulo desglose w.
    destruct (getitem_lt default_colores_gauge
                (indice_color_barra (of_decimal 5000 (-1)) objetivo)) as [cb Hcb].
    { change (List.length default_colores_gauge) with 3%nat.
      apply indice_color_barra_lt_3. }
    eexists. eexists. split; [reflexivity|]. split.
    { assert (Hv : forall i c, (i < 3)%nat -> getitem default_colores_gauge i = Ok c ->
                           color_ok c = true).
      { intros i c Hi Hc. pose proof default_colores_validos as V.
        unfold colores_validos in V. rewrite forallb_forall in V.
        apply V. eapply getitem_firstn; eauto. }
      erewrite (grafico_intro (-5) 3 1 objetivo titulo desglose None w
                  (of_decimal 5000 (-1)) _ _ cb);
        [reflexivity|discriminate|vm_compute; reflexivity|vm_compute; reflexivity
        |vm_compute; reflexivity|exact Hcb|reflexivity|reflexivity
        |apply (Hv _ _ (indice_color_barra_lt_3 _ _) Hcb)
        |vm_compute; reflexivity|vm_compute; reflexivity
        |intros _; vm_compute; reflexivity]. }
    split; [destruct desglose; reflexivity|].
    split; [reflexivity|]. split; [vm_compute; reflexivity|].
    split; [|split; vm_compute; reflexivity].
    intros [_ H]. revert H. vm_compute. intros H. apply H. reflexivity.
Qed.

(** C10, as amended.  The flag [mostrar_desglose] decides the breakdown
    annotation and, through the text of the annotation, one more way to
    fail.  When the builder returns with the flag set, it returns without
    it, and the figure built with [False] is the one built with [True]
    without its annotation: same trace, same layout settings, no
    annotation; the figure built with [True] carries exactly one
    annotation, placed under the gauge, whose text is the breakdown of
    total, counts, one-decimal percentages and target.  An error without
    the flag is the same error with it.  The two settings part only when a
    count or the total cannot be turned into text: then the builder
    raises the [ValueError] of the conversion with the flag set and returns
    its figure without it.  For non-negative counts with a positive total
    that can be turned into text, and three colours or more that Plotly
    accepts, both settings return. *)
Theorem C10_breakdown_flag_frame :
  forall positivos negativos neutros objetivo titulo colores w,
    let total := positivos + negativos + neutros in
    let rT := fst (grafico_kpi_sentimiento positivos negativos neutros objetivo
                     titulo true colores w) in
    let rF := fst (grafico_kpi_sentimiento positivos negativos neutros objetivo
                     titulo false colores w) in
    (forall figT,
       rT = Ok figT ->
       rF = Ok (without_annotations figT) /\
       exists pp pn pu a,
         porcentaje positivos total = Ok pp /\
         porcentaje negativos total = Ok pn /\
         porcentaje neutros total = Ok pu /\
         layout_annotations (fig_layout figT) = [a] /\
         ann_text a =
           "<b>Desglose Total: " ++ Format.str_of_Z total ++ "</b><br>"
           ++ "✅ Positivos: " ++ Format.str_of_Z positivos
           ++ " (" ++ Format.fixed1 false pp ++ "%)<br>"
           ++ "❌ Negativos: " ++ Format.str_of_Z negativos
           ++ " (" ++ Format.fixed1 false pn ++ "%)<br>"
           ++ "⚪ Neutros: " ++ Format.str_of_Z neutros
           ++ " (" ++ Format.fixed1 false pu ++ "%)<br>"
           ++ "<b>Objetivo: " ++ Format.repr objetivo ++ "%</b>" /\
         ann_xref a = "paper" /\ ann_yref a = "paper" /\
         ann_x a = lit_0_5 /\ ann_y a = opp lit_0_25 /\
         ann_showarrow a = false /\ ann_align a = "center") /\
    (forall figF,
       rF = Ok figF ->
       layout_annotations (fig_layout figF) = [] /\
       ((exists figT,
           rT = Ok figT /\
           figF = without_annotations figT /\
           fig_data figF = fig_data figT /\
           layout_height (fig_layout figF) = layout_height (fig_layout figT) /\
           layout_margin (fig_layout figF) = layout_margin (fig_layout figT) /\
           layout_paper_bgcolor (fig_layout figF)
           = layout_paper_bgcolor (fig_layout figT) /\
           layout_font (fig_layout figF) = layout_font (fig_layout figT)) \/
        (cuentas_imprimibles positivos negativos neutros = false /\
         rT = Raise (ValueError Format.int_str_limit_message)))) /\
    (forall e, rF = Raise e -> rT = Raise e) /\
    (forall e,
       rT = Raise e ->
       rF = Raise e \/
       (e = ValueError Format.int_str_limit_message /\
        cuentas_imprimibles positivos negativos neutros = false /\
        exists figF, rF = Ok figF)) /\
    (0 <= positivos -> 0 <= negativos -> 0 <= neutros -> 0 < total ->
     (3 <= List.length (colores_en_uso colores))%nat ->
     colores_validos (colores_en_uso colores) = true ->
     cuentas_imprimibles positivos negativos neutros = true ->
     exists figT, rT = Ok figT /\ rF = Ok (without_annotations figT)).
Proof.
  intros positivos negativos neutros objetivo titulo colores w total rT rF.
  assert (HT : forall figT, rT = Ok figT ->
            rF = Ok (without_annotations figT) /\
            exists pp pn pu,
              porcentaje positivos total = Ok pp /\
              porcentaje negativos total = Ok pn /\
              porcentaje neutros total = Ok pu /\
              layout_annotations (fig_layout figT)
              = [desglose (texto_desglose total positivos negativos neutros
                             pp pn pu objetivo)]).
  { intros figT H. apply grafico_ok_full in H.
    destruct H as (Ht & pp & pn & pu & cb & inc & dec
                   & H1 & H2 & H3 & H4 & H5 & H6 & -> & Vc & Vi & Vd & _).
    split.
    - unfold rF.
      rewrite (grafico_intro positivos negativos neutros objetivo titulo false colores w
                 pp pn pu cb inc dec Ht H1 H2 H3 H4 H5 H6 Vc Vi Vd);
        [reflexivity|discriminate].
    - exists pp, pn, pu. repeat split; assumption || reflexivity. }
  split; [|split; [|split; [|split]]].
  - intros figT H. destruct (HT figT H) as (E & pp & pn & pu & H1 & H2 & H3 & Ha).
    split; [exact E|].
    exists pp, pn, pu,
      (desglose (texto_desglose total positivos negativos neutros pp pn pu objetivo)).
    repeat (split; [assumption || reflexivity|]). reflexivity.
  - intros figF H. apply grafico_ok_full in H.
    destruct H as (Ht & pp & pn & pu & cb & inc & dec
                   & H1 & H2 & H3 & H4 & H5 & H6 & -> & Vc & Vi & Vd & _).
    split; [reflexivity|].
    destruct (cuentas_imprimibles positivos negativos neutros) eqn:Hc.
    + left. eexists. split.
      * unfold rT.
        rewrite (grafico_intro positivos negativos neutros objetivo titulo true colores w
                   pp pn pu cb inc dec Ht H1 H2 H3 H4 H5 H6 Vc Vi Vd);
          [reflexivity|intros _; exact Hc].
      * repeat split.
    + right. split; [reflexivity|]. unfold rT.
      rewrite (grafico_after_checks positivos negativos neutros objetivo titulo true
                 colores w pp pn pu cb inc dec Ht H1 H2 H3 H4 H5 H6 Vc Vi Vd).
      rewrite Hc. reflexivity.
  - intros e. unfold rT, rF. rewrite !grafico_steps. cbn [fst andb].
    destruct (_ =? 0); [trivial|].
    destruct (porcentaje positivos _); cbn [and_then]; [|trivial].
    destruct (porcentaje negativos _); cbn [and_then]; [|trivial].
    destruct (porcentaje neutros _); cbn [and_then]; [|trivial].
    destruct (getitem _ (indice_color_barra _ _)); cbn [and_then]; [|trivial].
    destruct (getitem _ 2); cbn [and_then]; [|trivial].
    destruct (getitem _ 0); cbn [and_then]; [|trivial].
    destruct (go_Indicator _); cbn [and_then]; [discriminate|trivial].
  - intros e. unfold rT, rF. rewrite !grafico_steps. cbn [fst andb].
    destruct (_ =? 0); [auto|].
    destruct (porcentaje positivos _); cbn [and_then]; [|auto].
    destruct (porcentaje negativos _); cbn [and_then]; [|auto].
    destruct (porcentaje neutros _); cbn [and_then]; [|auto].
    destruct (getitem _ (indice_color_barra _ _)); cbn [and_then]; [|auto].
    destruct (getitem _ 2); cbn [and_then]; [|auto].
    destruct (getitem _ 0); cbn [and_then]; [|auto].
    destruct (go_Indicator _); cbn [and_then]; [|auto].
    destruct (cuentas_imprimibles positivos negativos neutros); cbn [negb];
      [discriminate|].
    intros [= <-]. right. repeat split. eexists. reflexivity.
  - intros Hp Hn Hu Ht Hl Hv Hc.
    destruct (grafico_returns positivos negativos neutros objetivo titulo true
                colores w Hp Hn Hu Ht Hl Hv (fun _ => Hc)) as [figT H].
    exists figT. assert (E : rT = Ok figT) by (unfold rT; rewrite H; reflexivity).
    split; [exact E|]. apply (HT figT E).
Qed.

(** C10, the claim as first stated, fails on a count too long to be turned
    into text: with [positivos = 10^4300] and no other count the total is
    positive, the builder raises the [ValueError] of the conversion when the
    breakdown is asked for, and returns a figure, with no annotation, when
    it is not.  The flag decides there whether there is a figure at all. *)
Lemma C10_digit_limit_counterexample :
  0 < 10 ^ 4300 + 0 + 0 /\
  fst (grafico_kpi_sentimiento (10 ^ 4300) 0 0 lit_70_0 default_titulo true None
         empty_world)
  = Raise (ValueError Format.int_str_limit_message) /\
  exists fig,
    fst (grafico_kpi_sentimiento (10 ^ 4300) 0 0 lit_70_0 default_titulo false None
           empty_world) = Ok fig /\
    layout_annotations (fig_layout fig) = [].
Proof.
  split.
  { rewrite !Z.add_0_r. apply Z.pow_pos_nonneg; lia. }
  destruct (grafico_cuenta_larga lit_70_0 default_titulo empty_world) as [HT [fig HF]].
  split; [exact HT|]. exists fig. split; [exact HF|].
  apply grafico_ok_inv in HF.
  destruct HF as (_ & pp & pn & pu & cb & inc & dec & _ & _ & _ & _ & _ & _ & ->).
  reflexivity.
Qed.

(** * Further properties of the script *)

(** ** The driver *)

Module Driver.

(** The driver of the source is [driver] at the sample values. *)
Lemma main_is_driver :
  main = driver POSITIVOS NEGATIVOS NEUTROS OBJETIVO TITULO_GRAFICO.
Proof. reflexivity. Qed.

(** One [print] adds one entry to the console and nothing else. *)
Lemma bind_print {A} s (k : unit -> M A) so di fi :
  bind (print s) k (mkWorld so di fi) = k tt (mkWorld (so ++ [s]) di fi).
Proof. reflexivity. Qed.

Lemma bind_lift {A B} (r : result A) (k : A -> M B) w :
  bind (lift r) k w = match r with Ok a => k a w | Raise e => (Raise e, w) end.
Proof. unfold bind, lift. destruct r; reflexivity. Qed.

Section Run.

Variables positivos negativos neutros : Z.
Variable objetivo : float.
Variable titulo_grafico : string.
Variable w : World.

Let total := positivos + negativos + neutros.

(** The driver, once line 180 has given [pa] and the counts can be turned
    into text: fifteen prints, then the builder, then the display. *)
Lemma driver_after_line_180 pa :
  porcentaje positivos total = Ok pa ->
  cuentas_imprimibles positivos negativos neutros = true ->
  driver positivos negativos neutros objetivo titulo_grafico w
  = let w' := mkWorld (stdout w ++ lineas_consola positivos negativos neutros objetivo pa)
                (displayed w) (files w) in
    match fst (grafico_kpi_sentimiento positivos negativos neutros objetivo
                 titulo_grafico true None w') with
    | Ok fig => (Ok tt, mkWorld (stdout w') (displayed w ++ [fig]) (files w))
    | Raise e => (Raise e, w')
    end.
Proof.
  intros H Hc. unfold cuentas_imprimibles in Hc.
  apply andb_prop in Hc. destruct Hc as [Hc Hu].
  apply andb_prop in Hc. destruct Hc as [Hc Hn].
  apply andb_prop in Hc. destruct Hc as [Ht Hp].
  unfold driver. fold total. rewrite bind_lift, H.
  destruct w as [so di fi]. cbn [stdout displayed files].
  repeat (rewrite bind_print; cbv beta).
  rewrite bind_lift, (format_int_ok _ Hp). rewrite bind_print; cbv beta.
  rewrite bind_lift, (format_int_ok _ Hn). rewrite bind_print; cbv beta.
  rewrite bind_lift, (format_int_ok _ Hu). rewrite bind_print; cbv beta.
  rewrite bind_lift. unfold total at 1. rewrite (format_int_ok _ Ht).
  repeat (rewrite bind_print; cbv beta).
  repeat rewrite <- app_assoc.
  cbn [app]. unfold lineas_consola. fold total.
  unfold bind. rewrite grafico_run. cbn [fst].
  destruct (fst (grafico_kpi_sentimiento _ _ _ _ _ _ _ empty_world)); reflexivity.
Qed.

(** Line 180 fails before anything is printed. *)
Lemma driver_line_180_fails e :
  porcentaje positivos total = Raise e ->
  driver positivos negativos neutros objetivo titulo_grafico w = (Raise e, w).
Proof.
  intros H. unfold driver. fold total. rewrite bind_lift, H. reflexivity.
Qed.

(** A count that cannot be turned into text stops the driver in its own
    f-strings, lines 187 to 190, if not at line 180: something is raised,
    the builder is not reached, and no more than seven lines are printed,
    four when the long count is [positivos]. *)
Lemma driver_cuenta_larga :
  cuentas_imprimibles positivos negativos neutros = false ->
  exists e lineas,
    driver positivos negativos neutros objetivo titulo_grafico w
    = (Raise e, mkWorld (stdout w ++ lineas) (displayed w) (files w)) /\
    (List.length lineas <= 7)%nat /\
    (Format.int_str_ok positivos = false -> (List.length lineas <= 4)%nat).
Proof.
  intros Hc.
  destruct (porcentaje positivos total) as [pa|e] eqn:H.
  - unfold driver. fold total. rewrite bind_lift, H.
    destruct w as [so di fi]. cbn [stdout displayed files].
    repeat (rewrite bind_print; cbv beta).
    repeat rewrite <- app_assoc. cbn [app].
    rewrite bind_lift.
    destruct (Format.int_str_ok positivos) eqn:Hp;
      [rewrite (format_int_ok _ Hp)|rewrite (format_int_raise _ Hp)].
    2: { eexists. eexists. split; [reflexivity|]. cbn [List.length]. split; intros; lia. }
    rewrite bind_print; cbv beta. rewrite bind_lift.
    repeat rewrite <- app_assoc. cbn [app].
    destruct (Format.int_str_ok negativos) eqn:Hn;
      [rewrite (format_int_ok _ Hn)|rewrite (format_int_raise _ Hn)].
    2: { eexists. eexists. split; [reflexivity|]. cbn [List.length].
         split; [lia|discriminate]. }
    rewrite bind_print; cbv beta. rewrite bind_lift.
    repeat rewrite <- app_assoc. cbn [app].
    destruct (Format.int_str_ok neutros) eqn:Hu;
      [rewrite (format_int_ok _ Hu)|rewrite (format_int_raise _ Hu)].
    2: { eexists. eexists. split; [reflexivity|]. cbn [List.length].
         split; [lia|discriminate]. }
    rewrite bind_print; cbv beta. rewrite bind_lift.
    repeat rewrite <- app_assoc. cbn [app].
    destruct (Format.int_str_ok total) eqn:Ht;
      [|rewrite (format_int_raise _ Ht)].
    { exfalso. unfold cuentas_imprimibles in Hc. fold total in Hc.
      rewrite Ht, Hp, Hn, Hu in Hc. discriminate. }
    eexists. eexists. split; [reflexivity|]. cbn [List.length].
    split; [lia|discriminate].
  - rewrite (driver_line_180_fails e H). exists e, [].
    rewrite app_nil_r. destruct w. split; [reflexivity|]. cbn [List.length]. split; intros; lia.
Qed.

(** When the driver completes it has printed its fifteen lines and
    displayed the figure of the builder. *)
Lemma driver_completes :
  fst (driver positivos negativos neutros objetivo titulo_grafico w) = Ok tt ->
  let w' := snd (driver positivos negativos neutros objetivo titulo_grafico w) in
  exists pa fig,
    porcentaje positivos total = Ok pa /\
    fst (grafico_kpi_sentimiento positivos negativos neutros objetivo
           titulo_grafico true None w) = Ok fig /\
    stdout w' = (stdout w ++ lineas_consola positivos negativos neutros objetivo pa)%list /\
    displayed w' = (displayed w ++ [fig])%list /\
    files w' = files w.
Proof.
  intros H w'. revert H. unfold w'.
  destruct (cuentas_imprimibles positivos negativos neutros) eqn:Hc.
  2: { destruct (driver_cuenta_larga Hc) as (e & lineas & E & _). rewrite E. discriminate. }
  destruct (porcentaje positivos total) as [pa|e] eqn:E.
  - rewrite (driver_after_line_180 pa E Hc). cbv zeta.
    rewrite grafico_run. cbn [fst].
    rewrite (grafico_run _ _ _ _ _ _ _ w). cbn [fst].
    destruct (fst (grafico_kpi_sentimiento _ _ _ _ _ _ _ empty_world)) as [fig|e];
      [|discriminate].
    intros _. exists pa, fig. cbn [fst snd stdout displayed files].
    repeat split.
  - rewrite (driver_line_180_fails e E). discriminate.
Qed.

End Run.

Lemma porcentaje_zero_total c :
  porcentaje c 0 = Raise (ZeroDivisionError "division by zero").
Proof. reflexivity. Qed.

End Driver.

(** With a zero total the driver stops at line 180 with the
    [ZeroDivisionError] of [POSITIVOS / total]: nothing is printed, nothing
    is displayed, and the builder, whose own check would have raised the
    [ValueError] of line 42, is never called. *)
Theorem driver_zero_total :
  forall positivos negativos neutros objetivo titulo_grafico w,
    positivos + negativos + neutros = 0 ->
    driver positivos negativos neutros objetivo titulo_grafico w
    = (Raise (ZeroDivisionError "division by zero"), w) /\
    fst (grafico_kpi_sentimiento positivos negativos neutros objetivo
           titulo_grafico true None w)
    = Raise (ValueError empty_total_message).
Proof.
  intros positivos negativos neutros objetivo titulo_grafico w H. split.
  - apply Driver.driver_line_180_fails. rewrite H. apply Driver.porcentaje_zero_total.
  - unfold grafico_kpi_sentimiento. rewrite H. reflexivity.
Qed.

Lemma driver_zero_total_witness :
  0 + 0 + 0 = 0 /\
  driver 0 0 0 lit_70_0 default_titulo empty_world
  = (Raise (ZeroDivisionError "division by zero"), empty_world) /\
  fst (grafico_kpi_sentimiento 0 0 0 lit_70_0 default_titulo true None empty_world)
  = Raise (ValueError empty_total_message).
Proof.
  split; [reflexivity|].
  apply (driver_zero_total 0 0 0 lit_70_0 default_titulo empty_world). reflexivity.
Defined.

(** When the driver completes it has printed its fifteen lines, in order,
    after what was already on the console; it has displayed exactly one
    more figure, the one the builder returns for the same values with the
    breakdown and the default colours; and it has written no file. *)
Theorem driver_completes_effects :
  forall positivos negativos neutros objetivo titulo_grafico w,
    fst (driver positivos negativos neutros objetivo titulo_grafico w) = Ok tt ->
    let w' := snd (driver positivos negativos neutros objetivo titulo_grafico w) in
    exists pa fig,
      porcentaje positivos (positivos + negativos + neutros) = Ok pa /\
      fst (grafico_kpi_sentimiento positivos negativos neutros objetivo
             titulo_grafico true None w) = Ok fig /\
      stdout w' = (stdout w ++ lineas_consola positivos negativos neutros objetivo pa)%list /\
      List.length (stdout w') = (List.length (stdout w) + 15)%nat /\
      displayed w' = (displayed w ++ [fig])%list /\
      files w' = files w.
Proof.
  intros positivos negativos neutros objetivo titulo_grafico w H w'.
  destruct (Driver.driver_completes _ _ _ _ _ _ H) as (pa & fig & E & Hf & Hs & Hd & Hfi).
  fold w' in Hs, Hd, Hfi.
  exists pa, fig. repeat (split; [assumption|]). split; [|split; assumption].
  rewrite Hs, length_app. reflexivity.
Qed.

Lemma driver_completes_effects_witness :
  fst (driver 120 30 50 lit_70_0 default_titulo empty_world) = Ok tt /\
  let w' := snd (driver 120 30 50 lit_70_0 default_titulo empty_world) in
  exists pa fig,
    porcentaje 120 (120 + 30 + 50) = Ok pa /\
    fst (grafico_kpi_sentimiento 120 30 50 lit_70_0 default_titulo true None
           empty_world) = Ok fig /\
    stdout w' = (stdout empty_world ++ lineas_consola 120 30 50 lit_70_0 pa)%list /\
    List.length (stdout w') = (List.length (stdout empty_world) + 15)%nat /\
    displayed w' = (displayed empty_world ++ [fig])%list /\
    files w' = files empty_world.
Proof.
  split; [vm_compute; reflexivity|].
  apply (driver_completes_effects 120 30 50 lit_70_0 default_titulo empty_world).
  vm_compute. reflexivity.
Defined.

(** A count, or a total, of more than 4300 digits stops the driver
    before it reaches the builder: the driver raises (at the latest in the
    f-string that has to write the long integer, lines 187 to 190), it
    displays nothing and writes no file, and it has printed no more than
    seven of its lines, no more than four when the long count is
    [positivos]. *)
Theorem driver_failure_modes :
  forall positivos negativos neutros objetivo titulo_grafico w,
    cuentas_imprimibles positivos negativos neutros = false ->
    let r := driver positivos negativos neutros objetivo titulo_grafico w in
    exists e lineas,
      fst r = Raise e /\
      stdout (snd r) = (stdout w ++ lineas)%list /\
      (List.length lineas <= 7)%nat /\
      (Format.int_str_ok positivos = false -> (List.length lineas <= 4)%nat) /\
      displayed (snd r) = displayed w /\
      files (snd r) = files w.
Proof.
  intros positivos negativos neutros objetivo titulo_grafico w Hc r.
  destruct (Driver.driver_cuenta_larga positivos negativos neutros objetivo
              titulo_grafico w Hc) as (e & lineas & E & H7 & H4).
  exists e, lineas. unfold r. rewrite E. cbn [fst snd stdout displayed files].
  repeat split; assumption.
Qed.

Lemma driver_failure_modes_witness :
  cuentas_imprimibles (10 ^ 4300) 0 0 = false /\
  let r := driver (10 ^ 4300) 0 0 lit_70_0 default_titulo empty_world in
  exists e lineas,
    fst r = Raise e /\
    stdout (snd r) = (stdout empty_world ++ lineas)%list /\
    (List.length lineas <= 7)%nat /\
    (Format.int_str_ok (10 ^ 4300) = false -> (List.length lineas <= 4)%nat) /\
    displayed (snd r) = displayed empty_world /\
    files (snd r) = files empty_world.
Proof.
  assert (Hc : cuentas_imprimibles (10 ^ 4300) 0 0 = false).
  { unfold cuentas_imprimibles. rewrite !Z.add_0_r, int_str_ok_limit. reflexivity. }
  split; [exact Hc|].
  exact (driver_failure_modes (10 ^ 4300) 0 0 lit_70_0 default_titulo empty_world Hc).
Defined.

(** The status line of the console and the colour of the bar agree: both
    come from the same ladder on the same float.  When the driver
    completes, the eleventh line it printed is the status of the value the
    displayed gauge shows, and "objetivo alcanzado" goes with the third
    default colour, "cerca" with the second and "por debajo" with the
    first. *)
Theorem driver_status_matches_bar :
  forall positivos negativos neutros objetivo titulo_grafico w,
    fst (driver positivos negativos neutros objetivo titulo_grafico w) = Ok tt ->
    let w' := snd (driver positivos negativos neutros objetivo titulo_grafico w) in
    exists fig ind,
      displayed w' = (displayed w ++ [fig])%list /\
      fig_data fig = [ind] /\
      nth_error (stdout w') (List.length (stdout w) + 10)
      = Some (Format.newline ++ estado (ind_value ind) objetivo) /\
      nth_error (stdout w') (List.length (stdout w) + 9)
      = Some ("📈 Resultado actual: " ++ Format.fixed1 false (ind_value ind) ++ "%") /\
      ((estado (ind_value ind) objetivo = "✅ ¡OBJETIVO ALCANZADO!" /\
        bar_color (gauge_bar (ind_gauge ind)) = "#2ecc71") \/
       (estado (ind_value ind) objetivo = "⚠️  Cerca del objetivo" /\
        bar_color (gauge_bar (ind_gauge ind)) = "#f39c12") \/
       (estado (ind_value ind) objetivo = "❌ Por debajo del objetivo" /\
        bar_color (gauge_bar (ind_gauge ind)) = "#e74c3c")).
Proof.
  intros positivos negativos neutros objetivo titulo_grafico w H w'.
  destruct (Driver.driver_completes _ _ _ _ _ _ H) as (pa & fig & E & Hf & Hs & Hd & _).
  fold w' in Hs, Hd.
  apply grafico_ok_inv in Hf.
  destruct Hf as (_ & pp & pn & pu & cb & inc & dec & H1 & _ & _ & H4 & _ & _ & ->).
  rewrite E in H1. injection H1 as <-.
  exists (figura (positivos + negativos + neutros) positivos negativos neutros
            pa pn pu objetivo titulo_grafico true cb inc dec),
         (indicador pa objetivo titulo_grafico cb inc dec).
  split; [exact Hd|]. split; [reflexivity|].
  cbn [ind_value indicador ind_gauge gauge_bar bar_color].
  rewrite Hs. split; [|split].
  - rewrite nth_error_app2 by lia.
    replace (List.length (stdout w) + 10 - List.length (stdout w))%nat with 10%nat by lia.
    reflexivity.
  - rewrite nth_error_app2 by lia.
    replace (List.length (stdout w) + 9 - List.length (stdout w))%nat with 9%nat by lia.
    reflexivity.
  - revert H4. unfold indice_color_barra, estado. cbn [colores_en_uso].
    destruct (ge pa objetivo); [|destruct (ge pa (mul objetivo lit_0_7))];
      cbn; intros [= <-]; auto.
Qed.

Lemma driver_status_matches_bar_witness :
  fst (driver 120 30 50 lit_70_0 default_titulo empty_world) = Ok tt /\
  let w' := snd (driver 120 30 50 lit_70_0 default_titulo empty_world) in
  exists fig ind,
    displayed w' = (displayed empty_world ++ [fig])%list /\
    fig_data fig = [ind] /\
    nth_error (stdout w') (List.length (stdout empty_world) + 10)
    = Some (Format.newline ++ estado (ind_value ind) lit_70_0) /\
    nth_error (stdout w') (List.length (stdout empty_world) + 9)
    = Some ("📈 Resultado actual: " ++ Format.fixed1 false (ind_value ind) ++ "%") /\
    ((estado (ind_value ind) lit_70_0 = "✅ ¡OBJETIVO ALCANZADO!" /\
      bar_color (gauge_bar (ind_gauge ind)) = "#2ecc71") \/
     (estado (ind_value ind) lit_70_0 = "⚠️  Cerca del objetivo" /\
      bar_color (gauge_bar (ind_gauge ind)) = "#f39c12") \/
     (estado (ind_value ind) lit_70_0 = "❌ Por debajo del objetivo" /\
      bar_color (gauge_bar (ind_gauge ind)) = "#e74c3c")).
Proof.
  split; [vm_compute; reflexivity|].
  apply (driver_status_matches_bar 120 30 50 lit_70_0 default_titulo empty_world).
  vm_compute. reflexivity.
Defined.

(** ** More on the builder *)

(** Only the first three entries of [colores_gauge] are ever read: a longer
    list gives the same result as its first three entries; and passing no
    list is passing the default one. *)
Theorem colores_gauge_first_three :
  forall positivos negativos neutros objetivo titulo desglose c0 c1 c2 rest w,
    grafico_kpi_sentimiento positivos negativos neutros objetivo titulo desglose
      (Some (c0 :: c1 :: c2 :: rest)) w
    = grafico_kpi_sentimiento positivos negativos neutros objetivo titulo desglose
        (Some [c0; c1; c2]) w /\
    grafico_kpi_sentimiento positivos negativos neutros objetivo titulo desglose
      None w
    = grafico_kpi_sentimiento positivos negativos neutros objetivo titulo desglose
        (Some default_colores_gauge) w.
Proof.
  intros positivos negativos neutros objetivo titulo desglose c0 c1 c2 rest w.
  split; [|reflexivity].
  unfold grafico_kpi_sentimiento.
  destruct (positivos + negativos + neutros =? 0); [reflexivity|].
  unfold bind, lift, ret.
  destruct (porcentaje positivos _) as [pp|]; [|reflexivity].
  destruct (porcentaje negativos _); [|reflexivity].
  destruct (porcentaje neutros _); [|reflexivity].
  unfold indice_color_barra.
  destruct (ge pp objetivo); [reflexivity|].
  destruct (ge pp (mul objetivo lit_0_7)); reflexivity.
Qed.

(** The trace of the gauge depends on [negativos] and [neutros] only
    through their sum: two calls with the same [positivos], target, title
    and colours whose other two counts add up to the same number return
    figures with the same trace, whatever the breakdown flags. *)
Theorem trace_depends_on_sum :
  forall positivos negativos neutros negativos' neutros' objetivo titulo
         desglose desglose' colores w w' fig fig',
    negativos + neutros = negativos' + neutros' ->
    fst (grafico_kpi_sentimiento positivos negativos neutros objetivo titulo
           desglose colores w) = Ok fig ->
    fst (grafico_kpi_sentimiento positivos negativos' neutros' objetivo titulo
           desglose' colores w') = Ok fig' ->
    fig_data fig = fig_data fig'.
Proof.
  intros positivos negativos neutros negativos' neutros' objetivo titulo
         desglose desglose' colores w w' fig fig' Hs H H'.
  apply grafico_ok_inv in H, H'.
  destruct H as (_ & pp & pn & pu & cb & inc & dec & H1 & _ & _ & H4 & H5 & H6 & ->).
  destruct H' as (_ & pp' & pn' & pu' & cb' & inc' & dec' & H1' & _ & _ & H4' & H5' & H6' & ->).
  replace (positivos + negativos' + neutros') with (positivos + negativos + neutros) in H1' by lia.
  rewrite H1 in H1'. injection H1' as <-.
  rewrite H4 in H4'. injection H4' as <-.
  rewrite H5 in H5'. injection H5' as <-.
  rewrite H6 in H6'. injection H6' as <-.
  destruct desglose, desglose'; reflexivity.
Qed.

Lemma trace_depends_on_sum_witness :
  exists fig fig',
    (30 + 50 = 80 + 0 /\
     fst (grafico_kpi_sentimiento 120 30 50 lit_70_0 default_titulo true None
            empty_world) = Ok fig /\
     fst (grafico_kpi_sentimiento 120 80 0 lit_70_0 default_titulo false None
            empty_world) = Ok fig') /\
    fig_data fig = fig_data fig'.
Proof.
  assert (H1 : 30 + 50 = 80 + 0) by reflexivity.
  assert (H2 : exists fig,
             fst (grafico_kpi_sentimiento 120 30 50 lit_70_0 default_titulo true None
                    empty_world) = Ok fig)
    by (vm_compute; eexists; reflexivity).
  assert (H3 : exists fig,
             fst (grafico_kpi_sentimiento 120 80 0 lit_70_0 default_titulo false None
                    empty_world) = Ok fig)
    by (vm_compute; eexists; reflexivity).
  destruct H2 as [fig H2]. destruct H3 as [fig' H3].
  exists fig, fig'. split; [auto|].
  exact (trace_depends_on_sum 120 30 50 80 0 lit_70_0 default_titulo true false
           None empty_world empty_world fig fig' H1 H2 H3).
Defined.

(** The colours of a returned figure hang together.  The number takes the
    colour of the bar; that colour is one of the first three entries of the
    colour list in effect; the delta is coloured with entry 2 when
    increasing and entry 0 when decreasing, so a bar in the high tier has
    the increasing colour and a bar in the low tier the decreasing one; and
    the threshold line is the fixed ["#e74c3c"], whatever the list. *)
Theorem figure_colors_consistent :
  forall positivos negativos neutros objetivo titulo desglose colores w fig,
    fst (grafico_kpi_sentimiento positivos negativos neutros objetivo titulo
           desglose colores w) = Ok fig ->
    exists ind,
      fig_data fig = [ind] /\
      let cs := colores_en_uso colores in
      let bar := bar_color (gauge_bar (ind_gauge ind)) in
      font_color (number_font (ind_number ind)) = Some bar /\
      In bar (firstn 3 cs) /\
      getitem cs 2 = Ok (delta_increasing_color (ind_delta ind)) /\
      getitem cs 0 = Ok (delta_decreasing_color (ind_delta ind)) /\
      (ge (ind_value ind) objetivo = true ->
       bar = delta_increasing_color (ind_delta ind)) /\
      (ge (ind_value ind) objetivo = false ->
       ge (ind_value ind) (mul objetivo lit_0_7) = false ->
       bar = delta_decreasing_color (ind_delta ind)) /\
      line_color (threshold_line (gauge_threshold (ind_gauge ind))) = "#e74c3c".
Proof.
  intros positivos negativos neutros objetivo titulo desglose colores w fig H.
  apply grafico_ok_inv in H.
  destruct H as (_ & pp & pn & pu & cb & inc & dec & _ & _ & _ & H4 & H5 & H6 & ->).
  exists (indicador pp objetivo titulo cb inc dec).
  split; [destruct desglose; reflexivity|].
  cbn [indicador ind_gauge gauge_bar bar_color ind_number number_font font_color
       ind_delta delta_increasing_color delta_decreasing_color ind_value
       gauge_threshold threshold_line line_color].
  set (cs := colores_en_uso colores) in *.
  split; [reflexivity|]. split; [|split; [exact H5|split; [exact H6|]]].
  - unfold getitem in H4, H5.
    destruct cs as [|x0 [|x1 [|x2 rest]]]; cbn in H5; try discriminate.
    revert H4. unfold indice_color_barra.
    destruct (ge pp objetivo); [|destruct (ge pp (mul objetivo lit_0_7))];
      cbn; intros [= <-]; auto.
  - unfold indice_color_barra in H4. repeat split.
    + intros E. rewrite E in H4. rewrite H5 in H4. injection H4 as <-. reflexivity.
    + intros E1 E2. rewrite E1, E2 in H4. rewrite H6 in H4. injection H4 as <-. reflexivity.
Qed.

Lemma figure_colors_consistent_witness :
  exists fig,
    fst (grafico_kpi_sentimiento 120 30 50 lit_70_0 default_titulo true
           (Some MIS_COLORES) empty_world) = Ok fig /\
    exists ind,
      fig_data fig = [ind] /\
      let cs := colores_en_uso (Some MIS_COLORES) in
      let bar := bar_color (gauge_bar (ind_gauge ind)) in
      font_color (number_font (ind_number ind)) = Some bar /\
      In bar (firstn 3 cs) /\
      getitem cs 2 = Ok (delta_increasing_color (ind_delta ind)) /\
      getitem cs 0 = Ok (delta_decreasing_color (ind_delta ind)) /\
      (ge (ind_value ind) lit_70_0 = true ->
       bar = delta_increasing_color (ind_delta ind)) /\
      (ge (ind_value ind) lit_70_0 = false ->
       ge (ind_value ind) (mul lit_70_0 lit_0_7) = false ->
       bar = delta_decreasing_color (ind_delta ind)) /\
      line_color (threshold_line (gauge_threshold (ind_gauge ind))) = "#e74c3c".
Proof.
  eexists. split; [vm_compute; reflexivity|].
  apply (figure_colors_consistent 120 30 50 lit_70_0 default_titulo true
           (Some MIS_COLORES) empty_world).
  vm_compute. reflexivity.
Defined.

(** For non-negative counts with a positive total the needle stays on the
    dial: given three colours or more that Plotly accepts, and counts that
    can be turned into text when the breakdown is asked for, the builder
    returns a figure whose gauge value is a finite float between 0 and 100,
    the ends of the axis, and within [pct_error] of the exact percentage
    of positives. *)
Theorem gauge_value_on_axis :
  forall positivos negativos neutros objetivo titulo desglose colores w,
    0 <= positivos -> 0 <= negativos -> 0 <= neutros ->
    0 < positivos + negativos + neutros ->
    (3 <= List.length (colores_en_uso colores))%nat ->
    colores_validos (colores_en_uso colores) = true ->
    (desglose = true -> cuentas_imprimibles positivos negativos neutros = true) ->
    exists fig ind,
      fst (grafico_kpi_sentimiento positivos negativos neutros objetivo titulo
             desglose colores w) = Ok fig /\
      fig_data fig = [ind] /\
      axis_range (gauge_axis (ind_gauge ind)) = [0; 100] /\
      is_finite (ind_value ind) = true /\
      (0 <= to_Q (ind_value ind) <= 100)%Q /\
      (Qabs (to_Q (ind_value ind)
             - pct_exact positivos (positivos + negativos + neutros))
       <= pct_error)%Q.
Proof.
  intros positivos negativos neutros objetivo titulo desglose colores w
         Hp Hn Hu Ht Hl Hv Hc.
  destruct (grafico_returns positivos negativos neutros objetivo titulo desglose
              colores w Hp Hn Hu Ht Hl Hv Hc) as [fig Hf].
  assert (Hf' : fst (grafico_kpi_sentimiento positivos negativos neutros objetivo titulo
                       desglose colores w) = Ok fig) by (rewrite Hf; reflexivity).
  pose proof Hf' as Hi. apply grafico_ok_inv in Hi.
  destruct Hi as (_ & pp & pn & pu & cb & inc & dec & H1 & _ & _ & _ & _ & _ & ->).
  destruct (porcentaje_ok positivos (positivos + negativos + neutros)) as (y & E & F & B & Er);
    [lia|exact Ht|].
  rewrite H1 in E. injection E as <-.
  eexists. exists (indicador pp objetivo titulo cb inc dec).
  split; [exact Hf'|]. split; [destruct desglose; reflexivity|].
  cbn [indicador ind_gauge gauge_axis axis_range ind_value].
  split; [reflexivity|]. split.
  { destruct pp as [[]|[]| |[] ? ?]; cbn in F |- *; congruence. }
  split; [exact B|].
  unfold pct_exact.
  setoid_replace (inject_Z positivos / inject_Z (positivos + negativos + neutros) * 100)%Q
    with (100 * (inject_Z positivos / inject_Z (positivos + negativos + neutros)))%Q by ring.
  exact Er.
Qed.

Lemma gauge_value_on_axis_witness :
  (0 <= 34 /\ 0 <= 33 /\ 0 <= 33 /\ 0 < 34 + 33 + 33 /\
   (3 <= List.length (colores_en_uso None))%nat /\
   colores_validos (colores_en_uso None) = true /\
   (true = true -> cuentas_imprimibles 34 33 33 = true)) /\
  exists fig ind,
    fst (grafico_kpi_sentimiento 34 33 33 lit_70_0 default_titulo true None
           empty_world) = Ok fig /\
    fig_data fig = [ind] /\
    axis_range (gauge_axis (ind_gauge ind)) = [0; 100] /\
    is_finite (ind_value ind) = true /\
    (0 <= to_Q (ind_value ind) <= 100)%Q /\
    (Qabs (to_Q (ind_value ind) - pct_exact 34 (34 + 33 + 33)) <= pct_error)%Q.
Proof.
  split; [repeat split; try (cbn; lia); vm_compute; reflexivity|].
  apply (gauge_value_on_axis 34 33 33 lit_70_0 default_titulo true None empty_world);
    try (cbn; lia); try (intros _); vm_compute; reflexivity.
Defined.

(** ** The two ends of the dial *)

(** The two ends of the dial are exact.  When every count is positive
    sentiment the gauge value is the float 100.0, not a neighbour of it,
    and the other two percentages are +0.0; when no count is positive
    sentiment (and the total is positive) the gauge value is +0.0.  In
    both cases a figure is returned, given three colours or more that
    Plotly accepts and, when the breakdown is asked for, counts that can be
    turned into text. *)
Theorem dial_ends_exact :
  forall positivos negativos neutros objetivo titulo desglose colores w,
    (3 <= List.length (colores_en_uso colores))%nat ->
    colores_validos (colores_en_uso colores) = true ->
    (0 < positivos ->
     (desglose = true -> cuentas_imprimibles positivos 0 0 = true) ->
     porcentaje positivos (positivos + 0 + 0) = Ok (of_decimal 1000 (-1)) /\
     porcentaje 0 (positivos + 0 + 0) = Ok (S754_zero false) /\
     exists fig ind,
       fst (grafico_kpi_sentimiento positivos 0 0 objetivo titulo desglose
              colores w) = Ok fig /\
       fig_data fig = [ind] /\
       ind_value ind = of_decimal 1000 (-1)) /\
    (0 <= negativos -> 0 <= neutros -> 0 < negativos + neutros ->
     (desglose = true -> cuentas_imprimibles 0 negativos neutros = true) ->
     porcentaje 0 (0 + negativos + neutros) = Ok (S754_zero false) /\
     exists fig ind,
       fst (grafico_kpi_sentimiento 0 negativos neutros objetivo titulo desglose
              colores w) = Ok fig /\
       fig_data fig = [ind] /\
       ind_value ind = S754_zero false).
Proof.
  intros positivos negativos neutros objetivo titulo desglose colores w Hl Hv.
  assert (Hzero : forall t, 0 < t -> porcentaje 0 t = Ok (S754_zero false)).
  { intros t Ht. unfold porcentaje, int_true_divide.
    destruct (Z.eqb_spec t 0) as [|_]; [lia|]. cbn [Z.eqb].
    assert (Hs : (t <? 0) = false) by (apply Z.ltb_ge; lia). rewrite Hs. reflexivity. }
  assert (Hfig : forall p n u pp,
            0 <= p -> 0 <= n -> 0 <= u -> 0 < p + n + u ->
            (desglose = true -> cuentas_imprimibles p n u = true) ->
            porcentaje p (p + n + u) = Ok pp ->
            exists fig ind,
              fst (grafico_kpi_sentimiento p n u objetivo titulo desglose colores w)
              = Ok fig /\ fig_data fig = [ind] /\ ind_value ind = pp).
  { intros p n u pp Hp Hn Hu Ht Hc E.
    destruct (grafico_returns p n u objetivo titulo desglose colores w
                Hp Hn Hu Ht Hl Hv Hc) as [fig Hf].
    assert (Hf' : fst (grafico_kpi_sentimiento p n u objetivo titulo desglose colores w)
                  = Ok fig) by (rewrite Hf; reflexivity).
    pose proof Hf' as Hi. apply grafico_ok_inv in Hi.
    destruct Hi as (_ & pp' & pn & pu & cb & inc & dec & H1 & _ & _ & _ & _ & _ & ->).
    rewrite E in H1. injection H1 as <-.
    eexists. exists (indicador pp objetivo titulo cb inc dec).
    split; [exact Hf'|]. split; [destruct desglose; reflexivity|reflexivity]. }
  split.
  - intros Hp Hc.
    assert (E : porcentaje positivos (positivos + 0 + 0) = Ok (of_decimal 1000 (-1))).
    { replace (positivos + 0 + 0) with positivos by lia.
      unfold porcentaje. rewrite int_true_divide_same by lia. reflexivity. }
    split; [exact E|]. split; [apply Hzero; lia|].
    apply Hfig; [lia|lia|lia|lia|exact Hc|exact E].
  - intros Hn Hu Ht Hc.
    assert (E : porcentaje 0 (0 + negativos + neutros) = Ok (S754_zero false)).
    { apply Hzero. lia. }
    split; [exact E|]. apply Hfig; [lia|lia|lia|lia|exact Hc|exact E].
Qed.

Lemma dial_ends_exact_witness :
  ((3 <= List.length (colores_en_uso None))%nat /\
   colores_validos (colores_en_uso None) = true) /\
  (0 < 7 ->
   (true = true -> cuentas_imprimibles 7 0 0 = true) ->
   porcentaje 7 (7 + 0 + 0) = Ok (of_decimal 1000 (-1)) /\
   porcentaje 0 (7 + 0 + 0) = Ok (S754_zero false) /\
   exists fig ind,
     fst (grafico_kpi_sentimiento 7 0 0 lit_70_0 default_titulo true None
            empty_world) = Ok fig /\
     fig_data fig = [ind] /\
     ind_value ind = of_decimal 1000 (-1)) /\
  (0 <= 3 -> 0 <= 4 -> 0 < 3 + 4 ->
   (true = true -> cuentas_imprimibles 0 3 4 = true) ->
   porcentaje 0 (0 + 3 + 4) = Ok (S754_zero false) /\
   exists fig ind,
     fst (grafico_kpi_sentimiento 0 3 4 lit_70_0 default_titulo true None
            empty_world) = Ok fig /\
     fig_data fig = [ind] /\
     ind_value ind = S754_zero false).
Proof.
  split; [split; [cbn; lia|vm_compute; reflexivity]|].
  apply (dial_ends_exact 7 3 4 lit_70_0 default_titulo true None empty_world).
  - cbn. lia.
  - vm_compute. reflexivity.
Defined.
